(** * Backup system: artifact store, storage fan-out, pipeline, restore, scheduler

    A shallow embedding of the Python sources
      src/backup_manager.py, src/storage_handler.py, src/database_connector.py,
      src/google_drive_handler.py, src/backup_orchestrator.py, src/scheduler.py,
      src/notification_service.py, src/config_manager.py, main.py
    together with the properties the specification states about them and
    further properties of the code.

    Conventions of the embedding.
    - The file system is an association list from paths to file metadata, in
      directory-listing order (the order [os.listdir] returns is arbitrary and
      feeds a stable sort, so it is kept).
    - Everything outside the repository (MySQL, mysqldump, gzip, FTP, SFTP,
      Google Drive, the clock, the [schedule] library, Python's [int]) is an
      oracle in [env]; an oracle that depends on the state of the machine
      sees the whole world, so its answers may change from call to call.
    - The file system is flat: a path can be written when it is not empty;
      the directories the code writes to exist ([BackupManager.__init__]
      creates the backup directory).
    - Python code that can raise runs in a state-and-exception monad [M].
    - The trace keeps warnings, errors, calls to external services and the
      calls to the notification service; informational log lines are left
      out, and so are the pictograms some messages start with.
    - Times are integers, microseconds since 1970-01-01; sizes are bytes. *)

From Stdlib Require Import ZArith Lia Ascii String Sorted.
From stdpp Require Import base list strings pretty gmap.

(** ** Python string and path functions *)

Module PyStr.

(** [s.startswith(p)] *)
Definition startswith (s p : string) : bool := String.prefix p s.

(** [s.endswith(suf)] *)
Fixpoint endswith (s suf : string) : bool :=
  String.eqb s suf ||
  match s with
  | EmptyString => false
  | String _ s' => endswith s' suf
  end.

Fixpoint drop (n : nat) (s : string) : string :=
  match n, s with
  | O, _ => s
  | S _, EmptyString => EmptyString
  | S n', String _ s' => drop n' s'
  end.

(** [s.replace(old, new)]: the leftmost non-overlapping occurrences of a
    non-empty [old] (every call site passes a literal). *)
Fixpoint replace_go (fuel : nat) (old new s : string) : string :=
  match fuel with
  | O => s
  | S fuel' =>
      if String.prefix old s
      then new +:+ replace_go fuel' old new (drop (String.length old) s)
      else match s with
           | EmptyString => EmptyString
           | String c s' => String c (replace_go fuel' old new s')
           end
  end.

Definition replace (s old new : string) : string :=
  replace_go (S (String.length s)) old new s.

Fixpoint contains_char (c : ascii) (s : string) : bool :=
  match s with
  | EmptyString => false
  | String c' s' => Ascii.eqb c c' || contains_char c s'
  end.

(** The integer [int(s)] reads in ASCII text: surrounding white space, an
    optional sign, at most 4300 decimal digits with single underscores
    between digits. Python's [int] reads more (the decimal digits and the
    white space of Unicode), so the code's [int] is an oracle of [env];
    this function is the oracle of the example environments. *)
Definition is_space (c : ascii) : bool :=
  let n := nat_of_ascii c in
  Nat.eqb n 32 || (Nat.leb 9 n && Nat.leb n 13).

Definition digit_val (c : ascii) : option Z :=
  let n := nat_of_ascii c in
  if Nat.leb 48 n && Nat.leb n 57 then Some (Z.of_nat (n - 48)) else None.

Fixpoint lstrip (s : string) : string :=
  match s with
  | EmptyString => EmptyString
  | String c s' => if is_space c then lstrip s' else s
  end.

Definition strip (s : string) : string :=
  String.rev (lstrip (String.rev (lstrip s))).

Fixpoint digits (acc : Z) (after_digit : bool) (s : string) : option Z :=
  match s with
  | EmptyString => if after_digit then Some acc else None
  | String c s' =>
      match digit_val c with
      | Some d => digits (10 * acc + d) true s'
      | None =>
          if Ascii.eqb c "_" && after_digit then digits acc false s' else None
      end
  end.

Fixpoint count_digits (s : string) : nat :=
  match s with
  | EmptyString => 0
  | String c s' =>
      match digit_val c with
      | Some _ => S (count_digits s')
      | None => count_digits s'
      end
  end.

Definition ascii_int (s : string) : option Z :=
  if Nat.ltb 4300 (count_digits s) then None
  else
    match strip s with
    | String "+" r => digits 0 false r
    | String "-" r => Z.opp <$> digits 0 false r
    | r => digits 0 false r
    end.

End PyStr.

Module OsPath.

(** The directory part every entry of directory [d] starts with. *)
Definition dir_prefix (d : string) : string :=
  if String.eqb d "" then ""
  else if PyStr.endswith d "/" then d else d +:+ "/".

(** [os.path.join(d, n)] (POSIX). *)
Definition join (d n : string) : string :=
  if PyStr.startswith n "/" then n else dir_prefix d +:+ n.

(** The name under which path [p] is listed in directory [d], if it is a
    direct entry of [d]. *)
Definition entry_name (d p : string) : option string :=
  let pre := dir_prefix d in
  if String.prefix pre p then
    let n := PyStr.drop (String.length pre) p in
    if String.eqb n "" || PyStr.contains_char "/" n then None else Some n
  else None.

(** [os.path.basename(p)]: what follows the last slash. *)
Fixpoint basename (p : string) : string :=
  match p with
  | EmptyString => EmptyString
  | String _ p' => if PyStr.contains_char "/" p then basename p' else p
  end.

End OsPath.

(** ** The world: files, trace, exceptions, oracles *)

(** How Python's [gzip] reader sees the bytes of a file: not a gzip container
    at all, or a stream that yields [decodable] bytes and then either its
    end-of-stream marker ([terminated]) or nothing more (a truncated file). *)
Inductive gz_view :=
| NotGzip
| GzStream (decodable : nat) (terminated : bool).

Record file := File {
  f_ctime : Z;          (* st_ctime *)
  f_size : Z;           (* st_size *)
  f_gz : gz_view;
  f_locked : bool       (* os.remove on it raises PermissionError *)
}.

Inductive level := WARNING | ERROR.

Inductive details :=
| SuccessDetails (duration : Z) (storage : gmap string bool)
                 (size : Z) (removed_old : Z)
| FailureDetails (duration : Z).

Inductive event :=
| Log (lv : level) (msg : string)
| MysqlConnect
| Mysqldump (database output : string)
| MysqlRestore (database input : string)
| LocalStorage (path : string)
| FtpUpload (path : string)
| SftpUpload (path : string)
| GdriveUpload (path : string)
| SendBackupNotification (success : bool) (database : string)
    (backup_file error_message : option string) (d : details).

Record world := World {
  w_fs : list (string * file);
  w_trace : list event
}.

(** A raised exception: its class and [str(e)]. *)
Inductive exn := Exn (cls msg : string).

Definition exn_msg (e : exn) : string := let 'Exn _ m := e in m.

Inductive res (A : Type) :=
| Ret (a : A)
| Raise (e : exn).
Arguments Ret {A} a.
Arguments Raise {A} e.

(** What [schedule.every(hours).hours.do(job)] does when it returns: it
    registers the job or raises. [ValueError] (and its subclasses) is kept
    apart because the caller catches it. A call that does not return, as
    some versions of the library do for 0, has no outcome here. *)
Inductive every_outcome :=
| Registers
| RaisesValueError
| RaisesOther (e : exn).

(** The oracles.
    - [time_time], [datetime_now], [strftime_now]: the clock, and the clock
      formatted with ["%Y%m%d_%H%M%S"];
    - [mysql_connect]: the answer of [DatabaseConnector.connect];
    - [mysqldump w database output]: [None] when the process cannot be
      started, else its return code, the bytes it wrote and its [stderr];
    - [mysql_restore w database input]: the return code and [stderr] of the
      [mysql] client, or the exception met on the way;
    - [gzip_write w input]: the size of the compressed copy of [input], or
      [None] when writing it fails;
    - [ftp_transfer], [sftp_transfer], [gdrive_transfer]: connect, create the
      remote directory, transfer, disconnect;
    - [schedule_at_ok t]: the [schedule] library accepts [t] as a time of day;
    - [python_int s]: [int(s)], [None] for its [ValueError];
    - [schedule_every_hours n]: the outcome of registering a job every [n]
      hours with the [schedule] library. *)
Record env := Env {
  time_time : world -> Z;
  datetime_now : world -> Z;
  strftime_now : world -> string;
  mysql_connect : world -> res bool;
  mysqldump : world -> string -> string -> option (Z * Z * string);
  mysql_restore : world -> string -> string -> res (Z * string);
  gzip_write : world -> string -> option Z;
  ftp_transfer : world -> string -> res unit;
  sftp_transfer : world -> string -> res unit;
  gdrive_transfer : world -> string -> res unit;
  schedule_at_ok : string -> bool;
  python_int : string -> option Z;
  schedule_every_hours : Z -> every_outcome
}.

Definition M (A : Type) : Type := world -> res A * world.

Definition ret {A} (a : A) : M A := fun w => (Ret a, w).

Definition raise {A} (e : exn) : M A := fun w => (Raise e, w).

Definition bind {A B} (c : M A) (k : A -> M B) : M B :=
  fun w =>
    match c w with
    | (Ret a, w') => k a w'
    | (Raise e, w') => (Raise e, w')
    end.

(** [try: c  except Exception as e: h e] *)
Definition try_except {A} (c : M A) (h : exn -> M A) : M A :=
  fun w =>
    match c w with
    | (Ret a, w') => (Ret a, w')
    | (Raise e, w') => h e w'
    end.

Declare Scope py_scope.
Delimit Scope py_scope with py.
Notation "'let*' x := c 'in' k" := (bind c (fun x => k))
  (at level 10, x name, c at level 100, k at level 200) : py_scope.
Notation "c ;; k" := (bind c (fun _ => k))
  (at level 100, k at level 200, right associativity) : py_scope.
Open Scope py_scope.

Definition emit (e : event) : M unit :=
  fun w => (Ret tt, World (w_fs w) (w_trace w ++ [e])).

Definition get_world : M world := fun w => (Ret w, w).

Definition oracle {A} (f : world -> A) : M A := fun w => (Ret (f w), w).

(** An oracle whose answer is a value or an exception. *)
Definition call {A} (f : world -> res A) : M A := fun w => (f w, w).

Definition fs_lookup (p : string) (fs : list (string * file)) : option file :=
  snd <$> List.find (fun e => String.eqb (fst e) p) fs.

Definition fs_remove (p : string) (fs : list (string * file)) :=
  List.filter (fun e => negb (String.eqb (fst e) p)) fs.

Definition fs_write (p : string) (f : file) (fs : list (string * file)) :=
  match fs_lookup p fs with
  | Some _ => List.map (fun e => if String.eqb (fst e) p then (p, f) else e) fs
  | None => fs ++ [(p, f)]
  end.

(** [os.path.exists] *)
Definition os_path_exists (p : string) : M bool :=
  fun w => (Ret (bool_decide (is_Some (fs_lookup p (w_fs w)))), w).

(** [os.stat] / [os.path.getsize] *)
Definition os_stat (p : string) : M file :=
  fun w =>
    match fs_lookup p (w_fs w) with
    | Some f => (Ret f, w)
    | None =>
        (Raise (Exn "FileNotFoundError"
                  ("[Errno 2] No such file or directory: '" +:+ p +:+ "'")), w)
    end.

(** [os.remove] *)
Definition os_remove (p : string) : M unit :=
  fun w =>
    match fs_lookup p (w_fs w) with
    | None =>
        (Raise (Exn "FileNotFoundError"
                  ("[Errno 2] No such file or directory: '" +:+ p +:+ "'")), w)
    | Some f =>
        if f_locked f
        then (Raise (Exn "PermissionError"
                       ("[Errno 13] Permission denied: '" +:+ p +:+ "'")), w)
        else (Ret tt, World (fs_remove p (w_fs w)) (w_trace w))
    end.

(** [open(p, 'w')] followed by writing: creates or truncates the file. *)
Definition write_file (E : env) (p : string) (size : Z) (gz : gz_view) : M unit :=
  fun w =>
    if String.eqb p ""
    then (Raise (Exn "FileNotFoundError"
                   "[Errno 2] No such file or directory: ''"), w)
    else (Ret tt,
          World (fs_write p (File (datetime_now E w) size gz false) (w_fs w))
                (w_trace w)).

(** [os.listdir] *)
Definition os_listdir (d : string) (fs : list (string * file)) : list string :=
  omap (fun e => OsPath.entry_name d (fst e)) fs.

(** What the [gzip] reader makes of a file: an empty file reads as an empty
    stream that ends well. *)
Definition gzip_view (f : file) : gz_view :=
  match f_gz f with
  | NotGzip => if (f_size f =? 0)%Z then GzStream 0 true else NotGzip
  | v => v
  end.

(** [shutil.COPY_BUFSIZE] (POSIX) *)
Definition COPY_BUFSIZE : Z := 65536.

(** [gzip.open(p, 'rb').read(1)] *)
Definition gzip_read1 (p : string) : M unit :=
  let* f := os_stat p in
  match gzip_view f with
  | NotGzip => raise (Exn "BadGzipFile" "Not a gzipped file")
  | GzStream O false =>
      raise (Exn "EOFError"
        "Compressed file ended before the end-of-stream marker was reached")
  | GzStream _ _ => ret tt
  end.

(** [shutil.copyfileobj] from [gzip.open(input, 'rb')] into [output],
    already opened for writing: the stream is read [COPY_BUFSIZE] bytes at
    a time, and the read that meets the missing end of a stream cut short
    raises before its bytes are written, so that only the whole chunks
    before it are in the output. *)
Definition gzip_copy_out (E : env) (input output : string) : M unit :=
  let* f := os_stat input in
  match gzip_view f with
  | NotGzip => raise (Exn "BadGzipFile" "Not a gzipped file")
  | GzStream n true => write_file E output (Z.of_nat n) NotGzip
  | GzStream n false =>
      write_file E output (Z.of_nat n / COPY_BUFSIZE * COPY_BUFSIZE)%Z NotGzip ;;
      raise (Exn "EOFError"
        "Compressed file ended before the end-of-stream marker was reached")
  end.

(** ** src/backup_manager.py *)

Module BackupManager.

Record config := Config {
  local_path : string;
  compression : bool;
  retention_days : Z;
  max_backups : Z
}.

(** The dictionary [get_backup_info] returns; [size_mb], [modified] and
    [checksum] are derived from the same [stat] and are not kept. *)
Record backup_info := Info {
  filename : string;
  path : string;
  size : Z;
  created : Z
}.

(** [timedelta(days=1)] *)
Definition day : Z := 86400000000.

(** [datetime.min] and [datetime.max]: the first microsecond of year 1
    and the last of year 9999. *)
Definition datetime_min : Z := -62135596800000000.
Definition datetime_max : Z := 253402300799999999.

(** [timedelta(days=days)] (CPython): the number of days has to fit a C
    [int], and its magnitude may not exceed 999999999. *)
Definition timedelta_days (days : Z) : res Z :=
  if negb ((-2147483648 <=? days)%Z && (days <=? 2147483647)%Z) then
    Raise (Exn "OverflowError" "Python int too large to convert to C int")
  else if (999999999 <? Z.abs days)%Z then
    Raise (Exn "OverflowError"
             ("days=" +:+ pretty days +:+ "; must have magnitude <= 999999999"))
  else Ret (days * day)%Z.

(** [now - timedelta(days=days)]: the result has to be a [datetime]. *)
Definition days_before (now days : Z) : res Z :=
  match timedelta_days days with
  | Raise e => Raise e
  | Ret delta =>
      let result := (now - delta)%Z in
      if (datetime_min <=? result)%Z && (result <=? datetime_max)%Z
      then Ret result
      else Raise (Exn "OverflowError" "date value out of range")
  end.

Definition generate_backup_filename (E : env) (cfg : config)
    (database : string) : M string :=
  let* timestamp := oracle (strftime_now E) in
  let filename := database +:+ "_" +:+ "full" +:+ "_" +:+ timestamp +:+ ".sql" in
  ret (if compression cfg then filename +:+ ".gz" else filename).

Definition compress_file (E : env) (input_file : string) : M (option string) :=
  let output_file := input_file +:+ ".gz" in
  try_except
    (let* f_in := os_stat input_file in
     let* written := oracle (fun w => gzip_write E w input_file) in
     match written with
     | Some n =>
         write_file E output_file n (GzStream (Z.to_nat (f_size f_in)) true)
     | None =>
         write_file E output_file 0 (GzStream 0 false) ;;
         raise (Exn "OSError" "[Errno 28] No space left on device")
     end ;;
     os_remove input_file ;;
     let* _ := os_stat output_file in
     ret (Some output_file))
    (fun e =>
       emit (Log ERROR ("Error compressing file: " +:+ exn_msg e)) ;;
       ret None).

Definition decompress_file (E : env) (input_file : string) : M (option string) :=
  let output_file := PyStr.replace input_file ".gz" "" in
  try_except
    (let* _ := os_stat input_file in
     write_file E output_file 0 NotGzip ;;
     gzip_copy_out E input_file output_file ;;
     ret (Some output_file))
    (fun e =>
       emit (Log ERROR ("Error decompressing file: " +:+ exn_msg e)) ;;
       ret None).

Definition get_backup_info (backup_file : string) : M (option backup_info) :=
  try_except
    (let* st := os_stat backup_file in
     ret (Some (Info (OsPath.basename backup_file) backup_file
                     (f_size st) (f_ctime st))))
    (fun e =>
       emit (Log ERROR ("Error getting backup info: " +:+ exn_msg e)) ;;
       ret None).

(** [backups.sort(key=lambda x: x['created'], reverse=True)]: stable,
    newest first. *)
Fixpoint insert_desc (x : backup_info) (l : list backup_info) : list backup_info :=
  match l with
  | [] => [x]
  | y :: l' =>
      if (created x <? created y)%Z then y :: insert_desc x l' else x :: l
  end.

Definition sort_desc (l : list backup_info) : list backup_info :=
  foldr insert_desc [] l.

(** The test a listed file name passes to count as a backup of [database]. *)
Definition is_backup_of (database : option string) (filename : string) : bool :=
  (PyStr.endswith filename ".sql" || PyStr.endswith filename ".sql.gz") &&
  match database with
  | Some (String c d) => PyStr.startswith filename (String c d)
  | _ => true
  end.

Fixpoint collect (cfg : config) (database : option string)
    (names : list string) : M (list backup_info) :=
  match names with
  | [] => ret []
  | filename :: names' =>
      if is_backup_of database filename then
        let file_path := OsPath.join (local_path cfg) filename in
        let* info := get_backup_info file_path in
        let* rest := collect cfg database names' in
        ret (match info with Some i => i :: rest | None => rest end)
      else collect cfg database names'
  end.

(** The [try] of the source guards [os.listdir], which raises only when
    the directory is missing; [__init__] creates it. *)
Definition list_backups (cfg : config) (database : option string)
    : M (list backup_info) :=
  let* w := get_world in
  let* backups := collect cfg database (os_listdir (local_path cfg) (w_fs w)) in
  ret (sort_desc backups).

(** [l[m:]] *)
Definition slice_from {A} (m : Z) (l : list A) : list A :=
  if (0 <=? m)%Z then List.skipn (Z.to_nat m) l
  else List.skipn (length l - Z.to_nat (- m)) l.

(** The two loops of [cleanup_old_backups]. [removed_count] is a local of
    the function, assigned outside the [try], so the value it has reached
    is still there when a removal raises. *)
Fixpoint remove_old (cutoff_date : Z) (backups : list backup_info)
    (removed_count : Z) (w : world) : (Z * res unit) * world :=
  match backups with
  | [] => ((removed_count, Ret tt), w)
  | backup :: rest =>
      if (created backup <? cutoff_date)%Z then
        match os_remove (path backup) w with
        | (Ret _, w') => remove_old cutoff_date rest (removed_count + 1) w'
        | (Raise e, w') => ((removed_count, Raise e), w')
        end
      else remove_old cutoff_date rest removed_count w
  end.

Fixpoint remove_excess (excess_backups : list backup_info)
    (removed_count : Z) (w : world) : (Z * res unit) * world :=
  match excess_backups with
  | [] => ((removed_count, Ret tt), w)
  | backup :: rest =>
      match os_path_exists (path backup) w with
      | (Ret true, w1) =>
          match os_remove (path backup) w1 with
          | (Ret _, w') => remove_excess rest (removed_count + 1) w'
          | (Raise e, w') => ((removed_count, Raise e), w')
          end
      | (Ret false, w1) => remove_excess rest removed_count w1
      | (Raise e, w1) => ((removed_count, Raise e), w1)
      end
  end.

Definition cleanup_failed (removed_count : Z) (e : exn) : M Z :=
  emit (Log ERROR ("Error during cleanup: " +:+ exn_msg e)) ;;
  ret removed_count.

Definition cleanup_old_backups (E : env) (cfg : config)
    (database : option string) : M Z :=
  fun w =>
    match list_backups cfg database w with
    | (Raise e, w0) => cleanup_failed 0 e w0
    | (Ret backups, w0) =>
        match days_before (datetime_now E w0) (retention_days cfg) with
        | Raise e => cleanup_failed 0 e w0
        | Ret cutoff_date =>
            match remove_old cutoff_date backups 0 w0 with
            | ((n, Raise e), w1) => cleanup_failed n e w1
            | ((n, Ret _), w1) =>
                if (max_backups cfg <? Z.of_nat (length backups))%Z then
                  match remove_excess (slice_from (max_backups cfg) backups) n w1
                  with
                  | ((n', Raise e), w2) => cleanup_failed n' e w2
                  | ((n', Ret _), w2) => (Ret n', w2)
                  end
                else (Ret n, w1)
            end
        end
    end.

Definition verify_backup (backup_file : string) : M bool :=
  try_except
    (let* present := os_path_exists backup_file in
     if negb present then
       emit (Log ERROR ("Backup file not found: " +:+ backup_file)) ;;
       ret false
     else
       let* st := os_stat backup_file in
       if (f_size st =? 0)%Z then
         emit (Log ERROR ("Backup file is empty: " +:+ backup_file)) ;;
         ret false
       else
         (if PyStr.endswith backup_file ".gz"
          then gzip_read1 backup_file else ret tt) ;;
         ret true)
    (fun e =>
       emit (Log ERROR ("Backup verification failed: " +:+ exn_msg e)) ;;
       ret false).

End BackupManager.

(** ** src/database_connector.py *)

Module DatabaseConnector.

(** [connect] answers [True], [False] (a MySQL error, caught and logged) or
    [None] (not connected); the last two are both false to the caller. *)
Definition test_connection (E : env) : M bool :=
  emit MysqlConnect ;;
  call (mysql_connect E).

Definition create_backup (E : env) (database output_file : string) : M bool :=
  try_except
    (write_file E output_file 0 NotGzip ;;
     emit (Mysqldump database output_file) ;;
     let* result := oracle (fun w => mysqldump E w database output_file) in
     match result with
     | None =>
         raise (Exn "FileNotFoundError"
                  "[Errno 2] No such file or directory: 'mysqldump'")
     | Some (returncode, written, stderr) =>
         write_file E output_file written NotGzip ;;
         if (returncode =? 0)%Z then
           let* _ := os_stat output_file in
           ret true
         else
           emit (Log ERROR ("mysqldump error: " +:+ stderr)) ;;
           ret false
     end)
    (fun e =>
       match e with
       | Exn "FileNotFoundError" _ =>
           emit (Log ERROR
             "mysqldump not found. Please install MySQL client tools.") ;;
           ret false
       | Exn _ msg =>
           emit (Log ERROR ("Error creating backup: " +:+ msg)) ;;
           ret false
       end).

Definition restore_backup (E : env) (database input_file : string) : M bool :=
  try_except
    (let* present := os_path_exists input_file in
     if negb present then
       emit (Log ERROR ("Backup file not found: " +:+ input_file)) ;;
       ret false
     else
       emit (MysqlRestore database input_file) ;;
       let* result := call (fun w => mysql_restore E w database input_file) in
       if (fst result =? 0)%Z then ret true
       else
         emit (Log ERROR ("mysql restore error: " +:+ snd result)) ;;
         ret false)
    (fun e =>
       emit (Log ERROR ("Error restoring backup: " +:+ exn_msg e)) ;;
       ret false).

End DatabaseConnector.

(** ** src/storage_handler.py *)

Module StorageHandler.

Record config := Config {
  local_enabled : bool;
  ftp_enabled : bool;
  sftp_enabled : bool
}.

Definition _handle_local_storage (local_file : string) : M bool :=
  try_except
    (emit (LocalStorage local_file) ;;
     ret true)
    (fun e =>
       emit (Log ERROR ("Local storage error: " +:+ exn_msg e)) ;;
       ret false).

Definition _upload_ftp (E : env) (local_file : string) : M bool :=
  try_except
    (emit (FtpUpload local_file) ;;
     call (fun w => ftp_transfer E w local_file) ;;
     ret true)
    (fun e =>
       emit (Log ERROR ("FTP upload error: " +:+ exn_msg e)) ;;
       ret false).

Definition _upload_sftp (E : env) (local_file : string) : M bool :=
  try_except
    (emit (SftpUpload local_file) ;;
     call (fun w => sftp_transfer E w local_file) ;;
     ret true)
    (fun e =>
       emit (Log ERROR ("SFTP upload error: " +:+ exn_msg e)) ;;
       ret false).

Definition upload_backup (E : env) (cfg : config) (local_file : string)
    : M (gmap string bool) :=
  let results : gmap string bool := ∅ in
  let* present := os_path_exists local_file in
  if negb present then
    emit (Log ERROR ("Local file not found: " +:+ local_file)) ;;
    ret {[ "error" := false ]}
  else
    let* results :=
      if local_enabled cfg then
        let* r := _handle_local_storage local_file in
        ret (<[ "local" := r ]> results)
      else ret results in
    let* results :=
      if ftp_enabled cfg then
        let* r := _upload_ftp E local_file in
        ret (<[ "ftp" := r ]> results)
      else ret results in
    let* results :=
      if sftp_enabled cfg then
        let* r := _upload_sftp E local_file in
        ret (<[ "sftp" := r ]> results)
      else ret results in
    ret results.

End StorageHandler.

(** ** src/google_drive_handler.py *)

Module GoogleDriveHandler.

Definition upload_backup (E : env) (enabled : bool) (backup_file : string)
    : M bool :=
  if negb enabled then
    emit (Log WARNING "Google Drive is disabled") ;;
    ret false
  else
    try_except
      (let* present := os_path_exists backup_file in
       if negb present then
         emit (Log ERROR ("Backup file not found: " +:+ backup_file)) ;;
         ret false
       else
         emit (GdriveUpload backup_file) ;;
         call (fun w => gdrive_transfer E w backup_file) ;;
         ret true)
      (fun e =>
         emit (Log ERROR ("Error uploading to Google Drive: " +:+ exn_msg e)) ;;
         ret false).

End GoogleDriveHandler.

(** ** src/scheduler.py *)

Module BackupScheduler.

(** A job registered with the [schedule] library. *)
Inductive job :=
| EveryDayAt (at_time : string)
| EveryHour
| EveryHours (hours : Z)
| EverySundayAt (at_time : string).

(** The attributes of a [BackupScheduler], the job list of the [schedule]
    module and what the scheduler has logged. [running] also stands for the
    loop thread [start] creates. *)
Record scheduler := Scheduler {
  enabled : bool;
  backup_time : string;
  interval : string;
  running : bool;
  jobs : list job;
  logged : list (level * string)
}.

Definition set_jobs (js : list job) (s : scheduler) : scheduler :=
  Scheduler (enabled s) (backup_time s) (interval s) (running s) js (logged s).

Definition set_running (b : bool) (s : scheduler) : scheduler :=
  Scheduler (enabled s) (backup_time s) (interval s) b (jobs s) (logged s).

Definition log (lv : level) (msg : string) (s : scheduler) : scheduler :=
  Scheduler (enabled s) (backup_time s) (interval s) (running s) (jobs s)
            (logged s ++ [(lv, msg)]).

(** [__init__]: the configuration values, not yet running. *)
Definition init (enabled : bool) (backup_time interval : string) : scheduler :=
  Scheduler enabled backup_time interval false [] [].

(** [schedule.every()...at(t).do(...)]: the library checks the format of
    [t] and raises [ScheduleValueError] on a bad one. *)
Definition every_at (E : env) (mk : string -> job) (s : scheduler)
    : res unit * scheduler :=
  if schedule_at_ok E (backup_time s)
  then (Ret tt, set_jobs (jobs s ++ [mk (backup_time s)]) s)
  else (Raise (Exn "ScheduleValueError" "Invalid time format"), s).

Definition schedule_backups (E : env) (s : scheduler) : res unit * scheduler :=
  let s := set_jobs [] s in
  if negb (enabled s) then (Ret tt, s)
  else if String.eqb (interval s) "daily" then every_at E EveryDayAt s
  else if String.eqb (interval s) "hourly" then
    (Ret tt, set_jobs (jobs s ++ [EveryHour]) s)
  else if PyStr.endswith (interval s) "hours" then
    match python_int E (PyStr.replace (interval s) "hours" "") with
    | Some hours =>
        match schedule_every_hours E hours with
        | Registers => (Ret tt, set_jobs (jobs s ++ [EveryHours hours]) s)
        | RaisesValueError =>
            (Ret tt, log ERROR ("Invalid interval format: " +:+ interval s) s)
        | RaisesOther e => (Raise e, s)
        end
    | None =>
        (Ret tt, log ERROR ("Invalid interval format: " +:+ interval s) s)
    end
  else if String.eqb (interval s) "weekly" then every_at E EverySundayAt s
  else (Ret tt, log ERROR ("Unknown interval: " +:+ interval s) s).

Definition start (E : env) (s : scheduler) : res unit * scheduler :=
  if running s then (Ret tt, log WARNING "Scheduler is already running" s)
  else
    match schedule_backups E s with
    | (Ret _, s') => (Ret tt, set_running true s')
    | (Raise e, s') => (Raise e, s')
    end.

Definition stop (s : scheduler) : scheduler :=
  set_jobs [] (set_running false s).

Definition _run_backup (backup_function : M unit) : M unit :=
  try_except
    backup_function
    (fun e => emit (Log ERROR ("Error during scheduled backup: " +:+ exn_msg e))).

Definition run_now (backup_function : M unit) : M unit :=
  _run_backup backup_function.

(** *** Runs in flight

    [_run_backup] is entered by the loop thread (a due job, called from
    [schedule.run_pending]) and by any thread that calls [run_now]; it is
    left when the backup function returns. The state below counts the
    activations that have been entered and not yet left. A loop thread
    calls its jobs one after the other; [run_now] tests nothing. *)
Inductive origin := FromLoop | FromRunNow.

Definition origin_eqb (a b : origin) : bool :=
  match a, b with
  | FromLoop, FromLoop | FromRunNow, FromRunNow => true
  | _, _ => false
  end.

Inductive action :=
| LoopFires
| CallRunNow
| RunReturns (o : origin).

Record system := System {
  sched : scheduler;
  in_flight : list origin
}.

Fixpoint remove_first (o : origin) (l : list origin) : list origin :=
  match l with
  | [] => []
  | x :: l' => if origin_eqb o x then l' else x :: remove_first o l'
  end.

Definition step (s : system) (a : action) : option system :=
  match a with
  | LoopFires =>
      if running (sched s)
         && negb (Nat.eqb (length (jobs (sched s))) 0)
         && negb (existsb (origin_eqb FromLoop) (in_flight s))
      then Some (System (sched s) (FromLoop :: in_flight s))
      else None
  | CallRunNow => Some (System (sched s) (FromRunNow :: in_flight s))
  | RunReturns o =>
      if existsb (origin_eqb o) (in_flight s)
      then Some (System (sched s) (remove_first o (in_flight s)))
      else None
  end.

Fixpoint steps (s : system) (l : list action) : option system :=
  match l with
  | [] => Some s
  | a :: l' =>
      match step s a with
      | Some s' => steps s' l'
      | None => None
      end
  end.

End BackupScheduler.

(** ** src/backup_orchestrator.py *)

Module BackupOrchestrator.

Record config := Config {
  databases : list string;
  backup : BackupManager.config;
  storage : StorageHandler.config;
  (** [self.google_drive]: [None] without the client libraries, else the
      handler's [enabled] flag. *)
  google_drive : option bool
}.

(** One entry of the mapping [run_backup] returns. *)
Record result := Result {
  status : string;
  success : bool;
  database : string
}.

(** Lines 84-103 of the source: connection test, dump, compression,
    verification; the value is the final [backup_path]. *)
Definition dump_compress_verify (E : env) (cfg : config) (database : string)
    : M string :=
  let* connected := DatabaseConnector.test_connection E in
  if negb connected then raise (Exn "Exception" "Database connection failed")
  else
    let* backup_filename :=
      BackupManager.generate_backup_filename E (backup cfg) database in
    let backup_path :=
      OsPath.join (BackupManager.local_path (backup cfg)) backup_filename in
    let temp_sql_file :=
      if PyStr.endswith backup_path ".gz"
      then PyStr.replace backup_path ".gz" "" else backup_path in
    let* dumped := DatabaseConnector.create_backup E database temp_sql_file in
    if negb dumped then raise (Exn "Exception" "Failed to create database dump")
    else
      let* backup_path :=
        if BackupManager.compression (backup cfg) then
          let* compressed_file := BackupManager.compress_file E temp_sql_file in
          match compressed_file with
          | Some (String c f) => ret (String c f)
          | _ => raise (Exn "Exception" "Compression failed")
          end
        else ret backup_path in
      let* verified := BackupManager.verify_backup backup_path in
      if negb verified then raise (Exn "Exception" "Backup verification failed")
      else ret backup_path.

(** Lines 105-136: uploads, retention, success notification. *)
Definition upload_cleanup_notify (E : env) (cfg : config) (database : string)
    (start_time : Z) (backup_path : string) : M bool :=
  let* storage_results :=
    StorageHandler.upload_backup E (storage cfg) backup_path in
  let* storage_results :=
    match google_drive cfg with
    | Some true =>
        try_except
          (let* gdrive_success :=
             GoogleDriveHandler.upload_backup E true backup_path in
           ret (<[ "google_drive" := gdrive_success ]> storage_results))
          (fun e =>
             emit (Log ERROR ("Google Drive upload failed: " +:+ exn_msg e)) ;;
             ret (<[ "google_drive" := false ]> storage_results))
    | _ => ret storage_results
    end in
  let* removed_count :=
    BackupManager.cleanup_old_backups E (backup cfg) (Some database) in
  let* now := oracle (time_time E) in
  let duration := (now - start_time)%Z in
  let* backup_info := BackupManager.get_backup_info backup_path in
  let details :=
    SuccessDetails duration storage_results
      (match backup_info with Some i => BackupManager.size i | None => 0%Z end)
      removed_count in
  emit (SendBackupNotification true database (Some backup_path) None details) ;;
  ret true.

(** The body of the [try] of [_backup_single_database]. *)
Definition backup_stages (E : env) (cfg : config) (database : string)
    (start_time : Z) : M bool :=
  let* backup_path := dump_compress_verify E cfg database in
  upload_cleanup_notify E cfg database start_time backup_path.

Definition backup_failed (E : env) (database : string) (start_time : Z)
    (e : exn) : M bool :=
  let* now := oracle (time_time E) in
  let duration := (now - start_time)%Z in
  let error_message := exn_msg e in
  emit (Log ERROR ("Backup failed for " +:+ database +:+ ": " +:+ error_message)) ;;
  emit (SendBackupNotification false database None (Some error_message)
          (FailureDetails duration)) ;;
  ret false.

Definition _backup_single_database (E : env) (cfg : config)
    (database : string) : M bool :=
  let* start_time := oracle (time_time E) in
  try_except
    (backup_stages E cfg database start_time)
    (backup_failed E database start_time).

Fixpoint backup_each (E : env) (cfg : config) (databases : list string)
    (results : gmap string result) : M (gmap string result) :=
  match databases with
  | [] => ret results
  | database :: rest =>
      let* success := _backup_single_database E cfg database in
      backup_each E cfg rest
        (<[ database :=
              Result (if success then "success" else "error") success database ]>
           results)
  end.

Definition run_backup (E : env) (cfg : config)
    (databases : option (list string)) : M (gmap string result) :=
  let databases :=
    match databases with
    | None => BackupOrchestrator.databases cfg
    | Some l => l
    end in
  match databases with
  | [] =>
      emit (Log WARNING "No databases specified for backup") ;;
      ret ∅
  | _ => backup_each E cfg databases ∅
  end.

Definition restore_database (E : env) (database backup_file : string) : M bool :=
  try_except
    (let* present := os_path_exists backup_file in
     if negb present then
       raise (Exn "Exception" ("Backup file not found: " +:+ backup_file))
     else
       let* restore_file :=
         if PyStr.endswith backup_file ".gz" then
           let* decompressed_file :=
             BackupManager.decompress_file E backup_file in
           match decompressed_file with
           | Some (String c f) => ret (String c f)
           | _ => raise (Exn "Exception" "Failed to decompress backup file")
           end
         else ret backup_file in
       let* restored := DatabaseConnector.restore_backup E database restore_file in
       if negb restored then raise (Exn "Exception" "Database restore failed")
       else
         let* still_there := os_path_exists restore_file in
         (if negb (String.eqb restore_file backup_file) && still_there
          then os_remove restore_file else ret tt) ;;
         ret true)
    (fun e =>
       emit (Log ERROR ("Restore failed: " +:+ exn_msg e)) ;;
       ret false).

Definition _scheduled_backup (E : env) (cfg : config) : M unit :=
  try_except
    (let* _ := run_backup E cfg (Some (databases cfg)) in
     ret tt)
    (fun e => emit (Log ERROR ("Scheduled backup failed: " +:+ exn_msg e))).

(** The dictionary [run_scheduler_now] answers with: its [success] flag and
    its [message] or [error] text. *)
Definition run_scheduler_now (E : env) (cfg : config) : M (bool * string) :=
  try_except
    (BackupScheduler.run_now (_scheduled_backup E cfg) ;;
     ret (true, "Backup started"))
    (fun e =>
       emit (Log ERROR ("Error running scheduler backup: " +:+ exn_msg e)) ;;
       ret (false, exn_msg e)).

End BackupOrchestrator.

(** ** Vocabulary of the retention properties *)

Module Retention.
Import BackupManager.

(** The paths in [ps] removed from the file system. *)
Definition fs_remove_all (ps : list string) (fs : list (string * file)) :=
  foldl (fun fs p => fs_remove p fs) fs ps.

(** [os.remove] on each path in turn, counting, until one raises. *)
Fixpoint try_remove (ps : list string) (removed_count : Z) (w : world)
    : (Z * res unit) * world :=
  match ps with
  | [] => ((removed_count, Ret tt), w)
  | p :: ps' =>
      match os_remove p w with
      | (Ret _, w') => try_remove ps' (removed_count + 1) w'
      | (Raise e, w') => ((removed_count, Raise e), w')
      end
  end.

(** The dictionary [get_backup_info] builds for a path of the file system. *)
Definition info_of (fs : list (string * file)) (p : string) : option backup_info :=
  (fun f => Info (OsPath.basename p) p (f_size f) (f_ctime f)) <$> fs_lookup p fs.

(** What [list_backups] returns, as a function of the file system. *)
Definition listing (cfg : config) (database : option string)
    (fs : list (string * file)) : list backup_info :=
  sort_desc
    (omap (fun n => if is_backup_of database n
                    then info_of fs (OsPath.join (local_path cfg) n) else None)
          (os_listdir (local_path cfg) fs)).

(** The age rule: created before the cutoff date. *)
Definition expired (cutoff_date : Z) (b : backup_info) : bool :=
  (created b <? cutoff_date)%Z.

(** The artifacts [cleanup_old_backups] goes on to remove, in the order it
    does: the expired ones of the listing, then those left beyond the
    first [max_backups]. *)
Definition eviction_order (cutoff_date max_backups : Z)
    (backups : list backup_info) : list backup_info :=
  List.filter (expired cutoff_date) backups ++
  (if (max_backups <? Z.of_nat (length backups))%Z
   then List.filter (fun b => negb (expired cutoff_date b))
                    (slice_from max_backups backups)
   else []).

(** [os.path.exists(backup['path'])] *)
Definition present (fs : list (string * file)) (b : backup_info) : bool :=
  bool_decide (is_Some (fs_lookup (path b) fs)).

Definition newest_first (l : list backup_info) : Prop :=
  StronglySorted (fun a b => (created b <= created a)%Z) l.

End Retention.

(** [old in s] *)
Fixpoint occurs (old s : string) : bool :=
  String.prefix old s ||
  match s with
  | EmptyString => false
  | String _ s' => occurs old s'
  end.

(** ** Vocabulary of the pipeline properties *)

(** Computation [c] changes the trace only by adding events that satisfy [P]. *)
Definition emits {A} (P : event → Prop) (c : M A) : Prop :=
  ∀ w, ∃ evs, w_trace (snd (c w)) = w_trace w ++ evs ∧ Forall P evs.

(** Computation [c] never raises. *)
Definition returns {A} (c : M A) : Prop :=
  ∀ w, ∃ a, fst (c w) = Ret a.

Definition is_notification (e : event) : Prop :=
  match e with
  | SendBackupNotification _ _ _ _ _ => True
  | _ => False
  end.

(** What the first three stages may add to the trace. *)
Definition dump_stage_event (e : event) : Prop :=
  match e with
  | Log _ _ | MysqlConnect | Mysqldump _ _ => True
  | _ => False
  end.

(** What the upload and cleanup stages may add to the trace. *)
Definition upload_stage_event (e : event) : Prop :=
  match e with
  | Log _ _ | LocalStorage _ | FtpUpload _ | SftpUpload _ | GdriveUpload _ => True
  | _ => False
  end.

(** The databases notifications were sent for, in order. *)
Definition notified (trace : list event) : list string :=
  omap (fun e => match e with
                 | SendBackupNotification _ database _ _ _ => Some database
                 | _ => None
                 end) trace.

(** The names under which the enabled targets appear in the outcome mapping. *)
Definition enabled_targets (cfg : BackupOrchestrator.config) : gset string :=
  (if StorageHandler.local_enabled (BackupOrchestrator.storage cfg)
   then {[ "local" ]} else ∅) ∪
  (if StorageHandler.ftp_enabled (BackupOrchestrator.storage cfg)
   then {[ "ftp" ]} else ∅) ∪
  (if StorageHandler.sftp_enabled (BackupOrchestrator.storage cfg)
   then {[ "sftp" ]} else ∅) ∪
  (match BackupOrchestrator.google_drive cfg with
   | Some true => {[ "google_drive" ]}
   | _ => ∅
   end).

(** The trace event that marks the attempt on a target. *)
Definition attempt (target path : string) : event :=
  if String.eqb target "local" then LocalStorage path
  else if String.eqb target "ftp" then FtpUpload path
  else if String.eqb target "sftp" then SftpUpload path
  else GdriveUpload path.

(** What a target's transfer reported, as the outcome mapping records it. *)
Definition recorded (r : res unit) : bool :=
  match r with
  | Ret _ => true
  | Raise _ => false
  end.

(** ** src/google_drive_handler.py: the remote folder *)

Module GoogleDriveFolder.

(** A file of the Drive folder as [files().list] reports it; [size] is
    the text the API sends, when it sends one. *)
Record remote_file := RemoteFile {
  id : string;
  name : string;
  size : option string;
  createdTime : option string;
  modifiedTime : option string
}.

(** The dictionary [list_backups] builds for a file. *)
Record backup := Backup {
  b_id : string;
  b_name : string;
  b_size : Z;
  b_created : option string;
  b_modified : option string
}.

Inductive call :=
| Logged (lv : level) (msg : string)
| FilesList
| FilesDelete (fileId : string).

(** The folder, in the order the API lists it (the handler asks for
    [createdTime desc]), and the requests and log lines so far. *)
Record drive := Drive {
  files : list remote_file;
  calls : list call
}.

(** The service: a request goes through or raises. *)
Record service := Service {
  list_error : drive -> option exn;
  delete_error : drive -> string -> option exn
}.

Definition record (c : call) (d : drive) : drive :=
  Drive (files d) (calls d ++ [c]).

(** [int(file.get('size', 0))] *)
Definition size_of (E : env) (f : remote_file) : res Z :=
  match size f with
  | None => Ret 0%Z
  | Some s =>
      match python_int E s with
      | Some n => Ret n
      | None =>
          Raise (Exn "ValueError"
                   ("invalid literal for int() with base 10: '" +:+ s +:+ "'"))
      end
  end.

(** The loop of [list_backups]. *)
Fixpoint to_backups (E : env) (fs : list remote_file) : res (list backup) :=
  match fs with
  | [] => Ret []
  | f :: fs' =>
      match size_of E f with
      | Raise e => Raise e
      | Ret n =>
          match to_backups E fs' with
          | Raise e => Raise e
          | Ret bs =>
              Ret (Backup (id f) (name f) n (createdTime f) (modifiedTime f) :: bs)
          end
      end
  end.

Definition list_backups (E : env) (S : service) (enabled : bool) (d : drive)
    : list backup * drive :=
  if negb enabled then ([], d)
  else
    let d := record FilesList d in
    match list_error S d with
    | Some e =>
        ([], record (Logged ERROR
                 ("Error listing Google Drive backups: " +:+ exn_msg e)) d)
    | None =>
        match to_backups E (files d) with
        | Ret backups => (backups, d)
        | Raise e =>
            ([], record (Logged ERROR
                     ("Error listing Google Drive backups: " +:+ exn_msg e)) d)
        end
    end.

Definition delete_backup (S : service) (enabled : bool) (file_id : string)
    (d : drive) : bool * drive :=
  if negb enabled then (false, d)
  else
    let d := record (FilesDelete file_id) d in
    match delete_error S d file_id with
    | Some e =>
        (false, record (Logged ERROR
                   ("Error deleting from Google Drive: " +:+ exn_msg e)) d)
    | None =>
        (true,
         Drive (List.filter (fun f => negb (String.eqb (id f) file_id)) (files d))
               (calls d))
    end.

(** The loop of [cleanup_old_backups]. *)
Fixpoint delete_each (S : service) (enabled : bool)
    (backups_to_delete : list backup) (deleted_count : Z) (d : drive)
    : Z * drive :=
  match backups_to_delete with
  | [] => (deleted_count, d)
  | backup :: rest =>
      match delete_backup S enabled (b_id backup) d with
      | (true, d') => delete_each S enabled rest (deleted_count + 1) d'
      | (false, d') => delete_each S enabled rest deleted_count d'
      end
  end.

(** Nothing in the [try] of the source raises: [list_backups] and
    [delete_backup] catch what the service raises. *)
Definition cleanup_old_backups (E : env) (S : service) (enabled : bool)
    (keep_count : Z) (d : drive) : Z * drive :=
  if negb enabled then (0%Z, d)
  else
    let '(backups, d) := list_backups E S enabled d in
    if (Z.of_nat (length backups) <=? keep_count)%Z then (0%Z, d)
    else
      delete_each S enabled (BackupManager.slice_from keep_count backups) 0 d.

End GoogleDriveFolder.

(** ** src/notification_service.py: Telegram *)

Module NotificationService.

(** The [telegram] section, as far as [send_telegram] reads it; a missing
    [bot_token] is [None], a missing [chat_ids] the empty list. *)
Record telegram_config := TelegramConfig {
  bot_token : option string;
  chat_ids : list string
}.

Inductive action :=
| Logged (lv : level) (msg : string)
| Post (url chat_id text : string).

(** [requests.post(url, json=payload, timeout=10)]: the answer to request
    number [i] of a call, sent for chat [chat_id]: status code and body,
    or the exception met (no network, time-out). *)
Definition poster := nat -> string -> res (Z * string).

(** The loop over [chat_ids]; the value is [success_count]. *)
Fixpoint post_each (post : poster) (url message : string)
    (chat_ids : list string) (i : nat) (success_count : Z)
    : res Z * list action :=
  match chat_ids with
  | [] => (Ret success_count, [])
  | chat_id :: rest =>
      match post i chat_id with
      | Raise e => (Raise e, [Post url chat_id message])
      | Ret (status_code, text) =>
          if (status_code =? 200)%Z then
            let '(r, acts) :=
              post_each post url message rest (S i) (success_count + 1) in
            (r, Post url chat_id message :: acts)
          else
            let '(r, acts) :=
              post_each post url message rest (S i) success_count in
            (r, Post url chat_id message
                :: Logged ERROR ("Telegram API error for chat " +:+ chat_id
                                 +:+ ": " +:+ text)
                :: acts)
      end
  end.

Definition send_telegram (post : poster) (cfg : telegram_config)
    (message : string) : bool * list action :=
  match bot_token cfg, chat_ids cfg with
  | Some (String c t), _ :: _ =>
      let url :=
        "https://api.telegram.org/bot" +:+ String c t +:+ "/sendMessage" in
      match post_each post url message (chat_ids cfg) 0 0 with
      | (Ret success_count, acts) => ((0 <? success_count)%Z, acts)
      | (Raise e, acts) =>
          (false,
           acts ++ [Logged ERROR ("Error sending Telegram message: " +:+ exn_msg e)])
      end
  | _, _ => (false, [Logged ERROR "Telegram configuration incomplete"])
  end.

End NotificationService.

(** ** src/backup_orchestrator.py: the scheduler, reconfigured *)

Module SchedulerControl.
Import BackupScheduler.

(** The keys of a scheduler configuration that [BackupScheduler] reads,
    each present or not, with the types the configuration file and the
    web form give them. *)
Record settings := Settings {
  s_enabled : option bool;
  s_backup_time : option string;
  s_backup_interval : option string
}.

(** [old.update(new)] *)
Definition update (old new : settings) : settings :=
  Settings
    (match s_enabled new with Some b => Some b | None => s_enabled old end)
    (match s_backup_time new with Some t => Some t | None => s_backup_time old end)
    (match s_backup_interval new with
     | Some i => Some i
     | None => s_backup_interval old
     end).

(** [BackupScheduler(config, backup_function)]: a new object with the
    defaults of [__init__]; the job list is that of the [schedule] module
    and is not touched by the constructor. *)
Definition new_scheduler (config : settings) (registered : list job) : scheduler :=
  set_jobs registered
    (init (default true (s_enabled config))
          (default "02:00" (s_backup_time config))
          (default "daily" (s_backup_interval config))).

(** What [configure_scheduler] reads and writes of the orchestrator:
    [self.config['scheduler']] ([None] when the configuration has no such
    section), [self.scheduler], the section as the configuration file has
    it, and the error lines of the orchestrator's log. *)
Record orchestrator := Orchestrator {
  scheduler_section : option settings;
  scheduler : BackupScheduler.scheduler;
  saved_section : option settings;
  errors : list string
}.

Definition failed (msg : string) (o : orchestrator) : bool * orchestrator :=
  (false,
   Orchestrator (scheduler_section o) (scheduler o) (saved_section o)
                (errors o ++ [msg])).

Definition start_scheduler (E : env) (o : orchestrator) : bool * orchestrator :=
  match start E (scheduler o) with
  | (Ret _, s) =>
      (true, Orchestrator (scheduler_section o) s (saved_section o) (errors o))
  | (Raise e, s) =>
      failed ("Error starting scheduler: " +:+ exn_msg e)
        (Orchestrator (scheduler_section o) s (saved_section o) (errors o))
  end.

Definition stop_scheduler (o : orchestrator) : bool * orchestrator :=
  (true,
   Orchestrator (scheduler_section o) (stop (scheduler o)) (saved_section o)
                (errors o)).

(** [save_error]: the exception [save_config] meets when it writes the
    configuration file, if any. *)
Definition configure_scheduler (E : env) (save_error : option exn)
    (config : settings) (o : orchestrator) : bool * orchestrator :=
  match scheduler_section o with
  | None => failed "Error configuring scheduler: 'scheduler'" o
  | Some section =>
      let section := update section config in
      let old :=
        if running (scheduler o) then stop (scheduler o) else scheduler o in
      let fresh := new_scheduler section (jobs old) in
      let started :=
        if default false (s_enabled config) then start E fresh
        else (Ret tt, fresh) in
      match started with
      | (Raise e, s) =>
          failed ("Error configuring scheduler: " +:+ exn_msg e)
            (Orchestrator (Some section) s (saved_section o) (errors o))
      | (Ret _, s) =>
          match save_error with
          | Some e =>
              failed ("Error configuring scheduler: " +:+ exn_msg e)
                (Orchestrator (Some section) s (saved_section o) (errors o))
          | None =>
              (true, Orchestrator (Some section) s (Some section) (errors o))
          end
      end
  end.

End SchedulerControl.

(** ** main.py: the [--backup] command *)

Module Main.

(** The number of keys of the dictionary [run_backup] stores for a
    database: [status], [success], [database]. *)
Definition len (r : BackupOrchestrator.result) : nat := 3.

(** The truth value of that dictionary where a condition is expected: a
    dictionary is false exactly when it is empty. *)
Definition truth (r : BackupOrchestrator.result) : bool :=
  negb (Nat.eqb (len r) 0).

(** The branch [if args.backup] of [main], inside its [try], for an
    orchestrator already constructed: the status word printed for each
    database and the exit code. The loop variable the source calls
    [success] is the whole dictionary of the database. *)
Definition backup_command (E : env) (cfg : BackupOrchestrator.config)
    (databases : option (list string)) : M (gmap string string * Z) :=
  try_except
    (let* results := BackupOrchestrator.run_backup E cfg databases in
     let printed :=
       (fun success => if truth success then "SUCCESS" else "FAILED") <$> results in
     let all_true :=
       forallb truth (snd <$> map_to_list results) in
     ret (printed, if all_true then 0%Z else 1%Z))
    (fun e => ret (∅, 1%Z)).

End Main.

(** ** Vocabulary of the remote cleanup *)

(** The file ids [files().delete] was called with, in order. *)
Definition delete_requests (cs : list GoogleDriveFolder.call) : list string :=
  omap (fun c => match c with
                 | GoogleDriveFolder.FilesDelete i => Some i
                 | _ => None
                 end) cs.

(** The chats a message was posted to, in order. *)
Definition posted_to (acts : list NotificationService.action) : list string :=
  omap (fun a => match a with
                 | NotificationService.Post _ chat_id _ => Some chat_id
                 | _ => None
                 end) acts.

(** ** src/config_manager.py: dotted keys *)

Module ConfigManager.

(** A JSON value as [json.load] gives it; a dictionary keeps its keys in
    insertion order. *)
#[warnings="-register-all"] Inductive json :=
| JNull
| JBool (b : bool)
| JNum (n : Z)
| JStr (s : string)
| JList (l : list json)
| JDict (d : list (string * json)).

(** The value is a dictionary. *)
Definition is_dict (v : json) : bool :=
  match v with
  | JDict _ => true
  | _ => false
  end.

(** [key.split('.')] *)
Fixpoint split_dot (s : string) : list string :=
  match s with
  | EmptyString => [EmptyString]
  | String c s' =>
      if Ascii.eqb c "." then EmptyString :: split_dot s'
      else match split_dot s' with
           | [] => [String c EmptyString]
           | k :: keys => String c k :: keys
           end
  end.

Fixpoint dict_get (k : string) (d : list (string * json)) : option json :=
  match d with
  | [] => None
  | (k', v) :: d' => if String.eqb k' k then Some v else dict_get k d'
  end.

(** [d[k] = v]: an existing key keeps its place, a new one goes last. *)
Fixpoint dict_set (k : string) (v : json) (d : list (string * json))
    : list (string * json) :=
  match d with
  | [] => [(k, v)]
  | (k', v') :: d' =>
      if String.eqb k' k then (k, v) :: d' else (k', v') :: dict_set k v d'
  end.

(** [value[k]] for a string [k]: [None] stands for the [KeyError] of a
    dictionary without the key and for the [TypeError] of a value that is
    not a dictionary. *)
Definition subscript (value : json) (k : string) : option json :=
  match value with
  | JDict d => dict_get k d
  | _ => None
  end.

(** The loop of [get]. *)
Fixpoint walk (keys : list string) (value : json) : option json :=
  match keys with
  | [] => Some value
  | k :: keys' =>
      match subscript value k with
      | Some v => walk keys' v
      | None => None
      end
  end.

Definition get (config : json) (key : string) (default : json) : json :=
  match walk (split_dot key) config with
  | Some value => value
  | None => default
  end.

(** The loop and the final assignment of [update], on the value the
    local variable [config] points to; the answer is that value after the
    assignment, or [None] when a [TypeError] is raised. Everything that
    is not a dictionary raises: the membership test itself on a number,
    a boolean or [null], the assignment or the subscript with a string
    on a list or a string. Dictionaries are only created below the last
    existing one, so nothing has been changed when the error is raised. *)
Fixpoint update_at (keys : list string) (value : json) (config : json)
    : option json :=
  match config, keys with
  | JDict d, [k] => Some (JDict (dict_set k value d))
  | JDict d, k :: keys' =>
      let child :=
        match dict_get k d with
        | Some v => v
        | None => JDict []
        end in
      match update_at keys' value child with
      | Some child' => Some (JDict (dict_set k child' d))
      | None => None
      end
  | _, _ => None
  end.

Definition update (config : json) (key : string) (value : json) : option json :=
  update_at (split_dot key) value config.

End ConfigManager.

(** ** Concrete worlds for the examples *)

Module Demo.

(** Day 100 on the clock, every external service answering well; [int]
    reads ASCII digits, and the [schedule] library registers a job for a
    positive number of hours and raises on a negative one. *)
Definition env0 : env :=
  Env (fun w => Z.of_nat (length (w_trace w)) * 1000000)%Z
      (fun _ => 100 * BackupManager.day)%Z
      (fun _ => "20240410_020000")
      (fun _ => Ret true)
      (fun _ _ _ => Some (0, 2048, "")%Z)
      (fun _ _ _ => Ret (0%Z, ""))
      (fun _ _ => Some 512%Z)
      (fun _ _ => Ret tt)
      (fun _ _ => Ret tt)
      (fun _ _ => Ret tt)
      (fun _ => true)
      PyStr.ascii_int
      (fun hours =>
         if (0 <? hours)%Z then Registers
         else RaisesOther (Exn "OverflowError" "date value out of range")).

Definition backup_cfg : BackupManager.config :=
  BackupManager.Config "./backups" true 30 10.

Definition artifact (age_days : Z) (locked : bool) : file :=
  File ((100 - age_days) * BackupManager.day) 1024 (GzStream 4096 true) locked.

(** Two artifacts past the retention age; the newer one cannot be deleted. *)
Definition two_expired : world :=
  World [ ("./backups/db1_full_20240220_020000.sql.gz", artifact 50 true);
          ("./backups/db1_full_20240210_020000.sql.gz", artifact 60 false) ]
        [].

(** The scenario of the specification: one artifact 40 days old and eleven
    recent ones, with [retention_days = 30] and [max_backups = 10]. *)
Definition twelve : world :=
  World [ ("./backups/db1_full_20240101_0000.sql.gz", artifact 40 false);
          ("./backups/db1_full_20240330_0000.sql.gz", artifact 11 false);
          ("./backups/db1_full_20240331_0000.sql.gz", artifact 10 false);
          ("./backups/db1_full_20240401_0000.sql.gz", artifact 9 false);
          ("./backups/db1_full_20240402_0000.sql.gz", artifact 8 false);
          ("./backups/db1_full_20240403_0000.sql.gz", artifact 7 false);
          ("./backups/db1_full_20240404_0000.sql.gz", artifact 6 false);
          ("./backups/db1_full_20240405_0000.sql.gz", artifact 5 false);
          ("./backups/db1_full_20240406_0000.sql.gz", artifact 4 false);
          ("./backups/db1_full_20240407_0000.sql.gz", artifact 3 false);
          ("./backups/db1_full_20240408_0000.sql.gz", artifact 2 false);
          ("./backups/db1_full_20240409_0000.sql.gz", artifact 1 false) ]
        [].

(** As [env0], but the [mysql] client exits with status 1. *)
Definition env_restore_fails : env :=
  Env (time_time env0) (datetime_now env0) (strftime_now env0)
      (mysql_connect env0) (mysqldump env0)
      (fun _ _ _ => Ret (1%Z, "ERROR 1045 (28000): Access denied"))
      (gzip_write env0) (ftp_transfer env0) (sftp_transfer env0)
      (gdrive_transfer env0) (schedule_at_ok env0)
      (python_int env0) (schedule_every_hours env0).

(** As [env0], but the FTP server refuses the connection. *)
Definition env_ftp_down : env :=
  Env (time_time env0) (datetime_now env0) (strftime_now env0)
      (mysql_connect env0) (mysqldump env0) (mysql_restore env0)
      (gzip_write env0)
      (fun _ _ =>
         Raise (Exn "ConnectionRefusedError" "[Errno 111] Connection refused"))
      (sftp_transfer env0) (gdrive_transfer env0) (schedule_at_ok env0)
      (python_int env0) (schedule_every_hours env0).

(** As [env0], but the database server cannot be reached. *)
Definition env_db_down : env :=
  Env (time_time env0) (datetime_now env0) (strftime_now env0)
      (fun _ => Ret false) (mysqldump env0) (mysql_restore env0)
      (gzip_write env0) (ftp_transfer env0) (sftp_transfer env0)
      (gdrive_transfer env0) (schedule_at_ok env0)
      (python_int env0) (schedule_every_hours env0).

Definition orchestrator_cfg : BackupOrchestrator.config :=
  BackupOrchestrator.Config ["db1"; "db2"] backup_cfg
    (StorageHandler.Config true true true) None.

(** A scheduler for a daily backup at 02:00, started. *)
Definition started : BackupScheduler.system :=
  BackupScheduler.System
    (snd (BackupScheduler.start env0 (BackupScheduler.init true "02:00" "daily")))
    [].

(** One good compressed artifact. *)
Definition one_artifact : world :=
  World [ ("./backups/db1_full_20240409_020000.sql.gz", artifact 1 false) ] [].

(** A gzip file cut short: its first bytes decode, its end-of-stream
    marker is missing. *)
Definition truncated : world :=
  World [ ("./backups/db1_full_20240409_020000.sql.gz",
           File (99 * BackupManager.day) 700 (GzStream 4096 false) false) ] [].

(** An empty file, as [touch] leaves it. *)
Definition empty_file : world :=
  World [ ("./backups/empty.sql.gz", File 0 0 NotGzip false) ] [].

(** The artifacts of two databases, the name of one beginning with the
    name of the other. *)
Definition two_databases : world :=
  World [ ("./backups/shop_full_20240409_020000.sql.gz", artifact 1 false);
          ("./backups/shop_archive_full_20240408_020000.sql.gz", artifact 2 false) ]
        [].

(** As [env0], but [mysqldump] exits with status 2 and writes nothing. *)
Definition env_dump_fails : env :=
  Env (time_time env0) (datetime_now env0) (strftime_now env0)
      (mysql_connect env0)
      (fun _ _ _ =>
         Some (2, 0, "mysqldump: Got error: 1049: Unknown database")%Z)
      (mysql_restore env0) (gzip_write env0) (ftp_transfer env0)
      (sftp_transfer env0) (gdrive_transfer env0) (schedule_at_ok env0)
      (python_int env0) (schedule_every_hours env0).

(** As [env0], but the [schedule] library checks the time of day: two
    digits, a colon, two digits, hours below 24 and minutes below 60. *)
Definition env_strict_clock : env :=
  Env (time_time env0) (datetime_now env0) (strftime_now env0)
      (mysql_connect env0) (mysqldump env0) (mysql_restore env0)
      (gzip_write env0) (ftp_transfer env0) (sftp_transfer env0)
      (gdrive_transfer env0)
      (fun t =>
         match t with
         | String h1 (String h2 (String ":" (String m1 (String m2 ""))))%string =>
             match PyStr.ascii_int (String h1 (String h2 "")),
                   PyStr.ascii_int (String m1 (String m2 "")) with
             | Some h, Some m =>
                 (0 <=? h)%Z && (h <? 24)%Z && (0 <=? m)%Z && (m <? 60)%Z
             | _, _ => false
             end
         | _ => false
         end)
      (python_int env0) (schedule_every_hours env0).

(** An orchestrator whose scheduler, daily at 02:00, is running. *)
Definition running_orchestrator : SchedulerControl.orchestrator :=
  SchedulerControl.Orchestrator
    (Some (SchedulerControl.Settings (Some true) (Some "02:00") (Some "daily")))
    (snd (BackupScheduler.start env0 (BackupScheduler.init true "02:00" "daily")))
    (Some (SchedulerControl.Settings (Some true) (Some "02:00") (Some "daily")))
    [].

(** A Drive folder of three backups, newest first, and a service that
    refuses to delete the second of them. *)
Definition folder : GoogleDriveFolder.drive :=
  GoogleDriveFolder.Drive
    [ GoogleDriveFolder.RemoteFile "id3" "db1_full_20240410_020000.sql.gz"
        (Some "512") (Some "2024-04-10T02:00:05Z") (Some "2024-04-10T02:00:05Z");
      GoogleDriveFolder.RemoteFile "id2" "db1_full_20240409_020000.sql.gz"
        (Some "510") (Some "2024-04-09T02:00:05Z") (Some "2024-04-09T02:00:05Z");
      GoogleDriveFolder.RemoteFile "id1" "db1_full_20240408_020000.sql.gz"
        (Some "508") (Some "2024-04-08T02:00:05Z") (Some "2024-04-08T02:00:05Z") ]
    [].

Definition drive_service : GoogleDriveFolder.service :=
  GoogleDriveFolder.Service
    (fun _ => None)
    (fun _ file_id =>
       if String.eqb file_id "id2"
       then Some (Exn "HttpError" "403 insufficientFilePermissions")
       else None).

(** Three Telegram chats; the second has blocked the bot. *)
Definition telegram : NotificationService.telegram_config :=
  NotificationService.TelegramConfig (Some "123456:token") ["1001"; "1002"; "1003"].

Definition poster_second_blocked : NotificationService.poster :=
  fun _ chat_id =>
    if String.eqb chat_id "1002"
    then Ret (403%Z, "Forbidden: bot was blocked by the user")
    else Ret (200%Z, "ok").

(** The network goes down at the second request. *)
Definition poster_network_down : NotificationService.poster :=
  fun i _ =>
    if Nat.eqb i 1
    then Raise (Exn "ConnectionError" "Max retries exceeded")
    else Ret (200%Z, "ok").

(** A dump as [mysqldump] leaves it, not yet compressed. *)
Definition one_dump : world :=
  World [ ("./backups/db1_full_20240410_020000.sql",
           File (100 * BackupManager.day) 2048 NotGzip false) ] [].

End Demo.

(** ** The wording of the specification, for comparison *)

(** The cadence grammar, as the code reads the [backup_interval] setting:
    [daily], [hourly], [<N>hours] with [N] a text [int] reads, [weekly]. *)
Definition recognized (E : env) (interval : string) : bool :=
  String.eqb interval "daily" || String.eqb interval "hourly" ||
  (PyStr.endswith interval "hours" &&
   bool_decide (is_Some (python_int E (PyStr.replace interval "hours" "")))) ||
  String.eqb interval "weekly".


(** ** Strings, paths and the file system *)

Lemma prefix_drop (a p : string) :
  String.prefix a p = true → a +:+ PyStr.drop (String.length a) p = p.
Proof.
  revert p. induction a as [|c a IH]; intros [|c' p] H; simpl in *; try done.
  destruct (Ascii.ascii_dec c c') as [->|Hne]; [|done].
  change (String c' (a +:+ PyStr.drop (String.length a) p) = String c' p).
  f_equal. auto.
Qed.

Lemma prefix_cons (a b : ascii) (s1 s2 : string) :
  String.prefix (String a s1) (String b s2) =
  if Ascii.ascii_dec a b then String.prefix s1 s2 else false.
Proof. reflexivity. Qed.

Lemma slash_prefix_contains (n : string) :
  String.prefix "/" n = true → PyStr.contains_char "/" n = true.
Proof.
  destruct n as [|c r]; [done|]. rewrite prefix_cons.
  destruct (Ascii.ascii_dec "/" c) as [<-|]; [|done]. reflexivity.
Qed.

Lemma join_entry_name (d p n : string) :
  OsPath.entry_name d p = Some n → OsPath.join d n = p.
Proof.
  unfold OsPath.entry_name, OsPath.join, PyStr.startswith. intros H.
  destruct (String.prefix (OsPath.dir_prefix d) p) eqn:Hpre; [|discriminate].
  destruct (String.eqb _ "" || _) eqn:Hn; [discriminate|].
  injection H as <-. apply orb_false_elim in Hn as [_ Hslash].
  destruct (String.prefix "/" _) eqn:Hs.
  - apply slash_prefix_contains in Hs. congruence.
  - by apply prefix_drop.
Qed.

Lemma fs_lookup_cons (q x : string) (f : file) fs :
  fs_lookup q ((x, f) :: fs) = if String.eqb x q then Some f else fs_lookup q fs.
Proof. unfold fs_lookup. cbn. by destruct (String.eqb x q). Qed.

Lemma fs_remove_cons (p x : string) (f : file) fs :
  fs_remove p ((x, f) :: fs) =
  if String.eqb x p then fs_remove p fs else (x, f) :: fs_remove p fs.
Proof. unfold fs_remove. cbn. by destruct (String.eqb x p). Qed.

Lemma fs_lookup_remove (p q : string) fs :
  fs_lookup q (fs_remove p fs) = if String.eqb q p then None else fs_lookup q fs.
Proof.
  induction fs as [|[x f] fs IH].
  - by destruct (String.eqb q p).
  - rewrite fs_remove_cons, !fs_lookup_cons.
    destruct (String.eqb_spec x p) as [->|Hxp].
    + rewrite IH. destruct (String.eqb_spec q p) as [->|Hqp]; [done|].
      by destruct (String.eqb_spec p q); [congruence|].
    + rewrite fs_lookup_cons, IH.
      destruct (String.eqb_spec x q) as [->|Hxq]; [|done].
      by destruct (String.eqb_spec q p).
Qed.

Lemma fs_lookup_elem (p : string) (f : file) fs :
  fs_lookup p fs = Some f → (p, f) ∈ fs.
Proof.
  induction fs as [|[x g] fs IH]; [done|].
  rewrite fs_lookup_cons. destruct (String.eqb_spec x p) as [->|Hne].
  - intros [= ->]. left.
  - intros H. right. auto.
Qed.

Lemma fs_lookup_is_Some (p : string) fs :
  p ∈ fs.*1 → is_Some (fs_lookup p fs).
Proof.
  induction fs as [|[x g] fs IH]; [by intros ?%elem_of_nil|].
  rewrite fs_lookup_cons. destruct (String.eqb_spec x p) as [->|Hne]; [eauto|].
  rewrite fmap_cons, elem_of_cons. intros [?|?]; [simpl in *; congruence|auto].
Qed.

(** ** The listing *)

Section Listing.
Import BackupManager Retention.
Variables (cfg : config) (database : option string).

Lemma get_backup_info_found (p : string) (w : world) :
  is_Some (fs_lookup p (w_fs w)) →
  get_backup_info p w = (Ret (info_of (w_fs w) p), w).
Proof.
  intros [f Hf]. unfold get_backup_info, try_except, bind, os_stat, ret, info_of.
  by rewrite Hf.
Qed.

Lemma listdir_lookup (d n : string) fs :
  n ∈ os_listdir d fs → is_Some (fs_lookup (OsPath.join d n) fs).
Proof.
  unfold os_listdir. rewrite list_elem_of_omap. intros ([p f] & Hin & Hn).
  apply join_entry_name in Hn. simpl in Hn. subst p.
  apply fs_lookup_is_Some, list_elem_of_fmap. by exists (OsPath.join d n, f).
Qed.

Lemma collect_found (names : list string) (w : world) :
  (∀ n, n ∈ names → is_Some (fs_lookup (OsPath.join (local_path cfg) n) (w_fs w))) →
  collect cfg database names w =
  (Ret (omap (fun n => if is_backup_of database n
                       then info_of (w_fs w) (OsPath.join (local_path cfg) n)
                       else None) names), w).
Proof.
  induction names as [|n names IH]; intros H; [done|].
  cbn [collect omap list_omap].
  assert (Hrest : ∀ m, m ∈ names →
           is_Some (fs_lookup (OsPath.join (local_path cfg) m) (w_fs w))).
  { intros m Hm. apply H. by right. }
  destruct (is_backup_of database n).
  - unfold bind at 1. rewrite get_backup_info_found by (apply H; left).
    unfold bind at 1. rewrite (IH Hrest).
    destruct (H n) as [f Hf]; [left|]. unfold info_of. rewrite Hf. reflexivity.
  - by rewrite (IH Hrest).
Qed.

Lemma list_backups_listing (w : world) :
  list_backups cfg database w = (Ret (listing cfg database (w_fs w)), w).
Proof.
  unfold list_backups, bind, get_world, ret.
  rewrite collect_found; [done|]. intros n. apply listdir_lookup.
Qed.

End Listing.

(** ** The two removal loops *)

Section Loops.
Import BackupManager Retention.

Lemma remove_old_try (cutoff : Z) (bs : list backup_info) (n : Z) (w : world) :
  remove_old cutoff bs n w =
  try_remove (path <$> List.filter (expired cutoff) bs) n w.
Proof.
  revert n w. induction bs as [|b bs IH]; intros n w; [done|].
  cbn [remove_old List.filter]. unfold expired at 1.
  destruct (created b <? cutoff)%Z; [|apply IH].
  cbn [fmap list_fmap try_remove].
  destruct (os_remove (path b) w) as [[[]|e] w']; [apply IH|done].
Qed.

Lemma os_remove_cases (p : string) (w : world) :
  (∃ e, os_remove p w = (Raise e, w)) ∨
  os_remove p w = (Ret tt, World (fs_remove p (w_fs w)) (w_trace w)).
Proof.
  unfold os_remove. destruct (fs_lookup p (w_fs w)) as [f|]; [|eauto].
  destruct (f_locked f); eauto.
Qed.

Lemma remove_excess_try (ex : list backup_info) (n : Z) (w : world) :
  NoDup (path <$> ex) →
  remove_excess ex n w =
  try_remove (path <$> List.filter (present (w_fs w)) ex) n w.
Proof.
  revert n w. induction ex as [|b ex IH]; intros n w Hnd; [done|].
  rewrite fmap_cons in Hnd. apply NoDup_cons in Hnd as [Hb Hnd].
  cbn [remove_excess List.filter]. unfold os_path_exists, present at 1.
  destruct (bool_decide (is_Some (fs_lookup (path b) (w_fs w)))) eqn:Hp.
  - cbn [fmap list_fmap try_remove].
    destruct (os_remove_cases (path b) w) as [[e ->]| ->]; [done|].
    rewrite IH by done. f_equal. f_equal. cbn [w_fs].
    apply List.filter_ext_in. intros x Hx. unfold present.
    rewrite fs_lookup_remove.
    destruct (String.eqb_spec (path x) (path b)) as [Heq|]; [|done].
    exfalso. apply Hb. rewrite <- Heq. apply list_elem_of_fmap.
    exists x. split; [done|]. by apply list_elem_of_In.
  - by apply IH.
Qed.

Lemma try_remove_app (ps qs : list string) (n : Z) (w : world) :
  try_remove (ps ++ qs) n w =
  match try_remove ps n w with
  | ((n', Ret _), w') => try_remove qs n' w'
  | r => r
  end.
Proof.
  revert n w. induction ps as [|p ps IH]; intros n w; [done|].
  cbn [app try_remove]. destruct (os_remove p w) as [[[]|e] w']; [apply IH|done].
Qed.

Lemma fs_lookup_remove_all (ps : list string) (q : string) fs :
  fs_lookup q (fs_remove_all ps fs) =
  if bool_decide (q ∈ ps) then None else fs_lookup q fs.
Proof.
  revert fs. induction ps as [|p ps IH]; intros fs; [done|].
  cbn [fs_remove_all foldl]. fold (fs_remove_all ps (fs_remove p fs)).
  rewrite IH, fs_lookup_remove.
  destruct (String.eqb_spec q p) as [->|Hne].
  - rewrite (bool_decide_eq_true_2 (p ∈ p :: ps)) by left. by destruct (bool_decide _).
  - replace (bool_decide (q ∈ p :: ps)) with (bool_decide (q ∈ ps)); [done|].
    apply bool_decide_ext. rewrite elem_of_cons.
    split; [by right|]. by intros [?|?].
Qed.

(** Every path is there and can be removed: all of them go. *)
Lemma try_remove_all (ps : list string) (n : Z) (w : world) :
  NoDup ps →
  (∀ p, p ∈ ps → ∃ f, fs_lookup p (w_fs w) = Some f ∧ f_locked f = false) →
  try_remove ps n w =
  ((n + Z.of_nat (length ps), Ret tt)%Z,
   World (fs_remove_all ps (w_fs w)) (w_trace w)).
Proof.
  revert n w. induction ps as [|p ps IH]; intros n w Hnd Hok.
  - destruct w. cbn. by rewrite Z.add_0_r.
  - apply NoDup_cons in Hnd as [Hp Hnd].
    cbn [try_remove]. unfold os_remove.
    destruct (Hok p) as (f & -> & ->); [left|].
    rewrite IH; [|done|].
    + cbn [w_fs w_trace length fs_remove_all foldl]. do 2 f_equal. lia.
    + intros q Hq. cbn [w_fs]. rewrite fs_lookup_remove.
      destruct (String.eqb_spec q p) as [->|]; [done|]. apply Hok. by right.
Qed.

(** The first path that cannot be removed ends the loop. *)
Lemma try_remove_stops (pre post : list string) (p : string) (f : file)
    (n : Z) (w : world) :
  NoDup (pre ++ [p]) →
  (∀ q, q ∈ pre → ∃ g, fs_lookup q (w_fs w) = Some g ∧ f_locked g = false) →
  fs_lookup p (w_fs w) = Some f → f_locked f = true →
  try_remove (pre ++ p :: post) n w =
  ((n + Z.of_nat (length pre),
    Raise (Exn "PermissionError"
             ("[Errno 13] Permission denied: '" +:+ p +:+ "'")))%Z,
   World (fs_remove_all pre (w_fs w)) (w_trace w)).
Proof.
  intros Hnd Hpre Hf Hlocked.
  apply NoDup_app in Hnd as (Hnd & Hdisj & _).
  rewrite try_remove_app, try_remove_all by done.
  cbn [try_remove]. unfold os_remove. cbn [w_fs].
  rewrite fs_lookup_remove_all, bool_decide_eq_false_2.
  - by rewrite Hf, Hlocked.
  - intros Hin. apply (Hdisj p Hin). left.
Qed.

End Loops.

(** ** Sorting and removal commute *)

Section SortFilter.
Import BackupManager Retention.

Lemma insert_desc_head (x : backup_info) (l : list backup_info) :
  Forall (fun z => (created z <= created x)%Z) l → insert_desc x l = x :: l.
Proof.
  destruct l as [|y l]; [done|]. intros Hall%Forall_cons_1. destruct Hall as [Hy _].
  cbn [insert_desc]. destruct (Z.ltb_spec (created x) (created y)); [lia|done].
Qed.

Lemma insert_desc_Forall (P : backup_info → Prop) x l :
  P x → Forall P l → Forall P (insert_desc x l).
Proof.
  intros Hx. induction 1 as [|y l Hy Hl IH]; cbn [insert_desc].
  - by constructor.
  - destruct (created x <? created y)%Z; repeat constructor; auto.
Qed.

Lemma insert_desc_sorted (x : backup_info) (l : list backup_info) :
  newest_first l → newest_first (insert_desc x l).
Proof.
  unfold newest_first. induction 1 as [|y l Hl IH Hy]; cbn [insert_desc].
  - repeat constructor.
  - destruct (Z.ltb_spec (created x) (created y)).
    + constructor; [done|]. apply insert_desc_Forall; [lia|done].
    + constructor; [by constructor|]. constructor; [lia|].
      eapply Forall_impl; [exact Hy|]. intros z Hz. simpl in Hz. lia.
Qed.

Lemma sort_desc_cons (x : backup_info) (l : list backup_info) :
  sort_desc (x :: l) = insert_desc x (sort_desc l).
Proof. reflexivity. Qed.

Lemma sort_desc_sorted (l : list backup_info) : newest_first (sort_desc l).
Proof.
  induction l as [|x l IH]; [constructor|].
  rewrite sort_desc_cons. by apply insert_desc_sorted.
Qed.

Lemma filter_insert_desc_drop (k : backup_info → bool) x l :
  k x = false → List.filter k (insert_desc x l) = List.filter k l.
Proof.
  intros Hx. induction l as [|y l IH]; cbn [insert_desc List.filter].
  - by rewrite Hx.
  - destruct (created x <? created y)%Z; cbn [List.filter].
    + by rewrite IH.
    + by rewrite Hx.
Qed.

Lemma filter_insert_desc_keep (k : backup_info → bool) x l :
  newest_first l → k x = true →
  List.filter k (insert_desc x l) = insert_desc x (List.filter k l).
Proof.
  intros Hs Hx. induction Hs as [|y l Hl IH Hy]; cbn [insert_desc List.filter].
  - by rewrite Hx.
  - destruct (Z.ltb_spec (created x) (created y)) as [Hlt|Hge].
    + cbn [List.filter]. rewrite IH. destruct (k y); [|done].
      cbn [insert_desc]. by rewrite (proj2 (Z.ltb_lt _ _) Hlt).
    + cbn [List.filter]. rewrite Hx.
      change (if k y then y :: List.filter k l else List.filter k l)
        with (List.filter k (y :: l)).
      symmetry. apply insert_desc_head.
      apply Forall_forall. intros z Hz%list_elem_of_In.
      apply List.filter_In in Hz as [Hz _]. apply list_elem_of_In in Hz.
      apply elem_of_cons in Hz as [->|Hz]; [lia|].
      rewrite Forall_forall in Hy. specialize (Hy z Hz). simpl in Hy. lia.
Qed.

Lemma sort_desc_filter (k : backup_info → bool) (l : list backup_info) :
  sort_desc (List.filter k l) = List.filter k (sort_desc l).
Proof.
  induction l as [|x l IH]; [done|]. cbn [List.filter].
  rewrite sort_desc_cons. destruct (k x) eqn:Hx.
  - rewrite sort_desc_cons, IH. symmetry.
    apply filter_insert_desc_keep; [apply sort_desc_sorted|done].
  - rewrite IH. symmetry. by apply filter_insert_desc_drop.
Qed.

Lemma insert_desc_Permutation x l : insert_desc x l ≡ₚ x :: l.
Proof.
  induction l as [|y l IH]; [done|]. cbn [insert_desc].
  destruct (created x <? created y)%Z; [|done].
  rewrite IH. apply perm_swap.
Qed.

Lemma sort_desc_Permutation l : sort_desc l ≡ₚ l.
Proof.
  induction l as [|x l IH]; [done|].
  by rewrite sort_desc_cons, insert_desc_Permutation, IH.
Qed.

End SortFilter.

(** ** The listing after removals *)

Section ListingRemove.
Import BackupManager Retention.
Variables (cfg : config) (database : option string).

Lemma os_listdir_cons (d x : string) (f : file) fs :
  os_listdir d ((x, f) :: fs) =
  match OsPath.entry_name d x with
  | Some n => n :: os_listdir d fs
  | None => os_listdir d fs
  end.
Proof. reflexivity. Qed.


Lemma info_of_path fs p i : info_of fs p = Some i → path i = p.
Proof.
  unfold info_of. destruct (fs_lookup p fs); [|done]. by intros [= <-].
Qed.



(** The listed artifacts are files, with distinct paths when the file
    system has each path once. *)
Lemma listing_lookup fs b :
  b ∈ listing cfg database fs →
  ∃ f, fs_lookup (path b) fs = Some f ∧ created b = f_ctime f.
Proof.
  unfold listing. rewrite sort_desc_Permutation, list_elem_of_omap.
  intros (n & _ & Hn). destruct (is_backup_of database n); [|done].
  unfold info_of in Hn. destruct (fs_lookup _ fs) as [f|] eqn:Hf; [|done].
  injection Hn as <-. eauto.
Qed.

Lemma listdir_sublist (d : string) fs :
  (OsPath.join d <$> os_listdir d fs) `sublist_of` fs.*1.
Proof.
  induction fs as [|[x f] fs IH]; [constructor|].
  rewrite os_listdir_cons, fmap_cons. cbn [fst].
  destruct (OsPath.entry_name d x) as [n|] eqn:Hn.
  - rewrite fmap_cons, (join_entry_name _ _ _ Hn). by constructor.
  - by constructor.
Qed.

Lemma listing_NoDup fs :
  NoDup fs.*1 → NoDup (path <$> listing cfg database fs).
Proof.
  intros Hnd. unfold listing. rewrite sort_desc_Permutation.
  eapply sublist_NoDup; [exact Hnd|].
  etrans; [|apply (listdir_sublist (local_path cfg))].
  induction (os_listdir (local_path cfg) fs) as [|n names IH]; [constructor|].
  cbn [omap list_omap]. rewrite fmap_cons.
  destruct (is_backup_of database n); [|by constructor].
  destruct (info_of fs _) as [i|] eqn:Hi; [|by constructor].
  rewrite fmap_cons, (info_of_path _ _ _ Hi). by constructor.
Qed.

End ListingRemove.

(** ** Which artifacts survive *)

Section Survivors.
Import BackupManager Retention.

Lemma drop_elem {A} (k : nat) (l : list A) (x : A) :
  x ∈ drop k l → x ∈ l.
Proof. intros H. rewrite <- (take_drop k l). apply elem_of_app. by right. Qed.

Lemma path_inj_on (l : list backup_info) (x y : backup_info) :
  NoDup (path <$> l) → x ∈ l → y ∈ l → path x = path y → x = y.
Proof.
  induction l as [|z l IH]; [by intros _ ?%elem_of_nil|].
  rewrite fmap_cons, NoDup_cons, !elem_of_cons.
  intros [Hz Hnd] [->|Hx] [->|Hy] Heq; auto.
  - exfalso. apply Hz. rewrite Heq. by apply list_elem_of_fmap_2.
  - exfalso. apply Hz. rewrite <- Heq. by apply list_elem_of_fmap_2.
Qed.



Lemma filter_ext_elem {A} (k k' : A → bool) (l : list A) :
  (∀ x, x ∈ l → k x = k' x) → List.filter k l = List.filter k' l.
Proof.
  intros H. apply List.filter_ext_in. intros x Hx. apply H. by apply list_elem_of_In.
Qed.

Lemma elem_of_filter_bool {A} (k : A → bool) (l : list A) (x : A) :
  x ∈ List.filter k l ↔ x ∈ l ∧ k x = true.
Proof. rewrite !list_elem_of_In. apply List.filter_In. Qed.





End Survivors.

(** ** [cleanup_old_backups] as one pass over the eviction order *)

Section Cleanup.
Import BackupManager Retention.
Variables (E : env) (cfg : config) (database : option string).

Lemma try_remove_ret (ps : list string) (n n' : Z) (u : unit) (w w' : world) :
  try_remove ps n w = ((n', Ret u), w') →
  w_fs w' = fs_remove_all ps (w_fs w) ∧ w_trace w' = w_trace w.
Proof.
  revert n w. induction ps as [|p ps IH]; intros n w.
  - by intros [= _ _ ->].
  - cbn [try_remove]. destruct (os_remove_cases p w) as [[e ->]| ->]; [done|].
    intros H%IH. apply H.
Qed.

Lemma slice_from_drop {A} (m : Z) (l : list A) : ∃ k, slice_from m l = drop k l.
Proof. unfold slice_from. destruct (0 <=? m)%Z; eauto. Qed.

Lemma NoDup_drop_fmap {A B} (f : A → B) (k : nat) (l : list A) :
  NoDup (f <$> l) → NoDup (f <$> drop k l).
Proof.
  rewrite <- (take_drop k l) at 1. rewrite fmap_app, NoDup_app. tauto.
Qed.

Lemma expired_paths (cutoff : Z) (bs : list backup_info) (x : backup_info) :
  NoDup (path <$> bs) → x ∈ bs →
  path x ∈ path <$> List.filter (expired cutoff) bs ↔ expired cutoff x = true.
Proof.
  intros Hnd Hx. split.
  - intros (y & Hxy & Hy)%list_elem_of_fmap.
    apply elem_of_filter_bool in Hy as [Hy Hexp].
    by rewrite (path_inj_on bs x y).
  - intros Hexp. apply list_elem_of_fmap_2. by apply elem_of_filter_bool.
Qed.

(** A cutoff date that exists is the clock reading less the retention
    period. *)
Lemma days_before_value (now days cutoff : Z) :
  days_before now days = Ret cutoff → cutoff = (now - days * day)%Z.
Proof.
  unfold days_before, timedelta_days.
  destruct (negb _); [done|]. destruct (_ <? _)%Z; [done|].
  destruct (_ && _); [|done]. by intros [= <-].
Qed.

Lemma cleanup_as_try_remove (w : world) (cutoff : Z) :
  NoDup (w_fs w).*1 →
  days_before (datetime_now E w) (retention_days cfg) = Ret cutoff →
  cleanup_old_backups E cfg database w =
  match try_remove
          (path <$> eviction_order cutoff
                      (max_backups cfg) (listing cfg database (w_fs w))) 0 w with
  | ((n, Ret _), w') => (Ret n, w')
  | ((n, Raise e), w') => cleanup_failed n e w'
  end.
Proof.
  intros Hnd Hcut. unfold cleanup_old_backups. rewrite list_backups_listing, Hcut.
  set (bs := listing cfg database (w_fs w)).
  assert (Hbs : NoDup (path <$> bs)) by (by apply listing_NoDup).
  rewrite remove_old_try. unfold eviction_order. rewrite fmap_app, try_remove_app.
  destruct (try_remove (path <$> List.filter (expired cutoff) bs) 0 w)
    as [[n [[]|e]] w1] eqn:H1; [|done].
  destruct (max_backups cfg <? Z.of_nat (length bs))%Z; [|done].
  destruct (slice_from_drop (max_backups cfg) bs) as [k ->].
  rewrite remove_excess_try by (by apply NoDup_drop_fmap).
  apply try_remove_ret in H1 as [Hfs _].
  rewrite (filter_ext_elem (present (w_fs w1))
             (fun b => negb (expired cutoff b)) (drop k bs)); [done|].
  intros x Hx%drop_elem. unfold present.
  rewrite Hfs, fs_lookup_remove_all.
  destruct (listing_lookup cfg database _ _ Hx) as (f & Hf & _).
  pose proof (expired_paths cutoff bs x Hbs Hx) as Hiff.
  destruct (expired cutoff x) eqn:Hexp.
  - rewrite (bool_decide_eq_true_2 (path x ∈ _)) by (by apply Hiff).
    apply bool_decide_eq_false_2. by intros [? ?].
  - rewrite (bool_decide_eq_false_2 (path x ∈ _)) by (by intros Hin%Hiff).
    rewrite Hf. by apply bool_decide_eq_true_2.
Qed.

End Cleanup.

(** ** Retention *)

Section RetentionTheorems.
Import BackupManager Retention.

Lemma NoDup_fmap_filter {A B} (f : A → B) (k : A → bool) (l : list A) :
  NoDup (f <$> l) → NoDup (f <$> List.filter k l).
Proof.
  induction l as [|x l IH]; [done|]. rewrite fmap_cons, NoDup_cons.
  intros [Hx Hnd]. cbn [List.filter]. destruct (k x); [|auto].
  rewrite fmap_cons, NoDup_cons. split; [|auto].
  intros (y & Hxy & Hy)%list_elem_of_fmap. apply Hx.
  rewrite Hxy. apply list_elem_of_fmap_2. by apply elem_of_filter_bool in Hy as [? _].
Qed.

Lemma eviction_order_elem (cutoff m : Z) (bs : list backup_info) (x : backup_info) :
  x ∈ eviction_order cutoff m bs → x ∈ bs.
Proof.
  unfold eviction_order. rewrite elem_of_app, elem_of_filter_bool.
  intros [[? _]|Hx]; [done|]. destruct (m <? _)%Z; [|by apply elem_of_nil in Hx].
  apply elem_of_filter_bool in Hx as [Hx _].
  destruct (slice_from_drop m bs) as [k Hk]. rewrite Hk in Hx.
  by eapply drop_elem.
Qed.

Lemma eviction_order_NoDup (cutoff m : Z) (bs : list backup_info) :
  NoDup (path <$> bs) → NoDup (path <$> eviction_order cutoff m bs).
Proof.
  intros Hnd. unfold eviction_order. rewrite fmap_app. apply NoDup_app.
  split; [by apply NoDup_fmap_filter|]. split.
  - intros p (y & -> & Hy)%list_elem_of_fmap Hp.
    apply elem_of_filter_bool in Hy as [Hy Hexp].
    destruct (m <? _)%Z; [|by apply elem_of_nil in Hp].
    apply list_elem_of_fmap in Hp as (z & Hyz & Hz).
    apply elem_of_filter_bool in Hz as [Hz Hnexp].
    destruct (slice_from_drop m bs) as [k Hk]. rewrite Hk in Hz.
    apply drop_elem in Hz.
    rewrite (path_inj_on bs y z) in Hexp by done. by rewrite Hexp in Hnexp.
  - destruct (m <? _)%Z; [|constructor].
    destruct (slice_from_drop m bs) as [k ->].
    by apply NoDup_fmap_filter, NoDup_drop_fmap.
Qed.

End RetentionTheorems.

Section RetentionClaims.
Import BackupManager Retention.


(** How the cleanup ends at a deletion error: the error is logged and
    ends the cleanup; the artifacts before it in the eviction order are
    gone and counted, the failing one and every artifact after it in that
    order are still on disk, and the function returns normally. *)
Lemma cleanup_stops_at_delete_error (E : env) (cfg : config)
    (database : option string) (w : world) (bs pre post : list backup_info)
    (b : backup_info) (f : file) (cutoff_date : Z) :
  NoDup (w_fs w).*1 →
  list_backups cfg database w = (Ret bs, w) →
  days_before (datetime_now E w) (retention_days cfg) = Ret cutoff_date →
  eviction_order cutoff_date (max_backups cfg) bs = pre ++ b :: post →
  Forall (fun x => ∃ g, fs_lookup (path x) (w_fs w) = Some g ∧ f_locked g = false) pre →
  fs_lookup (path b) (w_fs w) = Some f →
  f_locked f = true →
  ∃ w',
    cleanup_old_backups E cfg database w = (Ret (Z.of_nat (length pre)), w') ∧
    w_trace w' =
      w_trace w ++
      [Log ERROR ("Error during cleanup: [Errno 13] Permission denied: '"
                  +:+ path b +:+ "'")] ∧
    Forall (fun x => fs_lookup (path x) (w_fs w') = None) pre ∧
    Forall (fun x => is_Some (fs_lookup (path x) (w_fs w'))) (b :: post).
Proof.
  intros Hnd Hbs Hcut HEO Hpre Hf Hlocked.
  rewrite list_backups_listing in Hbs. injection Hbs as <-.
  pose proof (eviction_order_NoDup cutoff_date (max_backups cfg) _
    (listing_NoDup cfg database _ Hnd)) as HndEO.
  pose proof (eviction_order_elem cutoff_date (max_backups cfg)
    (listing cfg database (w_fs w))) as HinEO.
  rewrite HEO in HndEO, HinEO.
  rewrite fmap_app, fmap_cons in HndEO.
  eexists. split.
  { rewrite (cleanup_as_try_remove E cfg database w cutoff_date) by done.
    rewrite HEO, fmap_app, fmap_cons.
    rewrite (try_remove_stops _ _ _ f); [|..|done|done].
    - unfold cleanup_failed, bind, emit, ret. cbn [w_fs w_trace exn_msg].
      rewrite length_fmap, Z.add_0_l. reflexivity.
    - apply NoDup_app in HndEO as (H1 & H2 & H3%NoDup_cons).
      apply NoDup_app. split; [done|]. split; [|apply NoDup_singleton].
      intros q Hq Hq'%list_elem_of_singleton. subst q. apply (H2 _ Hq). left.
    - intros q (x & -> & Hx)%list_elem_of_fmap.
      rewrite Forall_forall in Hpre. by apply Hpre. }
  cbn [w_fs w_trace]. split; [done|]. split.
  - apply Forall_forall. intros x Hx. rewrite fs_lookup_remove_all.
    rewrite bool_decide_eq_true_2; [done|]. by apply list_elem_of_fmap_2.
  - apply Forall_forall. intros x Hx. rewrite fs_lookup_remove_all.
    rewrite bool_decide_eq_false_2.
    + destruct (listing_lookup cfg database (w_fs w) x) as (g & -> & _); [|done].
      apply HinEO, elem_of_app. by right.
    + apply NoDup_app in HndEO as (_ & Hdisj & _). intros Hin.
      apply (Hdisj _ Hin). change (path x ∈ path <$> b :: post).
      by apply list_elem_of_fmap_2.
Qed.

End RetentionClaims.


(** The scenario of the specification: the 40-day-old artifact goes by the
    age rule, the oldest of the other eleven by the count rule, ten are left. *)
Example cleanup_scenario_twelve :
  let r := BackupManager.cleanup_old_backups Demo.env0 Demo.backup_cfg (Some "db1")
             Demo.twelve in
  fst r = Ret 2%Z ∧
  (w_fs (snd r)).*1 =
    [ "./backups/db1_full_20240331_0000.sql.gz";
      "./backups/db1_full_20240401_0000.sql.gz";
      "./backups/db1_full_20240402_0000.sql.gz";
      "./backups/db1_full_20240403_0000.sql.gz";
      "./backups/db1_full_20240404_0000.sql.gz";
      "./backups/db1_full_20240405_0000.sql.gz";
      "./backups/db1_full_20240406_0000.sql.gz";
      "./backups/db1_full_20240407_0000.sql.gz";
      "./backups/db1_full_20240408_0000.sql.gz";
      "./backups/db1_full_20240409_0000.sql.gz" ].
Proof. vm_compute. split; reflexivity. Qed.

(** C5 fails on the code. With two artifacts past the retention age, the
    newer of which cannot be deleted, the removal of the first one raises,
    the error is logged and the cleanup ends: the other artifact, expired
    and deletable, is never attempted and stays on disk, and 0 is returned. *)
Lemma cleanup_abandons_later_artifacts :
  let w := Demo.two_expired in
  let r := BackupManager.cleanup_old_backups Demo.env0 Demo.backup_cfg (Some "db1") w in
  let later := "./backups/db1_full_20240210_020000.sql.gz" in
  fs_lookup later (w_fs w) = Some (Demo.artifact 60 false) ∧
  (f_ctime (Demo.artifact 60 false)
     < datetime_now Demo.env0 w - 30 * BackupManager.day)%Z ∧
  fst r = Ret 0%Z ∧
  fs_lookup later (w_fs (snd r)) = Some (Demo.artifact 60 false) ∧
  w_trace (snd r) =
    [Log ERROR ("Error during cleanup: [Errno 13] Permission denied: "
                +:+ "'./backups/db1_full_20240220_020000.sql.gz'")].
Proof. vm_compute. repeat split; reflexivity. Qed.

(** ** Verification *)


Lemma gzip_view_stream (f : file) (n : nat) (complete : bool) :
  f_gz f = GzStream n complete → gzip_view f = GzStream n complete.
Proof. intros H. unfold gzip_view. by rewrite H. Qed.



(** The two scenarios of the specification. *)
Example verify_backup_zero_byte :
  fst (BackupManager.verify_backup "./backups/empty.sql.gz" Demo.empty_file) = Ret false.
Proof. reflexivity. Qed.

Example verify_backup_valid_gzip :
  fst (BackupManager.verify_backup "./backups/db1_full_20240409_020000.sql.gz"
         Demo.one_artifact) = Ret true.
Proof. reflexivity. Qed.

(** ** Upload of a missing file *)

(** C9. When the local file does not exist, [upload_backup] logs the error,
    attempts no target and returns the mapping [{'error': False}]. *)
Theorem upload_backup_missing_file (E : env) (cfg : StorageHandler.config)
    (local_file : string) (w : world) :
  fs_lookup local_file (w_fs w) = None →
  StorageHandler.upload_backup E cfg local_file w =
  (Ret {[ "error" := false ]},
   World (w_fs w) (w_trace w ++ [Log ERROR ("Local file not found: " +:+ local_file)])).
Proof.
  intros H. unfold StorageHandler.upload_backup, bind, os_path_exists, emit, ret.
  rewrite H. rewrite (bool_decide_eq_false_2 (is_Some None)) by (by intros [? ?]).
  reflexivity.
Qed.

Lemma upload_backup_missing_file_witness :
  StorageHandler.upload_backup Demo.env0 (StorageHandler.Config true true true)
    "./backups/gone.sql.gz" Demo.one_artifact =
  (Ret {[ "error" := false ]},
   World (w_fs Demo.one_artifact)
         [Log ERROR "Local file not found: ./backups/gone.sql.gz"]).
Proof.
  apply (upload_backup_missing_file Demo.env0 (StorageHandler.Config true true true)
           "./backups/gone.sql.gz" Demo.one_artifact).
  reflexivity.
Defined.

(** ** Restore *)

Lemma length_drop_str (n : nat) (s : string) :
  String.length (PyStr.drop n s) = String.length s - n.
Proof.
  revert s. induction n as [|n IH]; intros [|c s]; cbn [PyStr.drop String.length];
    auto with lia.
Qed.

Lemma prefix_length (a s : string) :
  String.prefix a s = true → String.length a ≤ String.length s.
Proof.
  revert s. induction a as [|c a IH]; intros [|c' s]; cbn [String.length]; try lia.
  - done.
  - rewrite prefix_cons. destruct (Ascii.ascii_dec c c'); [|done].
    intros H%IH. lia.
Qed.

Lemma prefix_refl (s : string) : String.prefix s s = true.
Proof.
  induction s as [|c s IH]; [done|]. rewrite prefix_cons.
  by destruct (Ascii.ascii_dec c c).
Qed.

Lemma endswith_occurs (s suf : string) :
  PyStr.endswith s suf = true → occurs suf s = true.
Proof.
  induction s as [|c s IH].
  - cbn. destruct suf; [done|]. intros [=].
  - cbn [PyStr.endswith occurs]. intros [Heq|Hs]%orb_true_iff.
    + apply String.eqb_eq in Heq as <-. by rewrite prefix_refl.
    + apply orb_true_iff. right. auto.
Qed.

Lemma replace_go_length (fuel : nat) (old s : string) :
  String.length (PyStr.replace_go fuel old "" s) ≤ String.length s.
Proof.
  revert s. induction fuel as [|fuel IH]; intros s; [done|].
  cbn [PyStr.replace_go]. destruct (String.prefix old s).
  - cbn [String.append]. etrans; [apply IH|]. rewrite length_drop_str. lia.
  - destruct s as [|c s]; [done|]. cbn [String.length]. specialize (IH s). lia.
Qed.

Lemma replace_go_shorter (fuel : nat) (old s : string) :
  old ≠ "" → String.length s < fuel → occurs old s = true →
  String.length (PyStr.replace_go fuel old "" s) < String.length s.
Proof.
  intros Hold. revert s. induction fuel as [|fuel IH]; intros s Hfuel Hocc; [lia|].
  cbn [PyStr.replace_go]. destruct (String.prefix old s) eqn:Hpre.
  - change (String.length
              (PyStr.replace_go fuel old "" (PyStr.drop (String.length old) s))
            < String.length s).
    apply prefix_length in Hpre.
    pose proof (replace_go_length fuel old (PyStr.drop (String.length old) s)) as Hle.
    rewrite length_drop_str in Hle.
    destruct old as [|c old]; [done|]. cbn [String.length] in *. lia.
  - destruct s as [|c s].
    + cbn [occurs] in Hocc. by rewrite Hpre in Hocc.
    + cbn [occurs] in Hocc. rewrite Hpre in Hocc. cbn [orb] in Hocc.
      cbn [String.length] in *. specialize (IH s ltac:(lia) Hocc). lia.
Qed.

Lemma replace_suffix_neq (s : string) :
  PyStr.endswith s ".gz" = true → PyStr.replace s ".gz" "" ≠ s.
Proof.
  intros H%endswith_occurs Heq.
  pose proof (replace_go_shorter (S (String.length s)) ".gz" s) as Hlt.
  unfold PyStr.replace in Heq. rewrite Heq in Hlt.
  specialize (Hlt ltac:(done) ltac:(lia) H). lia.
Qed.

Lemma fs_lookup_write_same (p : string) (f : file) fs :
  fs_lookup p (fs_write p f fs) = Some f.
Proof.
  unfold fs_write. destruct (fs_lookup p fs) as [g|] eqn:Hg.
  - induction fs as [|[x h] fs IH]; [done|].
    rewrite fs_lookup_cons in Hg. cbn [List.map fst].
    destruct (String.eqb_spec x p) as [->|Hne].
    + by rewrite fs_lookup_cons, String.eqb_refl.
    + rewrite fs_lookup_cons. destruct (String.eqb_spec x p); [done|]. auto.
  - induction fs as [|[x h] fs IH].
    + cbn [app]. by rewrite fs_lookup_cons, String.eqb_refl.
    + rewrite fs_lookup_cons in Hg. cbn [app]. rewrite fs_lookup_cons.
      destruct (String.eqb_spec x p); [done|]. auto.
Qed.

Lemma decompress_file_success (E : env) (input d : string) (w w1 : world) :
  BackupManager.decompress_file E input w = (Ret (Some d), w1) →
  d = PyStr.replace input ".gz" "" ∧ d ≠ "" ∧
  is_Some (fs_lookup input (w_fs w)) ∧
  ∃ f, fs_lookup d (w_fs w1) = Some f ∧ f_locked f = false.
Proof.
  unfold BackupManager.decompress_file, gzip_copy_out, write_file.
  unfold try_except, bind, os_stat, emit, ret, raise.
  set (out := PyStr.replace input ".gz" "").
  destruct (fs_lookup input (w_fs w)) as [f0|] eqn:Hin; [|done].
  destruct (String.eqb_spec out "") as [Hout|Hout]; [done|]. cbn [w_fs w_trace].
  destruct (fs_lookup input (fs_write out _ (w_fs w))) as [f1|]; [|done].
  destruct (gzip_view f1) as [|n [|]]; [done| |];
    cbn [w_fs w_trace]; (destruct (String.eqb_spec out "") as [|_]; [done|]);
    [|done].
  intros [= <- <-]. cbn [w_fs].
  split; [done|]. split; [done|]. split; [eauto|].
  eexists. split; [apply fs_lookup_write_same|done].
Qed.

Lemma restore_backup_fs (E : env) (database input : string) (w : world) :
  ∃ ok w', DatabaseConnector.restore_backup E database input w = (Ret ok, w') ∧
           w_fs w' = w_fs w.
Proof.
  unfold DatabaseConnector.restore_backup.
  unfold try_except, bind, os_path_exists, emit, ret, raise, call.
  destruct (bool_decide _); cbn [negb w_fs w_trace]; [|eauto].
  destruct (mysql_restore E _ database input) as [[rc err]|e]; [|eauto].
  cbn [fst snd]. destruct (rc =? 0)%Z; eauto.
Qed.

(** C10. Once decompression has succeeded, [restore_database] answers what
    the database restore step answers; the decompressed file is removed when
    that step succeeds and stays on disk when it fails. *)
Theorem restore_removes_temp_file_only_on_success (E : env)
    (database backup_file d : string) (ok : bool) (w w1 w2 : world) :
  PyStr.endswith backup_file ".gz" = true →
  BackupManager.decompress_file E backup_file w = (Ret (Some d), w1) →
  DatabaseConnector.restore_backup E database d w1 = (Ret ok, w2) →
  ∃ w',
    BackupOrchestrator.restore_database E database backup_file w = (Ret ok, w') ∧
    if ok then fs_lookup d (w_fs w') = None
    else is_Some (fs_lookup d (w_fs w')).
Proof.
  intros Hgz Hdec Hres.
  destruct (decompress_file_success _ _ _ _ _ Hdec) as (Hd & Hne & Hin & f & Hf & Hfree).
  destruct (restore_backup_fs E database d w1) as (ok' & w2' & Hres' & Hfs).
  rewrite Hres in Hres'. injection Hres' as <- <-.
  unfold BackupOrchestrator.restore_database.
  unfold try_except, bind at 1. unfold os_path_exists at 1.
  rewrite (bool_decide_eq_true_2 _ Hin). cbn [negb]. rewrite Hgz.
  unfold bind at 1. unfold bind at 1. rewrite Hdec.
  destruct d as [|c d]; [done|]. unfold ret at 1.
  unfold bind at 1. rewrite Hres. destruct ok; cbn [negb].
  - unfold bind at 1. unfold os_path_exists at 1. rewrite Hfs, Hf.
    rewrite (bool_decide_eq_true_2 (is_Some (Some f))) by eauto.
    destruct (String.eqb_spec (String c d) backup_file) as [Heq|_].
    { exfalso. apply (replace_suffix_neq _ Hgz). congruence. }
    cbn [negb andb]. unfold bind, os_remove, ret. rewrite Hfs, Hf, Hfree.
    eexists. split; [reflexivity|]. cbn [w_fs].
    by rewrite fs_lookup_remove, String.eqb_refl.
  - unfold raise, bind, emit, ret. cbn [w_fs w_trace].
    eexists. split; [reflexivity|]. cbn [w_fs]. rewrite Hfs, Hf. eauto.
Qed.

Lemma restore_removes_temp_file_only_on_success_witness :
  ∃ w',
    BackupOrchestrator.restore_database Demo.env_restore_fails "db1"
      "./backups/db1_full_20240409_020000.sql.gz" Demo.one_artifact = (Ret false, w') ∧
    is_Some (fs_lookup "./backups/db1_full_20240409_020000.sql" (w_fs w')).
Proof.
  eapply (restore_removes_temp_file_only_on_success Demo.env_restore_fails "db1"
            "./backups/db1_full_20240409_020000.sql.gz"
            "./backups/db1_full_20240409_020000.sql" false Demo.one_artifact).
  - reflexivity.
  - vm_compute. reflexivity.
  - vm_compute. reflexivity.
Defined.

(** The same restore with a database that accepts the dump. *)
Example restore_success_removes_temp_file :
  let r := BackupOrchestrator.restore_database Demo.env0 "db1"
             "./backups/db1_full_20240409_020000.sql.gz" Demo.one_artifact in
  fst r = Ret true ∧
  fs_lookup "./backups/db1_full_20240409_020000.sql" (w_fs (snd r)) = None.
Proof. vm_compute. split; reflexivity. Qed.

(** ** Scheduler *)

Section SchedulerClaims.
Import BackupScheduler.

(** C6 (amended). An unrecognized cadence is not rejected:
    [schedule_backups] registers no job and returns normally, having logged
    a descriptive error when the scheduler is enabled and nothing when it
    is disabled, and [start] then marks the scheduler as running all the
    same. *)
Theorem unknown_interval_logged_not_rejected (E : env) (s : scheduler) :
  recognized E (interval s) = false →
  ∃ msg,
    (msg = "Unknown interval: " +:+ interval s ∨
     msg = "Invalid interval format: " +:+ interval s) ∧
    schedule_backups E s =
      (Ret tt,
       if enabled s then log ERROR msg (set_jobs [] s) else set_jobs [] s) ∧
    (running s = false →
     start E s =
       (Ret tt,
        set_running true
          (if enabled s then log ERROR msg (set_jobs [] s) else set_jobs [] s))).
Proof.
  intros Hrec. unfold recognized in Hrec.
  apply orb_false_elim in Hrec as [Hrec Hweekly].
  apply orb_false_elim in Hrec as [Hrec Hhours].
  apply orb_false_elim in Hrec as [Hdaily Hhourly].
  assert (Hsb : ∃ msg,
    (msg = "Unknown interval: " +:+ interval s ∨
     msg = "Invalid interval format: " +:+ interval s) ∧
    schedule_backups E s =
      (Ret tt,
       if enabled s then log ERROR msg (set_jobs [] s) else set_jobs [] s)).
  { unfold schedule_backups. cbn [set_jobs enabled interval].
    destruct (enabled s); cbn [negb]; [|eauto].
    rewrite Hdaily, Hhourly, Hweekly.
    destruct (PyStr.endswith (interval s) "hours"); [|eauto].
    cbn [andb] in Hhours. apply bool_decide_eq_false_1 in Hhours.
    destruct (python_int E _); [|eauto]. exfalso. eauto. }
  destruct Hsb as (msg & Hmsg & Hsb). exists msg. split; [done|]. split; [done|].
  intros Hrun. unfold start. by rewrite Hrun, Hsb.
Qed.

Lemma unknown_interval_logged_not_rejected_witness :
  ∃ msg,
    (msg = "Unknown interval: monthly" ∨ msg = "Invalid interval format: monthly") ∧
    schedule_backups Demo.env0 (init true "02:00" "monthly") =
      (Ret tt, log ERROR msg (init true "02:00" "monthly")).
Proof.
  destruct (unknown_interval_logged_not_rejected Demo.env0
              (init true "02:00" "monthly")) as (msg & Hmsg & Hsb & _).
  - vm_compute. reflexivity.
  - exists msg. split; [exact Hmsg|exact Hsb].
Defined.

(** C6, as stated, fails: the cadence [monthly] is not in the grammar, and
    [start] returns normally with the scheduler running and no job. *)
Lemma start_accepts_unknown_interval :
  recognized Demo.env0 "monthly" = false ∧
  start Demo.env0 (init true "02:00" "monthly") =
  (Ret tt,
   Scheduler true "02:00" "monthly" true []
             [(ERROR, "Unknown interval: monthly")]).
Proof. vm_compute. split; reflexivity. Qed.

(** The same cadence with the scheduler disabled: nothing is logged. *)
Example start_disabled_unknown_interval :
  start Demo.env0 (init false "02:00" "monthly") =
  (Ret tt, Scheduler false "02:00" "monthly" true [] []).
Proof. vm_compute. reflexivity. Qed.

(** A cadence that ends in [hours] without a number in front. *)
Example start_accepts_bad_hours :
  start Demo.env0 (init true "02:00" "fewhours") =
  (Ret tt,
   Scheduler true "02:00" "fewhours" true []
             [(ERROR, "Invalid interval format: fewhours")]).
Proof. vm_compute. reflexivity. Qed.

Example start_every_six_hours :
  jobs (snd (start Demo.env0 (init true "02:00" "6hours"))) = [EveryHours 6].
Proof. vm_compute. reflexivity. Qed.

(** C1 (amended). [run_now] is never rejected: whatever is in flight it
    enters [_run_backup] at once, next to the runs in flight, which stay as
    they are; it always calls the backup function and returns normally
    whatever that function does, and the answer of [run_scheduler_now] is
    always "Backup started". *)
Theorem run_now_never_rejected :
  (∀ s, step s CallRunNow = Some (System (sched s) (FromRunNow :: in_flight s))) ∧
  (∀ (backup_function : M unit) w,
     run_now backup_function w =
     (Ret tt,
      match backup_function w with
      | (Ret _, w') => w'
      | (Raise e, w') =>
          World (w_fs w')
                (w_trace w' ++
                 [Log ERROR ("Error during scheduled backup: " +:+ exn_msg e)])
      end)) ∧
  (∀ E cfg w, ∃ w',
     BackupOrchestrator.run_scheduler_now E cfg w = (Ret (true, "Backup started"), w')).
Proof.
  assert (Hrun : ∀ (backup_function : M unit) w,
            run_now backup_function w =
            (Ret tt,
             match backup_function w with
             | (Ret _, w') => w'
             | (Raise e, w') =>
                 World (w_fs w')
                       (w_trace w' ++
                        [Log ERROR ("Error during scheduled backup: " +:+ exn_msg e)])
             end)).
  { intros bf w. unfold run_now, _run_backup, try_except, emit.
    by destruct (bf w) as [[[]|e] w']. }
  split; [done|]. split; [done|].
  intros E cfg w. unfold BackupOrchestrator.run_scheduler_now, try_except, bind.
  rewrite Hrun. unfold ret. eauto.
Qed.

(** C1, as stated, fails: with a scheduled run in flight, [run_now] is
    accepted and a second run is in flight next to the first. *)
Lemma run_now_overlaps_scheduled_run :
  ∃ s s',
    steps Demo.started [LoopFires] = Some s ∧
    in_flight s = [FromLoop] ∧
    step s CallRunNow = Some s' ∧
    in_flight s' = [FromRunNow; FromLoop].
Proof. eexists _, _. vm_compute. repeat split; reflexivity. Qed.

End SchedulerClaims.

(** ** What each operation adds to the trace *)

Section Emits.
Context {A B : Type} (P : event → Prop).

Lemma emits_ret (a : A) : emits P (ret a).
Proof. intros w. exists []. by rewrite app_nil_r. Qed.

Lemma emits_raise (e : exn) : emits P (raise (A := A) e).
Proof. intros w. exists []. by rewrite app_nil_r. Qed.

Lemma emits_oracle (f : world → A) : emits P (oracle f).
Proof. intros w. exists []. by rewrite app_nil_r. Qed.

Lemma emits_call (f : world → res A) : emits P (call f).
Proof. intros w. exists []. by rewrite app_nil_r. Qed.

Lemma emits_emit (e : event) : P e → emits P (emit e).
Proof. intros He w. exists [e]. split; [done|]. by constructor. Qed.

Lemma emits_bind (c : M A) (k : A → M B) :
  emits P c → (∀ a, emits P (k a)) → emits P (bind c k).
Proof.
  intros Hc Hk w. unfold bind. destruct (Hc w) as (evs & Hevs & HP).
  destruct (c w) as [[a|e] w1]; cbn [snd] in *.
  - destruct (Hk a w1) as (evs' & Hevs' & HP'). exists (evs ++ evs').
    rewrite Hevs', Hevs, app_assoc. split; [done|]. by apply Forall_app.
  - eauto.
Qed.

Lemma emits_try (c : M A) (h : exn → M A) :
  emits P c → (∀ e, emits P (h e)) → emits P (try_except c h).
Proof.
  intros Hc Hh w. unfold try_except. destruct (Hc w) as (evs & Hevs & HP).
  destruct (c w) as [[a|e] w1]; cbn [snd] in *.
  - eauto.
  - destruct (Hh e w1) as (evs' & Hevs' & HP'). exists (evs ++ evs').
    rewrite Hevs', Hevs, app_assoc. split; [done|]. by apply Forall_app.
Qed.

Lemma emits_weaken (Q : event → Prop) (c : M A) :
  (∀ e, Q e → P e) → emits Q c → emits P c.
Proof.
  intros HQ Hc w. destruct (Hc w) as (evs & Hevs & Hall). exists evs.
  split; [done|]. by eapply Forall_impl.
Qed.

End Emits.

Lemma emits_get_world P : emits P get_world.
Proof. intros w. exists []. by rewrite app_nil_r. Qed.

Lemma emits_os_path_exists P p : emits P (os_path_exists p).
Proof. intros w. exists []. by rewrite app_nil_r. Qed.

Lemma emits_os_stat P p : emits P (os_stat p).
Proof.
  intros w. exists []. unfold os_stat. rewrite app_nil_r.
  by destruct (fs_lookup p (w_fs w)).
Qed.

Lemma emits_os_remove P p : emits P (os_remove p).
Proof.
  intros w. exists []. unfold os_remove. rewrite app_nil_r.
  destruct (fs_lookup p (w_fs w)) as [f|]; [|done]. by destruct (f_locked f).
Qed.

Lemma emits_write_file P E p n g : emits P (write_file E p n g).
Proof.
  intros w. exists []. unfold write_file. rewrite app_nil_r.
  by destruct (String.eqb p "").
Qed.

Ltac emits_step :=
  first
    [ apply emits_ret | apply emits_raise | apply emits_oracle | apply emits_call
    | apply emits_get_world | apply emits_os_path_exists | apply emits_os_stat
    | apply emits_os_remove | apply emits_write_file
    | apply emits_emit; exact I
    | apply emits_bind; [|intros ?]
    | apply emits_try; [|intros ?]
    | match goal with
      | |- emits _ (if ?b then _ else _) => destruct b
      | |- emits _ (match ?x with _ => _ end) => destruct x
      end ].

Ltac emits_auto := repeat emits_step.

Lemma emits_gzip_read1 P p : emits P (gzip_read1 p).
Proof. unfold gzip_read1. emits_auto. Qed.

Lemma emits_gzip_copy_out P E i o : emits P (gzip_copy_out E i o).
Proof. unfold gzip_copy_out. emits_auto. Qed.

Lemma emits_verify_backup p : emits dump_stage_event (BackupManager.verify_backup p).
Proof.
  unfold BackupManager.verify_backup. emits_auto.
Qed.

Lemma emits_compress_file E p : emits dump_stage_event (BackupManager.compress_file E p).
Proof. unfold BackupManager.compress_file. emits_auto. Qed.

Lemma emits_create_backup E db p :
  emits dump_stage_event (DatabaseConnector.create_backup E db p).
Proof. unfold DatabaseConnector.create_backup. emits_auto. Qed.

Lemma emits_dump_compress_verify E cfg db :
  emits dump_stage_event (BackupOrchestrator.dump_compress_verify E cfg db).
Proof.
  unfold BackupOrchestrator.dump_compress_verify,
    DatabaseConnector.test_connection, BackupManager.generate_backup_filename.
  emits_auto.
Qed.

(** ** Operations that never raise *)

Section Returns.
Context {A B : Type}.

Lemma returns_ret (a : A) : returns (ret a).
Proof. intros w. by exists a. Qed.

Lemma returns_oracle (f : world → A) : returns (oracle f).
Proof. intros w. by exists (f w). Qed.

Lemma returns_bind (c : M A) (k : A → M B) :
  returns c → (∀ a, returns (k a)) → returns (bind c k).
Proof.
  intros Hc Hk w. unfold bind. destruct (Hc w) as [a Ha].
  destruct (c w) as [[a'|e] w1]; [|done]. apply Hk.
Qed.

Lemma returns_try (c : M A) (h : exn → M A) :
  (∀ e, returns (h e)) → returns (try_except c h).
Proof.
  intros Hh w. unfold try_except. destruct (c w) as [[a|e] w1]; [by exists a|].
  apply Hh.
Qed.

End Returns.

Lemma returns_emit e : returns (emit e).
Proof. intros w. by exists tt. Qed.

Lemma returns_get_world : returns get_world.
Proof. intros w. by exists w. Qed.

Lemma returns_os_path_exists p : returns (os_path_exists p).
Proof. intros w. by eexists. Qed.

Ltac returns_step :=
  lazymatch goal with
  | |- returns (bind _ _) => apply returns_bind; [|intros ?]
  | |- returns (try_except _ _) => apply returns_try; intros ?
  | |- returns (ret _) => apply returns_ret
  | |- returns (oracle _) => apply returns_oracle
  | |- returns (emit _) => apply returns_emit
  | |- returns get_world => apply returns_get_world
  | |- returns (os_path_exists _) => apply returns_os_path_exists
  | |- returns (if ?b then _ else _) => destruct b
  | |- returns (match ?x with _ => _ end) => destruct x
  end.

Ltac returns_auto := repeat returns_step.

Lemma returns_verify_backup p : returns (BackupManager.verify_backup p).
Proof. unfold BackupManager.verify_backup. returns_auto. Qed.

Lemma returns_get_backup_info p : returns (BackupManager.get_backup_info p).
Proof. unfold BackupManager.get_backup_info. returns_auto. Qed.

Lemma returns_upload_backup E cfg p : returns (StorageHandler.upload_backup E cfg p).
Proof.
  unfold StorageHandler.upload_backup, StorageHandler._handle_local_storage,
    StorageHandler._upload_ftp, StorageHandler._upload_sftp.
  returns_auto.
Qed.

Lemma emits_upload_backup E cfg p :
  emits upload_stage_event (StorageHandler.upload_backup E cfg p).
Proof.
  unfold StorageHandler.upload_backup, StorageHandler._handle_local_storage,
    StorageHandler._upload_ftp, StorageHandler._upload_sftp.
  emits_auto.
Qed.

Lemma returns_gdrive_upload E en p : returns (GoogleDriveHandler.upload_backup E en p).
Proof. unfold GoogleDriveHandler.upload_backup. returns_auto. Qed.

Lemma emits_gdrive_upload E en p :
  emits upload_stage_event (GoogleDriveHandler.upload_backup E en p).
Proof. unfold GoogleDriveHandler.upload_backup. emits_auto. Qed.

Lemma emits_get_backup_info p :
  emits upload_stage_event (BackupManager.get_backup_info p).
Proof. unfold BackupManager.get_backup_info. emits_auto. Qed.

(** The removal loops leave the trace alone. *)
Lemma remove_old_trace cutoff bs n w :
  w_trace (snd (BackupManager.remove_old cutoff bs n w)) = w_trace w.
Proof.
  revert n w. induction bs as [|b bs IH]; intros n w; [done|].
  cbn [BackupManager.remove_old]. destruct (_ <? _)%Z; [|apply IH].
  destruct (os_remove_cases (BackupManager.path b) w) as [[e ->]| ->]; [done|].
  by rewrite IH.
Qed.

Lemma remove_excess_trace ex n w :
  w_trace (snd (BackupManager.remove_excess ex n w)) = w_trace w.
Proof.
  revert n w. induction ex as [|b ex IH]; intros n w; [done|].
  cbn [BackupManager.remove_excess]. unfold os_path_exists.
  destruct (bool_decide _); [|apply IH].
  destruct (os_remove_cases (BackupManager.path b) w) as [[e ->]| ->]; [done|].
  by rewrite IH.
Qed.

Lemma cleanup_runs E cfg db w :
  ∃ n w' evs,
    BackupManager.cleanup_old_backups E cfg db w = (Ret n, w') ∧
    w_trace w' = w_trace w ++ evs ∧ Forall upload_stage_event evs.
Proof.
  unfold BackupManager.cleanup_old_backups, BackupManager.cleanup_failed.
  unfold bind, emit, ret. rewrite list_backups_listing.
  set (bs := Retention.listing cfg db (w_fs w)).
  destruct (BackupManager.days_before _ _) as [cutoff|e0].
  2:{ eexists _, _, [_]. split; [reflexivity|]. cbn [w_trace].
      split; [reflexivity|]. by repeat constructor. }
  pose proof (remove_old_trace cutoff bs 0 w) as H1.
  destruct (BackupManager.remove_old cutoff bs 0 w) as [[n [[]|e]] w1]; cbn [snd] in H1.
  - destruct (_ <? _)%Z.
    + pose proof (remove_excess_trace
        (BackupManager.slice_from (BackupManager.max_backups cfg) bs) n w1) as H2.
      destruct (BackupManager.remove_excess _ n w1) as [[n' [[]|e]] w2]; cbn [snd] in H2.
      * exists n', w2, []. rewrite app_nil_r. split; [done|]. split; [congruence|done].
      * eexists _, _, [_]. split; [reflexivity|]. cbn [w_trace].
        rewrite H2, H1. split; [reflexivity|]. by repeat constructor.
    + exists n, w1, []. rewrite app_nil_r. done.
  - eexists _, _, [_]. split; [reflexivity|]. cbn [w_trace].
    rewrite H1. split; [reflexivity|]. by repeat constructor.
Qed.

(** ** The upload stage *)

Lemma runs_of {A} (P : event → Prop) (c : M A) (w : world) :
  returns c → emits P c →
  ∃ a w' evs, c w = (Ret a, w') ∧ w_trace w' = w_trace w ++ evs ∧ Forall P evs.
Proof.
  intros Hr He. destruct (Hr w) as [a Ha]. destruct (He w) as (evs & Hevs & HP).
  destruct (c w) as [r w'] eqn:Hc. cbn [fst snd] in *. subst r. eauto 6.
Qed.

Lemma upload_backup_outcome (E : env) (cfg : StorageHandler.config)
    (p : string) (w : world) :
  is_Some (fs_lookup p (w_fs w)) →
  ∃ storage w' evs,
    StorageHandler.upload_backup E cfg p w = (Ret storage, w') ∧
    w_fs w' = w_fs w ∧ w_trace w' = w_trace w ++ evs ∧
    dom storage =
      (if StorageHandler.local_enabled cfg then {[ "local" ]} else ∅) ∪
      (if StorageHandler.ftp_enabled cfg then {[ "ftp" ]} else ∅) ∪
      (if StorageHandler.sftp_enabled cfg then {[ "sftp" ]} else (∅ : gset string)) ∧
    (StorageHandler.local_enabled cfg = true → LocalStorage p ∈ evs) ∧
    (StorageHandler.ftp_enabled cfg = true → FtpUpload p ∈ evs) ∧
    (StorageHandler.sftp_enabled cfg = true → SftpUpload p ∈ evs) ∧
    (StorageHandler.local_enabled cfg = true → storage !! "local" = Some true) ∧
    (StorageHandler.ftp_enabled cfg = true →
     ∃ w0, storage !! "ftp" = Some (recorded (ftp_transfer E w0 p))) ∧
    (StorageHandler.sftp_enabled cfg = true →
     ∃ w0, storage !! "sftp" = Some (recorded (sftp_transfer E w0 p))) ∧
    Forall upload_stage_event evs.
Proof.
  intros Hp. unfold StorageHandler.upload_backup, StorageHandler._handle_local_storage,
    StorageHandler._upload_ftp, StorageHandler._upload_sftp.
  unfold bind at 1. unfold os_path_exists at 1.
  rewrite (bool_decide_eq_true_2 _ Hp). cbn [negb].
  destruct cfg as [l f s]. cbn [StorageHandler.local_enabled
    StorageHandler.ftp_enabled StorageHandler.sftp_enabled].
  unfold bind, try_except, emit, ret, call. cbn [w_fs w_trace].
  destruct l, f, s; cbn [w_fs w_trace];
    repeat match goal with
           | |- context [ftp_transfer E ?w p] =>
               destruct (ftp_transfer E w p) as [[]|?] eqn:Hftp
           | |- context [sftp_transfer E ?w p] =>
               destruct (sftp_transfer E w p) as [[]|?] eqn:Hsftp
           end;
    eexists _, _, _; (split; [reflexivity|]); (split; [reflexivity|]);
    cbn [w_fs w_trace]; rewrite <- ?app_assoc;
    (split; [first [reflexivity | by rewrite app_nil_r]|]);
    (split; [rewrite ?dom_insert_L, ?dom_empty_L; set_solver|]);
    (split; [intros; try done; set_solver|]);
    (split; [intros; try done; set_solver|]);
    (split; [intros; try done; set_solver|]);
    (split; [intros; try done|]);
    (split; [intros; try done; eexists; rewrite Hftp; reflexivity|]);
    (split; [intros; try done; eexists; rewrite Hsftp; reflexivity|]);
    repeat constructor.
Qed.

(** ** The pipeline *)

Lemma bind_ret_inv {A B} (c : M A) (k : A → M B) (w w' : world) (b : B) :
  bind c k w = (Ret b, w') → ∃ a w1, c w = (Ret a, w1) ∧ k a w1 = (Ret b, w').
Proof. unfold bind. destruct (c w) as [[a|e] w1]; [eauto|done]. Qed.

Lemma verify_backup_true (p : string) (w w' : world) :
  BackupManager.verify_backup p w = (Ret true, w') →
  is_Some (fs_lookup p (w_fs w')).
Proof.
  unfold BackupManager.verify_backup, gzip_read1.
  unfold bind, ret, raise, try_except, emit, os_path_exists, os_stat.
  destruct (fs_lookup p (w_fs w)) as [f|] eqn:Hf.
  - rewrite (bool_decide_eq_true_2 (is_Some (Some f))) by eauto. cbn [negb].
    rewrite Hf. destruct (f_size f =? 0)%Z; [done|].
    destruct (PyStr.endswith p ".gz").
    + rewrite Hf. destruct (gzip_view f) as [|[|n] [|]]; intros [= <-];
        rewrite Hf; eauto.
    + intros [= <-]. rewrite Hf. eauto.
  - by rewrite (bool_decide_eq_false_2 (is_Some None)) by (by intros [? ?]).
Qed.

(** When the first three stages succeed, the artifact is on disk. *)
Lemma dump_compress_verify_file (E : env) (cfg : BackupOrchestrator.config)
    (db p : string) (w w1 : world) :
  BackupOrchestrator.dump_compress_verify E cfg db w = (Ret p, w1) →
  is_Some (fs_lookup p (w_fs w1)).
Proof.
  unfold BackupOrchestrator.dump_compress_verify. intros H.
  apply bind_ret_inv in H as (connected & wa & _ & H).
  destruct connected; cbn [negb] in H; [|done].
  apply bind_ret_inv in H as (fname & wb & _ & H).
  apply bind_ret_inv in H as (dumped & wc & _ & H).
  destruct dumped; cbn [negb] in H; [|done].
  apply bind_ret_inv in H as (bp & wd & _ & H).
  apply bind_ret_inv in H as (verified & we & Hv & H).
  destruct verified; cbn [negb] in H; [|done].
  injection H as <- <-. by eapply verify_backup_true.
Qed.

Lemma gdrive_upload_outcome (E : env) (p : string) (w : world) :
  is_Some (fs_lookup p (w_fs w)) →
  ∃ r w' evs,
    GoogleDriveHandler.upload_backup E true p w = (Ret r, w') ∧
    w_fs w' = w_fs w ∧ w_trace w' = w_trace w ++ evs ∧
    GdriveUpload p ∈ evs ∧
    (∃ w0, r = recorded (gdrive_transfer E w0 p)) ∧
    Forall upload_stage_event evs.
Proof.
  intros Hp. unfold GoogleDriveHandler.upload_backup. cbn [negb].
  unfold try_except, bind at 1. unfold os_path_exists at 1.
  rewrite (bool_decide_eq_true_2 _ Hp). cbn [negb].
  unfold bind, emit, call, ret. cbn [w_fs w_trace].
  destruct (gdrive_transfer E _ p) as [[]|e] eqn:Hg; cbn [w_fs w_trace];
    rewrite <- ?app_assoc; eexists _, _, _;
    (split; [reflexivity|]); (split; [reflexivity|]); (split; [reflexivity|]);
    (split; [set_solver|]); (split; [eexists; by rewrite Hg|]);
    repeat constructor.
Qed.

Lemma upload_cleanup_notify_shape (E : env) (cfg : BackupOrchestrator.config)
    (db p : string) (start_time : Z) (w : world) :
  is_Some (fs_lookup p (w_fs w)) →
  ∃ w' evs duration storage size removed,
    BackupOrchestrator.upload_cleanup_notify E cfg db start_time p w = (Ret true, w') ∧
    w_trace w' =
      w_trace w ++ evs ++
      [SendBackupNotification true db (Some p) None
         (SuccessDetails duration storage size removed)] ∧
    Forall upload_stage_event evs ∧
    dom storage = enabled_targets cfg ∧
    (∀ t, t ∈ enabled_targets cfg → attempt t p ∈ evs) ∧
    (StorageHandler.ftp_enabled (BackupOrchestrator.storage cfg) = true →
     ∃ w0, storage !! "ftp" = Some (recorded (ftp_transfer E w0 p))) ∧
    (StorageHandler.sftp_enabled (BackupOrchestrator.storage cfg) = true →
     ∃ w0, storage !! "sftp" = Some (recorded (sftp_transfer E w0 p))) ∧
    (BackupOrchestrator.google_drive cfg = Some true →
     ∃ w0, storage !! "google_drive" = Some (recorded (gdrive_transfer E w0 p))).
Proof.
  intros Hp. unfold BackupOrchestrator.upload_cleanup_notify.
  destruct (upload_backup_outcome E (BackupOrchestrator.storage cfg) p w Hp)
    as (st1 & w1 & evs1 & Hup & Hfs1 & Htr1 & Hdom1 & Hl & Hf & Hs & Hvl & Hvf & Hvs & Hall1).
  unfold bind at 1. rewrite Hup.
  (* Google Drive *)
  assert (Hgd : ∃ st2 w2 evs2,
    (match BackupOrchestrator.google_drive cfg with
     | Some true =>
         try_except
           (bind (GoogleDriveHandler.upload_backup E true p)
                 (fun ok => ret (<[ "google_drive" := ok ]> st1)))
           (fun e =>
              bind (emit (Log ERROR ("Google Drive upload failed: " +:+ exn_msg e)))
                   (fun _ => ret (<[ "google_drive" := false ]> st1)))
     | _ => ret st1
     end) w1 = (Ret st2, w2) ∧
    w_fs w2 = w_fs w1 ∧ w_trace w2 = w_trace w1 ++ evs2 ∧
    Forall upload_stage_event evs2 ∧
    dom st2 = enabled_targets cfg ∧
    (BackupOrchestrator.google_drive cfg = Some true → GdriveUpload p ∈ evs2) ∧
    (∀ t, t ≠ "google_drive" → st2 !! t = st1 !! t) ∧
    (BackupOrchestrator.google_drive cfg = Some true →
     ∃ w0, st2 !! "google_drive" = Some (recorded (gdrive_transfer E w0 p)))).
  { unfold enabled_targets. rewrite <- Hdom1.
    destruct (BackupOrchestrator.google_drive cfg) as [[|]|].
    - destruct (gdrive_upload_outcome E p w1) as (r & w2 & evs2 & Hg & Hfs2 & Htr2 & Hin & [w0 Hr] & Hall2).
      { by rewrite Hfs1. }
      unfold try_except, bind. rewrite Hg. unfold ret.
      exists (<[ "google_drive" := r ]> st1), w2, evs2.
      split; [done|]. split; [done|]. split; [done|]. split; [done|].
      split; [rewrite dom_insert_L; apply (comm_L (∪))|]. split; [done|].
      split; [intros t Ht; by rewrite lookup_insert_ne|].
      intros _. exists w0. by rewrite lookup_insert_eq, Hr.
    - exists st1, w1, []. rewrite app_nil_r.
      split; [done|]. split; [done|]. split; [done|]. split; [done|].
      split; [by rewrite (right_id_L ∅ (∪))|]. split; [done|]. split; done.
    - exists st1, w1, []. rewrite app_nil_r.
      split; [done|]. split; [done|]. split; [done|]. split; [done|].
      split; [by rewrite (right_id_L ∅ (∪))|]. split; [done|]. split; done. }
  destruct Hgd as (st2 & w2 & evs2 & Hgd & Hfs2 & Htr2 & Hall2 & Hdom2 & Hg & Hsame & Hvg).
  unfold bind at 1. rewrite Hgd.
  (* retention *)
  destruct (cleanup_runs E (BackupOrchestrator.backup cfg) (Some db) w2)
    as (removed & w3 & evs3 & Hcl & Htr3 & Hall3).
  unfold bind at 1. rewrite Hcl.
  unfold bind at 1, oracle at 1.
  destruct (runs_of upload_stage_event (BackupManager.get_backup_info p) w3
              (returns_get_backup_info p) (emits_get_backup_info p))
    as (info & w4 & evs4 & Hinfo & Htr4 & Hall4).
  unfold bind at 1. rewrite Hinfo. unfold bind, emit, ret. cbn [w_fs w_trace].
  eexists _, (evs1 ++ evs2 ++ evs3 ++ evs4), _, st2, _, removed.
  split; [reflexivity|]. split.
  { rewrite Htr4, Htr3, Htr2, Htr1. by rewrite <- !app_assoc. }
  split; [by repeat apply Forall_app_2|]. split; [done|]. split.
  { intros t. unfold enabled_targets, attempt.
    rewrite !elem_of_union, !elem_of_app.
    intros [[[Ht|Ht]|Ht]|Ht].
    - destruct (StorageHandler.local_enabled _); [|by apply elem_of_empty in Ht].
      apply elem_of_singleton in Ht as ->. left. by apply Hl.
    - destruct (StorageHandler.ftp_enabled _); [|by apply elem_of_empty in Ht].
      apply elem_of_singleton in Ht as ->. left. by apply Hf.
    - destruct (StorageHandler.sftp_enabled _); [|by apply elem_of_empty in Ht].
      apply elem_of_singleton in Ht as ->. left. by apply Hs.
    - destruct (BackupOrchestrator.google_drive cfg) as [[|]|];
        try (by apply elem_of_empty in Ht).
      apply elem_of_singleton in Ht as ->. right. left. by apply Hg. }
  split; [intros H; rewrite Hsame by done; by apply Hvf|].
  split; [intros H; rewrite Hsame by done; by apply Hvs|]. done.
Qed.

(** A run whose first three stages succeed. *)
Lemma single_run_success (E : env) (cfg : BackupOrchestrator.config)
    (database backup_path : string) (w w1 : world) :
  BackupOrchestrator.dump_compress_verify E cfg database w = (Ret backup_path, w1) →
  ∃ w' evs duration storage size removed,
    BackupOrchestrator._backup_single_database E cfg database w = (Ret true, w') ∧
    w_trace w' =
      w_trace w1 ++ evs ++
      [SendBackupNotification true database (Some backup_path) None
         (SuccessDetails duration storage size removed)] ∧
    Forall upload_stage_event evs ∧
    dom storage = enabled_targets cfg ∧
    (∀ t, t ∈ enabled_targets cfg → attempt t backup_path ∈ evs) ∧
    (StorageHandler.ftp_enabled (BackupOrchestrator.storage cfg) = true →
     ∃ w0, storage !! "ftp" = Some (recorded (ftp_transfer E w0 backup_path))) ∧
    (StorageHandler.sftp_enabled (BackupOrchestrator.storage cfg) = true →
     ∃ w0, storage !! "sftp" = Some (recorded (sftp_transfer E w0 backup_path))) ∧
    (BackupOrchestrator.google_drive cfg = Some true →
     ∃ w0, storage !! "google_drive"
           = Some (recorded (gdrive_transfer E w0 backup_path))).
Proof.
  intros Hdcv.
  pose proof (dump_compress_verify_file _ _ _ _ _ _ Hdcv) as Hp.
  destruct (upload_cleanup_notify_shape E cfg database backup_path
              (time_time E w) w1 Hp)
    as (w' & evs & d & st & sz & rm & Hrun & Hrest).
  exists w', evs, d, st, sz, rm. split; [|done].
  unfold BackupOrchestrator._backup_single_database, BackupOrchestrator.backup_stages.
  unfold bind at 1, oracle at 1. unfold try_except, bind. by rewrite Hdcv, Hrun.
Qed.

(** The stages after verification never raise. *)
Lemma backup_stages_raise (E : env) (cfg : BackupOrchestrator.config)
    (database : string) (start_time : Z) (e : exn) (w w1 : world) :
  BackupOrchestrator.backup_stages E cfg database start_time w = (Raise e, w1) →
  BackupOrchestrator.dump_compress_verify E cfg database w = (Raise e, w1).
Proof.
  unfold BackupOrchestrator.backup_stages, bind. intros Hst.
  destruct (BackupOrchestrator.dump_compress_verify E cfg database w)
    as [[p|e'] w2] eqn:Hdcv; [|by injection Hst as -> ->].
  pose proof (dump_compress_verify_file _ _ _ _ _ _ Hdcv) as Hp.
  destruct (upload_cleanup_notify_shape E cfg database p start_time w2 Hp)
    as (w' & ? & ? & ? & ? & ? & Hrun & _).
  by rewrite Hrun in Hst.
Qed.

(** A run in which a stage raises. *)
Lemma single_run_failure (E : env) (cfg : BackupOrchestrator.config)
    (database : string) (e : exn) (w w1 : world) :
  BackupOrchestrator.backup_stages E cfg database (time_time E w) w = (Raise e, w1) →
  BackupOrchestrator._backup_single_database E cfg database w =
    (Ret false,
     World (w_fs w1)
           (w_trace w1 ++
            [Log ERROR ("Backup failed for " +:+ database +:+ ": " +:+ exn_msg e);
             SendBackupNotification false database None (Some (exn_msg e))
               (FailureDetails (time_time E w1 - time_time E w))])).
Proof.
  intros Hst. unfold BackupOrchestrator._backup_single_database.
  unfold bind at 1, oracle at 1. unfold try_except. rewrite Hst.
  unfold BackupOrchestrator.backup_failed, bind, oracle, emit, ret.
  cbn [w_fs w_trace]. by rewrite <- app_assoc.
Qed.

(** Every run of one database returns, and sends exactly one notification,
    last, with the flag it returns. *)
Lemma single_database_run (E : env) (cfg : BackupOrchestrator.config)
    (database : string) (w : world) :
  ∃ success w' evs backup_file error_message d,
    BackupOrchestrator._backup_single_database E cfg database w = (Ret success, w') ∧
    w_trace w' =
      w_trace w ++ evs ++
      [SendBackupNotification success database backup_file error_message d] ∧
    Forall (fun ev => ¬ is_notification ev) evs.
Proof.
  destruct (emits_dump_compress_verify E cfg database w) as (evs0 & Hevs0 & Hall0).
  assert (Hno0 : Forall (fun ev => ¬ is_notification ev) evs0).
  { eapply Forall_impl; [exact Hall0|]. intros []; cbn; tauto. }
  destruct (BackupOrchestrator.dump_compress_verify E cfg database w)
    as [[p|e] w1] eqn:Hdcv; cbn [snd] in Hevs0.
  - destruct (single_run_success _ _ _ _ _ _ Hdcv)
      as (w' & evs & d & st & sz & rm & Hrun & Htr & Hall & _).
    eexists true, w', (evs0 ++ evs), _, _, _. split; [exact Hrun|]. split.
    + rewrite Htr, Hevs0. by rewrite <- !app_assoc.
    + apply Forall_app_2; [done|]. eapply Forall_impl; [exact Hall|].
      intros []; cbn; tauto.
  - assert (Hst : BackupOrchestrator.backup_stages E cfg database (time_time E w) w
                  = (Raise e, w1)).
    { unfold BackupOrchestrator.backup_stages, bind. by rewrite Hdcv. }
    pose proof (single_run_failure _ _ _ _ _ _ Hst) as Hrun.
    eexists false, _, (evs0 ++ [_]), _, _, _. split; [exact Hrun|]. cbn [w_trace].
    split.
    + rewrite Hevs0. by rewrite <- !app_assoc.
    + apply Forall_app_2; [done|]. repeat constructor. cbn. tauto.
Qed.

(** C2. When connection test, dump, compression and verification have
    succeeded, the run succeeds whatever the upload targets report: every
    enabled target is attempted and has its entry in the outcome mapping,
    holding what its transfer reported, the mapping goes into the success
    notification, and the result is [True]. *)
Theorem upload_failures_do_not_fail_backup (E : env)
    (cfg : BackupOrchestrator.config) (database backup_path : string)
    (w w1 : world) :
  BackupOrchestrator.dump_compress_verify E cfg database w = (Ret backup_path, w1) →
  ∃ w' evs duration storage size removed,
    BackupOrchestrator._backup_single_database E cfg database w = (Ret true, w') ∧
    w_trace w' =
      w_trace w1 ++ evs ++
      [SendBackupNotification true database (Some backup_path) None
         (SuccessDetails duration storage size removed)] ∧
    dom storage = enabled_targets cfg ∧
    (∀ t, t ∈ enabled_targets cfg → attempt t backup_path ∈ evs) ∧
    (StorageHandler.ftp_enabled (BackupOrchestrator.storage cfg) = true →
     ∃ w0, storage !! "ftp" = Some (recorded (ftp_transfer E w0 backup_path))) ∧
    (StorageHandler.sftp_enabled (BackupOrchestrator.storage cfg) = true →
     ∃ w0, storage !! "sftp" = Some (recorded (sftp_transfer E w0 backup_path))) ∧
    (BackupOrchestrator.google_drive cfg = Some true →
     ∃ w0, storage !! "google_drive"
           = Some (recorded (gdrive_transfer E w0 backup_path))).
Proof.
  intros Hdcv.
  destruct (single_run_success _ _ _ _ _ _ Hdcv)
    as (w' & evs & d & st & sz & rm & Hrun & Htr & _ & Hrest).
  exists w', evs, d, st, sz, rm. by split.
Qed.

(** C3. When a stage raises, the run answers [False]; after the point of
    failure nothing happens but the error log line and the failure
    notification, which carries the error text and the elapsed time. The
    failure is one of the stages up to verification, so no upload has been
    attempted and no notification sent before. *)
Theorem stage_error_fails_and_notifies (E : env)
    (cfg : BackupOrchestrator.config) (database : string) (e : exn)
    (w w1 : world) :
  BackupOrchestrator.backup_stages E cfg database (time_time E w) w = (Raise e, w1) →
  BackupOrchestrator._backup_single_database E cfg database w =
    (Ret false,
     World (w_fs w1)
           (w_trace w1 ++
            [Log ERROR ("Backup failed for " +:+ database +:+ ": " +:+ exn_msg e);
             SendBackupNotification false database None (Some (exn_msg e))
               (FailureDetails (time_time E w1 - time_time E w))])) ∧
  BackupOrchestrator.dump_compress_verify E cfg database w = (Raise e, w1) ∧
  ∃ evs, w_trace w1 = w_trace w ++ evs ∧ Forall dump_stage_event evs.
Proof.
  intros Hst. split; [by apply single_run_failure|].
  pose proof (backup_stages_raise _ _ _ _ _ _ _ Hst) as Hdcv. split; [done|].
  destruct (emits_dump_compress_verify E cfg database w) as (evs & Hevs & Hall).
  rewrite Hdcv in Hevs. eauto.
Qed.

Lemma upload_failures_do_not_fail_backup_witness :
  ∃ w',
    BackupOrchestrator._backup_single_database Demo.env_ftp_down
      Demo.orchestrator_cfg "db1" (World [] []) = (Ret true, w').
Proof.
  destruct (upload_failures_do_not_fail_backup Demo.env_ftp_down
              Demo.orchestrator_cfg "db1"
              "./backups/db1_full_20240410_020000.sql.gz" (World [] [])
              (World [ ("./backups/db1_full_20240410_020000.sql.gz",
                        File (100 * BackupManager.day) 512 (GzStream 2048 true) false) ]
                     [MysqlConnect;
                      Mysqldump "db1" "./backups/db1_full_20240410_020000.sql"]))
    as (w' & _ & _ & _ & _ & _ & H & _).
  - vm_compute. reflexivity.
  - exists w'. exact H.
Defined.

(** The scenario of the specification: three targets, the second one refuses
    the connection; the mapping records it and the job succeeds. *)
Example upload_scenario_second_target_down :
  let r := BackupOrchestrator._backup_single_database Demo.env_ftp_down
             Demo.orchestrator_cfg "db1" (World [] []) in
  fst r = Ret true ∧
  match last (w_trace (snd r)) with
  | Some (SendBackupNotification true "db1" _ None (SuccessDetails _ storage _ _)) =>
      storage !! "local" = Some true ∧ storage !! "ftp" = Some false ∧
      storage !! "sftp" = Some true
  | _ => False
  end.
Proof. vm_compute. repeat split; reflexivity. Qed.

Lemma stage_error_fails_and_notifies_witness :
  BackupOrchestrator._backup_single_database Demo.env_db_down
    Demo.orchestrator_cfg "db1" (World [] []) =
  (Ret false,
   World []
     [MysqlConnect;
      Log ERROR "Backup failed for db1: Database connection failed";
      SendBackupNotification false "db1" None (Some "Database connection failed")
        (FailureDetails 1000000)]).
Proof.
  destruct (stage_error_fails_and_notifies Demo.env_db_down Demo.orchestrator_cfg
              "db1" (Exn "Exception" "Database connection failed")
              (World [] []) (World [] [MysqlConnect])) as (H & _).
  - vm_compute. reflexivity.
  - exact H.
Defined.

(** ** Batches *)

Lemma notified_app (l k : list event) : notified (l ++ k) = notified l ++ notified k.
Proof. apply omap_app. Qed.

Lemma notified_none (l : list event) :
  Forall (fun ev => ¬ is_notification ev) l → notified l = [].
Proof.
  induction 1 as [|ev l Hev _ IH]; [done|]. unfold notified. cbn [omap list_omap].
  fold (notified l). rewrite IH. destruct ev; cbn in *; tauto.
Qed.

Lemma backup_each_runs (E : env) (cfg : BackupOrchestrator.config)
    (dbs : list string) (acc : gmap string BackupOrchestrator.result) (w : world) :
  ∃ results w' evs,
    BackupOrchestrator.backup_each E cfg dbs acc w = (Ret results, w') ∧
    w_trace w' = w_trace w ++ evs ∧
    notified evs = dbs ∧
    dom results = dom acc ∪ list_to_set dbs ∧
    (∀ db r, results !! db = Some r →
       acc !! db = Some r ∨
       (BackupOrchestrator.database r = db ∧
        BackupOrchestrator.status r
          = (if BackupOrchestrator.success r then "success" else "error") ∧
        ∃ backup_file error_message d,
          SendBackupNotification (BackupOrchestrator.success r) db
            backup_file error_message d ∈ evs)).
Proof.
  revert acc w. induction dbs as [|db dbs IH]; intros acc w.
  - exists acc, w, []. rewrite app_nil_r. split; [done|]. split; [done|].
    split; [done|]. split; [by rewrite list_to_set_nil, (right_id_L ∅ (∪))|]. auto.
  - cbn [BackupOrchestrator.backup_each]. unfold bind at 1.
    destruct (single_database_run E cfg db w)
      as (ok & w1 & evs1 & bf & em & d & Hrun & Htr1 & Hno).
    rewrite Hrun.
    destruct (IH (<[ db := BackupOrchestrator.Result
                            (if ok then "success" else "error") ok db ]> acc) w1)
      as (results & w' & evs & Heach & Htr & Hnot & Hdom & Hres).
    exists results, w', (evs1 ++ [SendBackupNotification ok db bf em d] ++ evs).
    split; [done|]. split.
    { rewrite Htr, Htr1. by rewrite <- !app_assoc. }
    split.
    { rewrite !notified_app, (notified_none _ Hno), Hnot. done. }
    split.
    { rewrite Hdom, dom_insert_L, list_to_set_cons.
      by rewrite (comm_L (∪) {[db]} (dom acc)), (assoc_L (∪)). }
    intros db' r Hr. destruct (Hres db' r Hr) as [Hacc|(Hd & Hs & bf' & em' & d' & Hin)].
    + destruct (decide (db = db')) as [<-|Hne].
      * rewrite lookup_insert_eq in Hacc. injection Hacc as <-. right.
        cbn. split; [done|]. split; [done|]. exists bf, em, d.
        rewrite elem_of_app, elem_of_cons. right. by left.
      * rewrite lookup_insert_ne in Hacc by done. by left.
    + right. split; [done|]. split; [done|]. exists bf', em', d'.
      rewrite !elem_of_app. right. by right.
Qed.


(** A batch in which the database server is down: both databases are tried,
    both fail, both are in the mapping. *)
Example run_backup_failing_batch :
  let r := BackupOrchestrator.run_backup Demo.env_db_down Demo.orchestrator_cfg
             None (World [] []) in
  (match fst r with
   | Ret results =>
       results !! "db1" = Some (BackupOrchestrator.Result "error" false "db1") ∧
       results !! "db2" = Some (BackupOrchestrator.Result "error" false "db2")
   | Raise _ => False
   end) ∧
  notified (w_trace (snd r)) = ["db1"; "db2"].
Proof. vm_compute. repeat split; reflexivity. Qed.

Example run_backup_empty :
  BackupOrchestrator.run_backup Demo.env0 Demo.orchestrator_cfg (Some [])
    (World [] []) =
  (Ret ∅, World [] [Log WARNING "No databases specified for backup"]).
Proof. reflexivity. Qed.

(** ** More on strings and paths *)

Lemma str_app_cons (x : ascii) (a b : string) :
  String x a +:+ b = String x (a +:+ b).
Proof. reflexivity. Qed.

Lemma str_app_nil_l (b : string) : "" +:+ b = b.
Proof. reflexivity. Qed.

Lemma str_app_assoc (a b c : string) : (a +:+ b) +:+ c = a +:+ (b +:+ c).
Proof. induction a as [|x a IH]; [done|]. by rewrite !str_app_cons, IH. Qed.

Lemma str_app_nil_r (a : string) : a +:+ "" = a.
Proof. induction a as [|x a IH]; [done|]. by rewrite str_app_cons, IH. Qed.

Lemma str_app_length (a b : string) :
  String.length (a +:+ b) = String.length a + String.length b.
Proof.
  induction a as [|x a IH]; [done|]. rewrite str_app_cons. cbn [String.length]. lia.
Qed.

Lemma prefix_nil (s : string) : String.prefix "" s = true.
Proof. by destruct s. Qed.

Lemma prefix_app (a b : string) : String.prefix a (a +:+ b) = true.
Proof.
  induction a as [|x a IH]; [apply prefix_nil|].
  rewrite str_app_cons, prefix_cons. by destruct (Ascii.ascii_dec x x).
Qed.

Lemma prefix_trans (a b c : string) :
  String.prefix a b = true → String.prefix b c = true → String.prefix a c = true.
Proof.
  revert b c. induction a as [|x a IH]; intros b c; [intros; apply prefix_nil|].
  destruct b as [|y b]; [done|]. destruct c as [|z c]; [done|].
  rewrite !prefix_cons.
  destruct (Ascii.ascii_dec x y) as [->|]; [|done].
  destruct (Ascii.ascii_dec y z) as [->|]; [|done]. apply IH.
Qed.

Lemma drop_app_length (a b : string) : PyStr.drop (String.length a) (a +:+ b) = b.
Proof. induction a as [|x a IH]; [by destruct b|]. exact IH. Qed.

Lemma endswith_refl (s : string) : PyStr.endswith s s = true.
Proof. destruct s; cbn [PyStr.endswith]; by rewrite String.eqb_refl. Qed.

Lemma endswith_app (a b : string) : PyStr.endswith (a +:+ b) b = true.
Proof.
  induction a as [|x a IH]; [apply endswith_refl|].
  rewrite str_app_cons. cbn [PyStr.endswith]. rewrite IH. apply orb_true_r.
Qed.

Lemma endswith_app_r (s a b : string) :
  PyStr.endswith s b = true → PyStr.endswith (a +:+ s) b = true.
Proof.
  intros H. induction a as [|x a IH]; [done|].
  rewrite str_app_cons. cbn [PyStr.endswith]. rewrite IH. apply orb_true_r.
Qed.

Lemma contains_char_app (c : ascii) (a b : string) :
  PyStr.contains_char c (a +:+ b) = PyStr.contains_char c a || PyStr.contains_char c b.
Proof.
  induction a as [|x a IH]; [done|]. rewrite str_app_cons.
  cbn [PyStr.contains_char]. by rewrite IH, orb_assoc.
Qed.

Lemma endswith_contains (s : string) (c : ascii) :
  PyStr.endswith s (String c "") = true → PyStr.contains_char c s = true.
Proof.
  induction s as [|x s IH]; [done|]. cbn [PyStr.endswith PyStr.contains_char].
  intros [Heq|Hs]%orb_true_iff.
  - apply String.eqb_eq in Heq. injection Heq as -> ->.
    by rewrite Ascii.eqb_refl.
  - rewrite (IH Hs). apply orb_true_r.
Qed.

(** Every entry of a directory is below its prefix, which is empty or ends
    in a slash. *)
Lemma dir_prefix_slash (d : string) :
  OsPath.dir_prefix d = "" ∨ PyStr.endswith (OsPath.dir_prefix d) "/" = true.
Proof.
  unfold OsPath.dir_prefix. destruct (String.eqb d ""); [by left|]. right.
  destruct (PyStr.endswith d "/") eqn:H; [done|]. apply endswith_app.
Qed.

Lemma startswith_slash_contains (n : string) :
  PyStr.contains_char "/" n = false → PyStr.startswith n "/" = false.
Proof.
  intros H. unfold PyStr.startswith. destruct (String.prefix "/" n) eqn:Hp; [|done].
  apply slash_prefix_contains in Hp. congruence.
Qed.

Lemma join_plain (d n : string) :
  PyStr.contains_char "/" n = false → OsPath.join d n = OsPath.dir_prefix d +:+ n.
Proof. intros H. unfold OsPath.join. by rewrite startswith_slash_contains. Qed.

(** A plain name joined to a directory is listed in it under that name. *)
Lemma entry_name_join (d n : string) :
  n ≠ "" → PyStr.contains_char "/" n = false →
  OsPath.entry_name d (OsPath.join d n) = Some n.
Proof.
  intros Hne Hs. rewrite join_plain by done. unfold OsPath.entry_name.
  rewrite prefix_app, drop_app_length, Hs.
  destruct (String.eqb_spec n ""); done.
Qed.

Lemma basename_plain (n : string) :
  PyStr.contains_char "/" n = false → OsPath.basename n = n.
Proof. intros H. destruct n as [|c n]; [done|]. cbn [OsPath.basename]. by rewrite H. Qed.

Lemma basename_app (pre n : string) :
  (pre = "" ∨ PyStr.endswith pre "/" = true) →
  PyStr.contains_char "/" n = false →
  OsPath.basename (pre +:+ n) = n.
Proof.
  intros Hpre Hn. induction pre as [|c pre IH]; [by apply basename_plain|].
  destruct Hpre as [|Hpre]; [done|].
  assert (Hc : PyStr.contains_char "/" (String c pre +:+ n) = true).
  { rewrite contains_char_app, (endswith_contains _ _ Hpre). done. }
  rewrite str_app_cons in *. cbn [OsPath.basename].
  rewrite Hc. apply IH. destruct pre as [|c' pre]; [by left|]. right.
  cbn [PyStr.endswith] in Hpre. apply orb_true_iff in Hpre as [Heq|H]; [|done].
  apply String.eqb_eq in Heq. discriminate.
Qed.

(** [os.path.basename] undoes [os.path.join] on the names [os.listdir] gives. *)
Lemma basename_entry (d p n : string) :
  OsPath.entry_name d p = Some n → OsPath.basename p = n.
Proof.
  intros H. pose proof (join_entry_name _ _ _ H) as Hj.
  unfold OsPath.entry_name in H.
  destruct (String.prefix (OsPath.dir_prefix d) p); [|done].
  destruct (String.eqb _ "" || _) eqn:Hn; [done|]. injection H as Hn'.
  apply orb_false_elim in Hn as [_ Hs]. rewrite Hn' in Hs.
  rewrite <- Hj, join_plain by done. apply basename_app; [apply dir_prefix_slash|done].
Qed.

Lemma fs_lookup_write_other (p q : string) (f : file) fs :
  q ≠ p → fs_lookup q (fs_write p f fs) = fs_lookup q fs.
Proof.
  intros Hne. unfold fs_write. destruct (fs_lookup p fs) as [g|] eqn:Hg.
  - clear Hg. induction fs as [|[x h] fs IH]; [done|].
    cbn [List.map fst]. destruct (String.eqb_spec x p) as [->|Hxp].
    + rewrite !fs_lookup_cons. destruct (String.eqb_spec p q); [congruence|done].
    + rewrite !fs_lookup_cons. by rewrite IH.
  - clear Hg. induction fs as [|[x h] fs IH].
    + cbn [app]. rewrite fs_lookup_cons. by destruct (String.eqb_spec p q); [congruence|].
    + cbn [app]. rewrite !fs_lookup_cons. by rewrite IH.
Qed.

Lemma str_app_neq (s t : string) : t ≠ "" → s +:+ t ≠ s.
Proof.
  intros Ht Heq. apply (f_equal String.length) in Heq.
  rewrite str_app_length in Heq. destruct t; [done|]. cbn [String.length] in Heq. lia.
Qed.

(** ** The listing, seen from the directory *)

Section ListingEntries.
Import BackupManager Retention.
Variables (cfg : config) (database : option string).

Lemma listdir_entry (d n : string) fs :
  n ∈ os_listdir d fs →
  ∃ f, fs_lookup (OsPath.join d n) fs = Some f ∧ OsPath.basename (OsPath.join d n) = n.
Proof.
  intros Hn. destruct (listdir_lookup d n fs Hn) as [f Hf]. exists f. split; [done|].
  unfold os_listdir in Hn. apply list_elem_of_omap in Hn as ([p g] & _ & Hp).
  cbn [fst] in Hp. rewrite (join_entry_name _ _ _ Hp). by eapply basename_entry.
Qed.

Lemma listing_paths fs :
  path <$> listing cfg database fs ≡ₚ
  OsPath.join (local_path cfg) <$>
    List.filter (is_backup_of database) (os_listdir (local_path cfg) fs).
Proof.
  unfold listing. rewrite sort_desc_Permutation.
  assert (Hall : ∀ n, n ∈ os_listdir (local_path cfg) fs →
            is_Some (fs_lookup (OsPath.join (local_path cfg) n) fs))
    by (intros n; apply listdir_lookup).
  induction (os_listdir (local_path cfg) fs) as [|n names IH]; [done|].
  cbn [omap list_omap List.filter].
  assert (Hrest : ∀ m, m ∈ names →
            is_Some (fs_lookup (OsPath.join (local_path cfg) m) fs))
    by (intros m Hm; apply Hall; by right).
  destruct (is_backup_of database n); [|by apply IH].
  destruct (Hall n) as [f Hf]; [left|]. unfold info_of at 1. rewrite Hf.
  cbn [fmap option_fmap option_map]. rewrite !fmap_cons. cbn [path].
  f_equiv. by apply IH.
Qed.

Lemma listing_entry fs b :
  b ∈ listing cfg database fs →
  ∃ f, fs_lookup (path b) fs = Some f ∧
       size b = f_size f ∧ created b = f_ctime f ∧
       filename b ∈ os_listdir (local_path cfg) fs ∧
       is_backup_of database (filename b) = true ∧
       path b = OsPath.join (local_path cfg) (filename b).
Proof.
  unfold listing. rewrite sort_desc_Permutation, list_elem_of_omap.
  intros (n & Hn & Hb). destruct (is_backup_of database n) eqn:Hok; [|done].
  destruct (listdir_entry _ _ _ Hn) as (f & Hf & Hbase).
  unfold info_of in Hb. rewrite Hf in Hb. injection Hb as <-.
  cbn [path size created filename]. rewrite Hbase. eauto 10.
Qed.

End ListingEntries.

(** X1. [list_backups] never raises and changes nothing. Its answer is sorted
    newest first and holds exactly one entry for each name of the backup
    directory that passes the name filter, under the path
    [os.path.join(local_path, name)]. *)
Theorem list_backups_sorted_matching_entries (cfg : BackupManager.config)
    (database : option string) (w : world) :
  ∃ bs,
    BackupManager.list_backups cfg database w = (Ret bs, w) ∧
    StronglySorted
      (fun a b => (BackupManager.created b <= BackupManager.created a)%Z) bs ∧
    BackupManager.path <$> bs ≡ₚ
      OsPath.join (BackupManager.local_path cfg) <$>
        List.filter (BackupManager.is_backup_of database)
                    (os_listdir (BackupManager.local_path cfg) (w_fs w)).
Proof.
  exists (Retention.listing cfg database (w_fs w)).
  split; [apply list_backups_listing|]. split; [apply sort_desc_sorted|].
  apply listing_paths.
Qed.

(** X2. Every entry [list_backups] returns describes a file that is in the
    backup directory: its size and creation time are those of the file, its
    [filename] is the name under which the directory lists it and passes the
    filter, and its [path] is that name joined to [local_path]. *)
Theorem list_backups_entry_is_file (cfg : BackupManager.config)
    (database : option string) (w : world) :
  ∃ bs,
    BackupManager.list_backups cfg database w = (Ret bs, w) ∧
    Forall (fun b =>
      ∃ f, fs_lookup (BackupManager.path b) (w_fs w) = Some f ∧
           BackupManager.size b = f_size f ∧
           BackupManager.created b = f_ctime f ∧
           BackupManager.filename b
             ∈ os_listdir (BackupManager.local_path cfg) (w_fs w) ∧
           BackupManager.is_backup_of database (BackupManager.filename b) = true ∧
           BackupManager.path b =
             OsPath.join (BackupManager.local_path cfg) (BackupManager.filename b))
      bs.
Proof.
  exists (Retention.listing cfg database (w_fs w)).
  split; [apply list_backups_listing|].
  apply Forall_forall. intros b Hb. by apply listing_entry in Hb.
Qed.

Section ListingPrefix.
Import BackupManager Retention.

Lemma is_backup_of_prefix (db db' n : string) :
  String.prefix db db' = true →
  is_backup_of (Some db') n =
  is_backup_of (Some db) n && PyStr.startswith n db'.
Proof.
  intros Hpre. unfold is_backup_of, PyStr.startswith.
  destruct (PyStr.endswith n ".sql" || PyStr.endswith n ".sql.gz"); [|done].
  cbn [andb]. destruct db' as [|c' db'].
  - destruct db as [|c db]; [|done]. by rewrite prefix_nil.
  - destruct db as [|c db]; [done|].
    destruct (String.prefix (String c' db') n) eqn:Hn; [|by rewrite andb_false_r].
    by rewrite (prefix_trans _ _ _ Hpre Hn).
Qed.

Lemma omap_cons_eq {A B} (g : A → option B) (x : A) (l : list A) :
  omap g (x :: l) =
  match g x with Some y => y :: omap g l | None => omap g l end.
Proof. reflexivity. Qed.

Lemma filter_omap {A B} (k : B → bool) (g g' : A → option B) (l : list A) :
  (∀ x, x ∈ l →
     g' x = match g x with
            | Some b => if k b then Some b else None
            | None => None
            end) →
  omap g' l = List.filter k (omap g l).
Proof.
  induction l as [|x l IH]; intros H; [done|]. rewrite !omap_cons_eq.
  rewrite (H x) by left. rewrite IH by (intros y Hy; apply H; by right).
  destruct (g x) as [b|]; [|done]. cbn [List.filter]. by destruct (k b).
Qed.

Lemma listing_prefix (cfg : config) (db db' : string) fs :
  String.prefix db db' = true →
  listing cfg (Some db') fs =
  List.filter (fun b => PyStr.startswith (filename b) db') (listing cfg (Some db) fs).
Proof.
  intros Hpre. unfold listing. rewrite <- sort_desc_filter. f_equal.
  apply filter_omap. intros n Hn.
  destruct (listdir_entry (local_path cfg) n fs Hn) as (f & Hf & Hbase).
  rewrite (is_backup_of_prefix db db' n Hpre).
  destruct (is_backup_of (Some db) n); cbn [andb]; [|done].
  unfold info_of. rewrite Hf. cbn [fmap option_fmap option_map filename].
  by rewrite Hbase.
Qed.

End ListingPrefix.

(** X3. The database filter of [list_backups] is a test on the beginning of
    the file name: when the name of [db'] starts with the name of [db], the
    listing for [db] also holds every artifact of [db']; the listing for
    [db'] is the part of it whose file names start with [db']. *)
Theorem list_backups_prefix_inclusion (cfg : BackupManager.config)
    (db db' : string) (w : world) :
  String.prefix db db' = true →
  ∃ bs bs',
    BackupManager.list_backups cfg (Some db) w = (Ret bs, w) ∧
    BackupManager.list_backups cfg (Some db') w = (Ret bs', w) ∧
    bs' = List.filter (fun b => PyStr.startswith (BackupManager.filename b) db') bs ∧
    ∀ b, b ∈ bs' → b ∈ bs.
Proof.
  intros Hpre. eexists _, _. split; [apply list_backups_listing|].
  split; [apply list_backups_listing|].
  pose proof (listing_prefix cfg db db' (w_fs w) Hpre) as Heq.
  split; [done|]. intros b. rewrite Heq, elem_of_filter_bool. tauto.
Qed.

(** ** What a cleanup touches *)

Section CleanupFrame.
Import BackupManager Retention.

Lemma remove_old_frame (cutoff : Z) (bs : list backup_info) (n : Z) (w : world) :
  ∃ removed,
    let r := remove_old cutoff bs n w in
    r.1.1 = (n + Z.of_nat (length removed))%Z ∧
    w_fs r.2 = fs_remove_all removed (w_fs w) ∧
    ∀ p, p ∈ removed → p ∈ path <$> bs.
Proof.
  revert n w. induction bs as [|b bs IH]; intros n w.
  - exists []. cbn. split; [lia|]. split; [done|]. by intros p ?%elem_of_nil.
  - cbn [remove_old]. destruct (created b <? cutoff)%Z.
    + destruct (os_remove_cases (path b) w) as [[e ->]| ->].
      * exists []. cbn. split; [lia|]. split; [done|]. by intros p ?%elem_of_nil.
      * destruct (IH (n + 1)%Z (World (fs_remove (path b) (w_fs w)) (w_trace w)))
          as (removed & Hn & Hfs & Hsub).
        exists (path b :: removed). cbn [length]. split; [cbn zeta in *; lia|].
        split; [exact Hfs|]. intros p [->|Hp]%elem_of_cons; rewrite fmap_cons.
        -- left.
        -- right. by apply Hsub.
    + destruct (IH n w) as (removed & Hn & Hfs & Hsub).
      exists removed. split; [done|]. split; [done|].
      intros p Hp. rewrite fmap_cons. right. by apply Hsub.
Qed.

Lemma remove_excess_frame (ex : list backup_info) (n : Z) (w : world) :
  ∃ removed,
    let r := remove_excess ex n w in
    r.1.1 = (n + Z.of_nat (length removed))%Z ∧
    w_fs r.2 = fs_remove_all removed (w_fs w) ∧
    ∀ p, p ∈ removed → p ∈ path <$> ex.
Proof.
  revert n w. induction ex as [|b ex IH]; intros n w.
  - exists []. cbn. split; [lia|]. split; [done|]. by intros p ?%elem_of_nil.
  - cbn [remove_excess]. unfold os_path_exists. destruct (bool_decide _).
    + destruct (os_remove_cases (path b) w) as [[e ->]| ->].
      * exists []. cbn. split; [lia|]. split; [done|]. by intros p ?%elem_of_nil.
      * destruct (IH (n + 1)%Z (World (fs_remove (path b) (w_fs w)) (w_trace w)))
          as (removed & Hn & Hfs & Hsub).
        exists (path b :: removed). cbn [length]. split; [cbn zeta in *; lia|].
        split; [exact Hfs|]. intros p [->|Hp]%elem_of_cons; rewrite fmap_cons.
        -- left.
        -- right. by apply Hsub.
    + destruct (IH n w) as (removed & Hn & Hfs & Hsub).
      exists removed. split; [done|]. split; [done|].
      intros p Hp. rewrite fmap_cons. right. by apply Hsub.
Qed.

Lemma fs_remove_all_app (ps qs : list string) fs :
  fs_remove_all (ps ++ qs) fs = fs_remove_all qs (fs_remove_all ps fs).
Proof. unfold fs_remove_all. apply foldl_app. Qed.

Lemma slice_from_elem {A} (m : Z) (l : list A) (x : A) :
  x ∈ slice_from m l → x ∈ l.
Proof. destruct (slice_from_drop m l) as [k ->]. apply drop_elem. Qed.

Lemma remove_old_none (cutoff : Z) (bs : list backup_info) (n : Z) (w : world) :
  Forall (fun b => (cutoff <= created b)%Z) bs →
  remove_old cutoff bs n w = ((n, Ret tt), w).
Proof.
  induction 1 as [|b bs Hb _ IH]; [done|]. cbn [remove_old].
  by destruct (Z.ltb_spec (created b) cutoff); [lia|].
Qed.

End CleanupFrame.

(** X4. [cleanup_old_backups] never raises and removes only artifacts of its
    own listing: there is a list of removed paths, all of them paths of the
    listing, such that afterwards exactly these are gone and every other
    path holds what it held; the number returned is the number of files
    removed, and the log grows by at most the one error line. *)
Theorem cleanup_removes_only_listed (E : env) (cfg : BackupManager.config)
    (database : option string) (w : world) :
  ∃ n w' bs removed,
    BackupManager.cleanup_old_backups E cfg database w = (Ret n, w') ∧
    BackupManager.list_backups cfg database w = (Ret bs, w) ∧
    n = Z.of_nat (length removed) ∧
    (∀ p, p ∈ removed → p ∈ BackupManager.path <$> bs) ∧
    (∀ q, fs_lookup q (w_fs w') =
          if bool_decide (q ∈ removed) then None else fs_lookup q (w_fs w)) ∧
    (w_trace w' = w_trace w ∨
     ∃ msg, w_trace w' = w_trace w ++ [Log ERROR ("Error during cleanup: " +:+ msg)]).
Proof.
  unfold BackupManager.cleanup_old_backups, BackupManager.cleanup_failed.
  unfold bind, emit, ret. rewrite list_backups_listing.
  set (bs := Retention.listing cfg database (w_fs w)).
  destruct (BackupManager.days_before _ _) as [cutoff|e0].
  2:{ eexists 0%Z, _, bs, []. split; [reflexivity|]. split; [done|].
      split; [done|]. split; [by intros p ?%elem_of_nil|]. cbn [w_fs w_trace].
      split; [intros q; apply (fs_lookup_remove_all [])|].
      right. by exists (exn_msg e0). }
  pose proof (remove_old_trace cutoff bs 0 w) as Ht1.
  destruct (remove_old_frame cutoff bs 0 w) as (rm1 & Hn1 & Hfs1 & Hsub1).
  destruct (BackupManager.remove_old cutoff bs 0 w) as [[n1 [[]|e]] w1];
    cbn [fst snd] in *.
  - destruct (_ <? _)%Z.
    + set (ex := BackupManager.slice_from (BackupManager.max_backups cfg) bs).
      pose proof (remove_excess_trace ex n1 w1) as Ht2.
      destruct (remove_excess_frame ex n1 w1) as (rm2 & Hn2 & Hfs2 & Hsub2).
      assert (Hsub : ∀ p, p ∈ rm1 ++ rm2 → p ∈ BackupManager.path <$> bs).
      { intros p [Hp|Hp]%elem_of_app; [by apply Hsub1|].
        apply Hsub2, list_elem_of_fmap in Hp as (b & -> & Hb).
        apply list_elem_of_fmap_2. by eapply slice_from_elem. }
      destruct (BackupManager.remove_excess ex n1 w1) as [[n2 [[]|e]] w2];
        cbn [fst snd] in *.
      * exists n2, w2, bs, (rm1 ++ rm2). split; [done|]. split; [done|].
        split; [rewrite length_app; lia|]. split; [done|]. split.
        { intros q. rewrite Hfs2, Hfs1, <- fs_remove_all_app.
          apply fs_lookup_remove_all. }
        left. congruence.
      * eexists n2, _, bs, (rm1 ++ rm2). split; [reflexivity|]. split; [done|].
        split; [rewrite length_app; lia|]. split; [done|]. cbn [w_fs w_trace]. split.
        { intros q. rewrite Hfs2, Hfs1, <- fs_remove_all_app.
          apply fs_lookup_remove_all. }
        right. exists (exn_msg e). by rewrite Ht2, Ht1.
    + exists n1, w1, bs, rm1. split; [done|]. split; [done|]. split; [lia|].
      split; [done|]. split.
      { intros q. rewrite Hfs1. apply fs_lookup_remove_all. }
      by left.
  - eexists n1, _, bs, rm1. split; [reflexivity|]. split; [done|]. split; [lia|].
    split; [done|]. cbn [w_fs w_trace]. split.
    { intros q. rewrite Hfs1. apply fs_lookup_remove_all. }
    right. exists (exn_msg e). by rewrite Ht1.
Qed.

(** X5. When the cutoff date exists (the retention period can be taken
    off the present time), no listed artifact is older than it and the
    listing holds at most [max_backups] artifacts, [cleanup_old_backups]
    removes nothing, logs nothing and returns 0. *)
Theorem cleanup_within_limits_is_noop (E : env) (cfg : BackupManager.config)
    (database : option string) (w : world) (bs : list BackupManager.backup_info)
    (cutoff_date : Z) :
  BackupManager.list_backups cfg database w = (Ret bs, w) →
  BackupManager.days_before (datetime_now E w) (BackupManager.retention_days cfg)
    = Ret cutoff_date →
  Forall (fun b =>
    (datetime_now E w - BackupManager.retention_days cfg * BackupManager.day
       <= BackupManager.created b)%Z) bs →
  (Z.of_nat (length bs) <= BackupManager.max_backups cfg)%Z →
  BackupManager.cleanup_old_backups E cfg database w = (Ret 0%Z, w).
Proof.
  intros Hls Hcut Hage Hcount. unfold BackupManager.cleanup_old_backups.
  rewrite Hls, Hcut. rewrite (days_before_value _ _ _ Hcut).
  rewrite remove_old_none by done.
  by destruct (Z.ltb_spec (BackupManager.max_backups cfg) (Z.of_nat (length bs)));
    [lia|].
Qed.

Lemma cleanup_within_limits_is_noop_witness :
  BackupManager.cleanup_old_backups Demo.env0 Demo.backup_cfg (Some "db1")
    Demo.one_artifact = (Ret 0%Z, Demo.one_artifact).
Proof.
  apply (cleanup_within_limits_is_noop Demo.env0 Demo.backup_cfg (Some "db1")
           Demo.one_artifact
           [BackupManager.Info "db1_full_20240409_020000.sql.gz"
              "./backups/db1_full_20240409_020000.sql.gz" 1024
              (99 * BackupManager.day)]
           (70 * BackupManager.day)).
  - vm_compute. reflexivity.
  - vm_compute. reflexivity.
  - repeat constructor. vm_compute. discriminate.
  - vm_compute. discriminate.
Defined.

(** With a retention period no date can be taken off, the cleanup removes
    nothing and logs the overflow. *)
Example cleanup_retention_overflow :
  BackupManager.cleanup_old_backups Demo.env0
    (BackupManager.Config "./backups" true 740000%Z 10%Z) None Demo.one_artifact =
  (Ret 0%Z,
   World (w_fs Demo.one_artifact)
         (w_trace Demo.one_artifact ++
          [Log ERROR "Error during cleanup: date value out of range"])).
Proof. vm_compute. reflexivity. Qed.

(** ** Compression and decompression *)

Lemma occurs_prefix (old s : string) :
  occurs old s = false → String.prefix old s = false.
Proof. destruct s; cbn [occurs]; by intros [? _]%orb_false_elim. Qed.

Lemma occurs_tail (old : string) (c : ascii) (s : string) :
  occurs old (String c s) = false → occurs old s = false.
Proof. cbn [occurs]. by intros [_ ?]%orb_false_elim. Qed.

Lemma replace_go_absent (fuel : nat) (old new s : string) :
  occurs old s = false → PyStr.replace_go fuel old new s = s.
Proof.
  revert s. induction fuel as [|fuel IH]; intros s Hocc; [done|].
  cbn [PyStr.replace_go]. rewrite (occurs_prefix _ _ Hocc).
  destruct s as [|c s]; [done|]. f_equal. apply IH. by eapply occurs_tail.
Qed.

Lemma prefix_gz_app (c1 : ascii) (s : string) :
  String.prefix ".gz" (String c1 s) = false →
  String.prefix ".gz" (String c1 s +:+ ".gz") = false.
Proof.
  rewrite str_app_cons, !prefix_cons.
  destruct (Ascii.ascii_dec "." c1); [|done].
  destruct s as [|c2 s]; [done|]. rewrite str_app_cons, !prefix_cons.
  destruct (Ascii.ascii_dec "g" c2); [|done].
  destruct s as [|c3 s]; [done|]. rewrite str_app_cons, !prefix_cons.
  destruct (Ascii.ascii_dec "z" c3); [|done]. by rewrite !prefix_nil.
Qed.

Lemma replace_go_gz_app (fuel : nat) (s : string) :
  String.length s < fuel → occurs ".gz" s = false →
  PyStr.replace_go fuel ".gz" "" (s +:+ ".gz") = s.
Proof.
  revert s. induction fuel as [|fuel IH]; intros s Hfuel Hocc; [lia|].
  cbn [PyStr.replace_go]. destruct s as [|c s].
  - rewrite str_app_nil_l, prefix_refl, str_app_nil_l. by destruct fuel.
  - rewrite (prefix_gz_app _ _ (occurs_prefix _ _ Hocc)), str_app_cons.
    f_equal. apply IH; [cbn [String.length] in Hfuel; lia|by eapply occurs_tail].
Qed.

(** Stripping [.gz] undoes appending it, when the name holds no other [.gz]. *)
Lemma replace_gz_app (s : string) :
  occurs ".gz" s = false → PyStr.replace (s +:+ ".gz") ".gz" "" = s.
Proof.
  intros H. unfold PyStr.replace. apply replace_go_gz_app; [|done].
  rewrite str_app_length. lia.
Qed.

Lemma endswith_app_short (a b suf : string) :
  String.length suf ≤ String.length b →
  PyStr.endswith (a +:+ b) suf = PyStr.endswith b suf.
Proof.
  intros Hlen. induction a as [|c a IH]; [done|].
  rewrite str_app_cons. cbn [PyStr.endswith]. rewrite IH.
  destruct (String.eqb_spec (String c (a +:+ b)) suf) as [Heq|]; [|done].
  apply (f_equal String.length) in Heq. cbn [String.length] in Heq.
  rewrite str_app_length in Heq. lia.
Qed.

Section Compression.
Import BackupManager.

Lemma compress_file_outcome (E : env) (input_file : string) (w : world) :
  ∃ r w',
    compress_file E input_file w = (Ret r, w') ∧
    (∀ q, q ≠ input_file → q ≠ input_file +:+ ".gz" →
          fs_lookup q (w_fs w') = fs_lookup q (w_fs w)) ∧
    match r with
    | Some output_file =>
        output_file = input_file +:+ ".gz" ∧
        fs_lookup input_file (w_fs w') = None ∧
        w_trace w' = w_trace w ∧
        ∃ f_in n,
          fs_lookup input_file (w_fs w) = Some f_in ∧
          gzip_write E w input_file = Some n ∧
          fs_lookup output_file (w_fs w') =
            Some (File (datetime_now E w) n
                       (GzStream (Z.to_nat (f_size f_in)) true) false)
    | None =>
        fs_lookup input_file (w_fs w') = fs_lookup input_file (w_fs w) ∧
        ∃ msg,
          w_trace w' = w_trace w ++ [Log ERROR ("Error compressing file: " +:+ msg)]
    end.
Proof.
  assert (Hne : input_file ≠ input_file +:+ ".gz").
  { intros Heq. by apply (str_app_neq input_file ".gz"). }
  assert (Hout : String.eqb (input_file +:+ ".gz") "" = false).
  { apply String.eqb_neq. intros Heq. apply (f_equal String.length) in Heq.
    rewrite str_app_length in Heq. cbn in Heq. lia. }
  unfold compress_file, try_except, bind, os_stat, oracle, write_file, os_remove,
    emit, ret, raise.
  destruct (fs_lookup input_file (w_fs w)) as [f_in|] eqn:Hin.
  2:{ eexists None, _. split; [reflexivity|]. cbn [w_fs w_trace].
      split; [done|]. split; [by rewrite Hin|]. eauto. }
  destruct (gzip_write E w input_file) as [n|] eqn:Hgz; rewrite Hout;
    cbn [w_fs w_trace].
  2:{ eexists None, _. split; [reflexivity|]. cbn [w_fs w_trace].
      split; [intros q _ Hq; by apply fs_lookup_write_other|].
      split; [by rewrite fs_lookup_write_other|]. eauto. }
  rewrite (fs_lookup_write_other _ input_file) by done. rewrite Hin.
  destruct (f_locked f_in); cbn [w_fs w_trace].
  { eexists None, _. split; [reflexivity|]. cbn [w_fs w_trace].
    split; [intros q _ Hq; by apply fs_lookup_write_other|].
    split; [by rewrite fs_lookup_write_other|]. eauto. }
  rewrite fs_lookup_remove.
  destruct (String.eqb_spec (input_file +:+ ".gz") input_file) as [Heq|_];
    [by symmetry in Heq|].
  rewrite fs_lookup_write_same.
  eexists (Some _), _. split; [reflexivity|]. cbn [w_fs w_trace]. split.
  { intros q Hq1 Hq2. rewrite fs_lookup_remove.
    destruct (String.eqb_spec q input_file); [done|].
    by apply fs_lookup_write_other. }
  split; [done|]. split; [by rewrite fs_lookup_remove, String.eqb_refl|].
  split; [done|]. exists f_in, n. split; [done|]. split; [done|].
  rewrite fs_lookup_remove.
  destruct (String.eqb_spec (input_file +:+ ".gz") input_file) as [Heq|_];
    [by symmetry in Heq|].
  apply fs_lookup_write_same.
Qed.

Lemma decompress_file_outcome (E : env) (input_file : string) (w : world) :
  let output_file := PyStr.replace input_file ".gz" "" in
  output_file ≠ input_file →
  ∃ r w',
    decompress_file E input_file w = (Ret r, w') ∧
    (∀ q, q ≠ output_file → fs_lookup q (w_fs w') = fs_lookup q (w_fs w)) ∧
    (r = Some output_file ∨ r = None) ∧
    (r = Some output_file ↔
       output_file ≠ "" ∧
       ∃ f n, fs_lookup input_file (w_fs w) = Some f ∧
              gzip_view f = GzStream n true) ∧
    (r = Some output_file → w_trace w' = w_trace w) ∧
    (r = None →
     ∃ msg, w_trace w' =
            w_trace w ++ [Log ERROR ("Error decompressing file: " +:+ msg)]) ∧
    (∀ f, fs_lookup input_file (w_fs w) = Some f → output_file ≠ "" →
          ∃ g, fs_lookup output_file (w_fs w') = Some g ∧
               f_size g = match gzip_view f with
                          | NotGzip => 0%Z
                          | GzStream n true => Z.of_nat n
                          | GzStream n false =>
                              (Z.of_nat n / COPY_BUFSIZE * COPY_BUFSIZE)%Z
                          end ∧
               f_gz g = NotGzip ∧ f_locked g = false).
Proof.
  intros output_file Hne.
  unfold decompress_file, gzip_copy_out, try_except, bind, os_stat, write_file,
    emit, ret, raise.
  fold output_file.
  destruct (fs_lookup input_file (w_fs w)) as [f|] eqn:Hin.
  2:{ eexists None, _. split; [reflexivity|]. cbn [w_fs w_trace].
      split; [done|]. split; [by right|]. split.
      { split; [done|]. by intros (_ & ? & ? & ? & _). }
      split; [done|]. split; [eauto|]. done. }
  destruct (String.eqb_spec output_file "") as [Hempty|Hfull].
  { eexists None, _. split; [reflexivity|]. cbn [w_fs w_trace].
    split; [done|]. split; [by right|]. split.
    { split; [done|]. by intros [? _]. }
    split; [done|]. split; [eauto|]. done. }
  cbn [w_fs w_trace].
  rewrite (fs_lookup_write_other _ input_file) by done. rewrite Hin.
  destruct (gzip_view f) as [|n [|]] eqn:Hgz; cbn [w_fs w_trace].
  - eexists None, _. split; [reflexivity|]. cbn [w_fs w_trace].
    split; [intros q Hq; by apply fs_lookup_write_other|]. split; [by right|].
    split.
    { split; [done|]. intros (_ & f' & n' & [= <-] & Hgz'). congruence. }
    split; [done|]. split; [eauto|].
    intros f' [= <-] _. rewrite Hgz. eexists. split; [apply fs_lookup_write_same|done].
  - destruct (String.eqb_spec output_file ""); [done|]. cbn [w_fs w_trace].
    eexists (Some _), _. split; [reflexivity|]. cbn [w_fs w_trace].
    split; [intros q Hq; by rewrite !fs_lookup_write_other|]. split; [by left|].
    split; [split; [eauto 6|done]|]. split; [done|]. split; [done|].
    intros f' [= <-] _. rewrite Hgz.
    eexists. split; [apply fs_lookup_write_same|done].
  - destruct (String.eqb_spec output_file ""); [done|]. cbn [w_fs w_trace].
    eexists None, _. split; [reflexivity|]. cbn [w_fs w_trace].
    split; [intros q Hq; by rewrite !fs_lookup_write_other|]. split; [by right|].
    split.
    { split; [done|]. intros (_ & f' & n' & [= <-] & Hgz'). congruence. }
    split; [done|]. split; [eauto|].
    intros f' [= <-] _. rewrite Hgz.
    eexists. split; [apply fs_lookup_write_same|done].
Qed.

End Compression.

Lemma list_backups_prefix_inclusion_witness :
  ∃ bs bs',
    BackupManager.list_backups Demo.backup_cfg (Some "shop") Demo.two_databases
      = (Ret bs, Demo.two_databases) ∧
    BackupManager.list_backups Demo.backup_cfg (Some "shop_archive") Demo.two_databases
      = (Ret bs', Demo.two_databases) ∧
    bs' = List.filter
            (fun b => PyStr.startswith (BackupManager.filename b) "shop_archive") bs ∧
    ∀ b, b ∈ bs' → b ∈ bs.
Proof.
  apply (list_backups_prefix_inclusion Demo.backup_cfg "shop" "shop_archive"
           Demo.two_databases).
  reflexivity.
Defined.

(** X6. [compress_file] never raises and keeps exactly one good copy. When
    it answers a path, that path is the input path followed by [.gz], it
    holds a complete gzip stream of as many bytes as the input had, and the
    input file is gone; when it answers [None], the input file is as it was
    and one error line has been logged. No other file is touched. *)
Theorem compress_file_keeps_one_copy (E : env) (input_file : string) (w : world) :
  ∃ r w',
    BackupManager.compress_file E input_file w = (Ret r, w') ∧
    (∀ q, q ≠ input_file → q ≠ input_file +:+ ".gz" →
          fs_lookup q (w_fs w') = fs_lookup q (w_fs w)) ∧
    match r with
    | Some output_file =>
        output_file = input_file +:+ ".gz" ∧
        fs_lookup input_file (w_fs w') = None ∧
        w_trace w' = w_trace w ∧
        ∃ f_in n,
          fs_lookup input_file (w_fs w) = Some f_in ∧
          gzip_write E w input_file = Some n ∧
          fs_lookup output_file (w_fs w') =
            Some (File (datetime_now E w) n
                       (GzStream (Z.to_nat (f_size f_in)) true) false)
    | None =>
        fs_lookup input_file (w_fs w') = fs_lookup input_file (w_fs w) ∧
        ∃ msg,
          w_trace w' = w_trace w ++ [Log ERROR ("Error compressing file: " +:+ msg)]
    end.
Proof. apply compress_file_outcome. Qed.

(** X7. Decompressing what [compress_file] produced gives the original back:
    for an input path that holds no [.gz], [decompress_file] on the
    compressed file answers the input path, the file there has the size the
    input had and is plain again, and the compressed file stays. *)
Theorem compress_then_decompress_restores (E : env) (input_file output_file : string)
    (f_in : file) (w w1 : world) :
  input_file ≠ "" →
  occurs ".gz" input_file = false →
  fs_lookup input_file (w_fs w) = Some f_in →
  (0 <= f_size f_in)%Z →
  BackupManager.compress_file E input_file w = (Ret (Some output_file), w1) →
  ∃ w2 g,
    BackupManager.decompress_file E output_file w1 = (Ret (Some input_file), w2) ∧
    fs_lookup input_file (w_fs w2) = Some g ∧
    f_size g = f_size f_in ∧ f_gz g = NotGzip ∧
    fs_lookup output_file (w_fs w2) = fs_lookup output_file (w_fs w1) ∧
    is_Some (fs_lookup output_file (w_fs w2)).
Proof.
  intros Hne Hocc Hin Hsize Hc.
  destruct (compress_file_outcome E input_file w) as (r & w1' & Hc' & _ & Hr).
  rewrite Hc in Hc'. injection Hc' as <- <-.
  destruct Hr as (-> & _ & _ & f' & n & Hin' & _ & Hout).
  rewrite Hin in Hin'. injection Hin' as <-.
  pose proof (replace_gz_app input_file Hocc) as Hrep.
  assert (Hdiff : PyStr.replace (input_file +:+ ".gz") ".gz" "" ≠ input_file +:+ ".gz").
  { rewrite Hrep. intros Heq. by apply (str_app_neq input_file ".gz"). }
  destruct (decompress_file_outcome E (input_file +:+ ".gz") w1 Hdiff)
    as (r & w2 & Hd & Hframe & _ & Hiff & _ & _ & Hleft).
  rewrite Hrep in *. clear Hrep.
  assert (Hr : r = Some input_file).
  { apply Hiff. split; [done|]. eexists _, _. split; [exact Hout|reflexivity]. }
  subst r. destruct (Hleft _ Hout Hne) as (g & Hg & Hgs & Hgz & _).
  exists w2, g. split; [done|]. split; [done|].
  split; [cbn [gzip_view f_gz] in Hgs; lia|]. split; [done|].
  assert (Hkeep : fs_lookup (input_file +:+ ".gz") (w_fs w2)
                  = fs_lookup (input_file +:+ ".gz") (w_fs w1)).
  { apply Hframe. intros Heq. by apply (str_app_neq input_file ".gz"). }
  split; [done|]. rewrite Hkeep, Hout. eauto.
Qed.

Lemma compress_then_decompress_restores_witness :
  ∃ w1 w2 g,
    BackupManager.compress_file Demo.env0 "./backups/db1_full_20240410_020000.sql"
      Demo.one_dump
      = (Ret (Some "./backups/db1_full_20240410_020000.sql.gz"), w1) ∧
    BackupManager.decompress_file Demo.env0
      "./backups/db1_full_20240410_020000.sql.gz" w1
      = (Ret (Some "./backups/db1_full_20240410_020000.sql"), w2) ∧
    fs_lookup "./backups/db1_full_20240410_020000.sql" (w_fs w2) = Some g ∧
    f_size g = 2048%Z.
Proof.
  eexists.
  destruct (compress_then_decompress_restores Demo.env0
              "./backups/db1_full_20240410_020000.sql"
              "./backups/db1_full_20240410_020000.sql.gz"
              (File (100 * BackupManager.day) 2048 NotGzip false)
              Demo.one_dump _ ltac:(done) eq_refl eq_refl ltac:(done) eq_refl)
    as (w2 & g & Hd & Hg & Hs & _).
  exists w2, g. split; [reflexivity|]. split; [exact Hd|]. split; [exact Hg|exact Hs].
Defined.



(** A stream of 200000 bytes cut short leaves three whole blocks. *)
Example decompress_file_truncated_blocks :
  ∃ w' g,
    BackupManager.decompress_file Demo.env0 "a.sql.gz"
      (World [("a.sql.gz", File 0 70000 (GzStream (Z.to_nat 200000) false) false)] [])
      = (Ret None, w') ∧
    fs_lookup "a.sql" (w_fs w') = Some g ∧ f_size g = 196608%Z.
Proof.
  set (f := File 0 70000 (GzStream (Z.to_nat 200000) false) false).
  destruct (decompress_file_outcome Demo.env0 "a.sql.gz" (World [("a.sql.gz", f)] [])
              ltac:(vm_compute; discriminate))
    as (r & w' & Hd & _ & Hr & Hiff & _ & _ & Hleft).
  destruct (Hleft f eq_refl ltac:(vm_compute; discriminate)) as (g & Hg & Hs & _).
  exists w', g. split; [|split; [exact Hg|]].
  - destruct Hr as [Hr|Hr]; [|by rewrite <- Hr].
    apply Hiff in Hr as (_ & f' & n' & [= <-] & Hs'). discriminate Hs'.
  - rewrite Hs. unfold f. cbn [gzip_view f_gz]. by rewrite Z2Nat.id.
Qed.

(** An empty archive reads as an empty stream. *)
Example decompress_file_empty_archive :
  ∃ w',
    BackupManager.decompress_file Demo.env0 "a.sql.gz"
      (World [("a.sql.gz", File 0 0 NotGzip false)] [])
      = (Ret (Some "a.sql"), w') ∧
    fs_lookup "a.sql" (w_fs w') =
      Some (File (datetime_now Demo.env0 w') 0 NotGzip false).
Proof. eexists. split; vm_compute; reflexivity. Qed.

(** X9. Passing verification does not make an artifact restorable: a
    non-empty [*.gz] file whose gzip stream starts well but is cut short is
    accepted by [verify_backup], and [restore_database] on it answers
    [False] after two error lines, without the database being touched. *)
Theorem truncated_artifact_verifies_but_does_not_restore (E : env)
    (database backup_file : string) (f : file) (n : nat) (w : world) :
  PyStr.endswith backup_file ".gz" = true →
  fs_lookup backup_file (w_fs w) = Some f →
  f_size f ≠ 0%Z →
  f_gz f = GzStream (S n) false →
  BackupManager.verify_backup backup_file w = (Ret true, w) ∧
  ∃ w' msg,
    BackupOrchestrator.restore_database E database backup_file w = (Ret false, w') ∧
    w_trace w' =
      w_trace w ++
      [Log ERROR ("Error decompressing file: " +:+ msg);
       Log ERROR "Restore failed: Failed to decompress backup file"] ∧
    fs_lookup backup_file (w_fs w') = Some f.
Proof.
  intros Hgz Hf Hsize Hstream. split.
  - unfold BackupManager.verify_backup, gzip_read1.
    unfold bind, ret, raise, try_except, emit, os_path_exists, os_stat.
    rewrite Hf, (bool_decide_eq_true_2 (is_Some (Some f))) by eauto. cbn [negb].
    rewrite Hf. destruct (Z.eqb_spec (f_size f) 0); [done|].
    by rewrite Hgz, Hf, (gzip_view_stream _ _ _ Hstream).
  - pose proof (replace_suffix_neq _ Hgz) as Hne.
    destruct (decompress_file_outcome E backup_file w Hne)
      as (r & w1 & Hd & Hframe & Hr & Hiff & _ & Hlog & _).
    assert (Hnone : r = None).
    { destruct Hr as [Hr|Hr]; [|done]. apply Hiff in Hr as (_ & f' & n' & Hf' & Hs').
      rewrite Hf in Hf'. injection Hf' as <-.
      rewrite (gzip_view_stream _ _ _ Hstream) in Hs'. congruence. }
    subst r. destruct (Hlog eq_refl) as (msg & Htrace).
    unfold BackupOrchestrator.restore_database, try_except.
    unfold bind at 1, os_path_exists at 1.
    rewrite Hf, (bool_decide_eq_true_2 (is_Some (Some f))) by eauto. cbn [negb].
    rewrite Hgz. unfold bind at 1. unfold bind at 1. rewrite Hd.
    unfold raise, bind, emit, ret. cbn [w_fs w_trace exn_msg].
    eexists _, msg. split; [reflexivity|]. cbn [w_fs w_trace].
    split; [by rewrite Htrace, <- app_assoc|].
    rewrite Hframe by (intros Heq; apply Hne; symmetry; exact Heq). done.
Qed.

Lemma truncated_artifact_verifies_but_does_not_restore_witness :
  BackupManager.verify_backup "./backups/db1_full_20240409_020000.sql.gz"
    Demo.truncated = (Ret true, Demo.truncated) ∧
  ∃ w' msg,
    BackupOrchestrator.restore_database Demo.env0 "db1"
      "./backups/db1_full_20240409_020000.sql.gz" Demo.truncated = (Ret false, w') ∧
    w_trace w' =
      w_trace Demo.truncated ++
      [Log ERROR ("Error decompressing file: " +:+ msg);
       Log ERROR "Restore failed: Failed to decompress backup file"] ∧
    fs_lookup "./backups/db1_full_20240409_020000.sql.gz" (w_fs w')
      = Some (File (99 * BackupManager.day) 700 (GzStream 4096 false) false).
Proof.
  apply (truncated_artifact_verifies_but_does_not_restore Demo.env0 "db1"
           "./backups/db1_full_20240409_020000.sql.gz"
           (File (99 * BackupManager.day) 700 (GzStream 4096 false) false)
           4095 Demo.truncated).
  - reflexivity.
  - reflexivity.
  - vm_compute. discriminate.
  - reflexivity.
Defined.

(** X10. The name [generate_backup_filename] makes for a database passes
    the filter of [list_backups] for that database (and the filter without
    a database), and it ends in [.gz] exactly when compression is on. *)
Theorem generated_filename_passes_filter (E : env) (cfg : BackupManager.config)
    (database : string) (w : world) :
  ∃ filename,
    BackupManager.generate_backup_filename E cfg database w = (Ret filename, w) ∧
    BackupManager.is_backup_of (Some database) filename = true ∧
    BackupManager.is_backup_of None filename = true ∧
    PyStr.endswith filename ".gz" = BackupManager.compression cfg.
Proof.
  unfold BackupManager.generate_backup_filename, bind, oracle, ret.
  eexists. split; [reflexivity|].
  set (ts := strftime_now E w).
  set (name := database +:+ "_" +:+ "full" +:+ "_" +:+ ts +:+ ".sql").
  assert (Hsql : PyStr.endswith name ".sql" = true).
  { unfold name. rewrite <- !str_app_assoc. apply endswith_app. }
  assert (Hends : PyStr.endswith
            (if BackupManager.compression cfg then name +:+ ".gz" else name) ".sql"
          || PyStr.endswith
            (if BackupManager.compression cfg then name +:+ ".gz" else name) ".sql.gz"
          = true).
  { destruct (BackupManager.compression cfg).
    - apply orb_true_iff. right. unfold name.
      rewrite <- !str_app_assoc. rewrite str_app_assoc. apply endswith_app.
    - by rewrite Hsql. }
  assert (Hstart : String.prefix database
            (if BackupManager.compression cfg then name +:+ ".gz" else name) = true).
  { destruct (BackupManager.compression cfg); unfold name;
      rewrite ?str_app_assoc; apply prefix_app. }
  unfold BackupManager.is_backup_of, PyStr.startswith. rewrite Hends. cbn [andb].
  split; [destruct database; [done|exact Hstart]|]. split; [done|].
  destruct (BackupManager.compression cfg).
  - apply endswith_app.
  - unfold name. rewrite <- !str_app_assoc.
    rewrite endswith_app_short by (cbn; lia). reflexivity.
Qed.

(** ** Restore and dump, file by file *)

(** X11. [restore_database] never raises and never alters the artifact it
    restores from: the artifact holds afterwards what it held before. For
    an artifact that is not named [*.gz] no file changes at all, and for a
    missing artifact the answer is [False] after one error line, without a
    call to the database. *)
Theorem restore_database_preserves_artifact (E : env)
    (database backup_file : string) (w : world) :
  ∃ ok w',
    BackupOrchestrator.restore_database E database backup_file w = (Ret ok, w') ∧
    fs_lookup backup_file (w_fs w') = fs_lookup backup_file (w_fs w) ∧
    (PyStr.endswith backup_file ".gz" = false → w_fs w' = w_fs w) ∧
    (fs_lookup backup_file (w_fs w) = None →
     ok = false ∧
     w' = World (w_fs w)
            (w_trace w ++
             [Log ERROR ("Restore failed: Backup file not found: " +:+ backup_file)])).
Proof.
  unfold BackupOrchestrator.restore_database, try_except.
  unfold bind at 1, os_path_exists at 1.
  destruct (fs_lookup backup_file (w_fs w)) as [f|] eqn:Hf.
  2:{ rewrite (bool_decide_eq_false_2 (is_Some None)) by (by intros [? ?]).
      cbn [negb]. unfold raise, bind, emit, ret. cbn [exn_msg].
      eexists _, _. split; [reflexivity|]. cbn [w_fs]. by rewrite Hf. }
  rewrite (bool_decide_eq_true_2 (is_Some (Some f))) by eauto. cbn [negb].
  destruct (PyStr.endswith backup_file ".gz") eqn:Hgz.
  - pose proof (replace_suffix_neq _ Hgz) as Hne.
    destruct (decompress_file_outcome E backup_file w Hne)
      as (r & w1 & Hd & Hframe & Hr & Hiff & _ & _ & _).
    assert (Hkeep1 : fs_lookup backup_file (w_fs w1) = Some f).
    { rewrite Hframe, Hf; [done|]. intros Heq. apply Hne. by symmetry. }
    unfold bind at 1. unfold bind at 1. rewrite Hd.
    destruct Hr as [->| ->].
    2:{ unfold raise, bind, emit, ret. eexists _, _. split; [reflexivity|].
        cbn [w_fs]. split; [done|]. split; done. }
    destruct (proj1 Hiff eq_refl) as [Hout _].
    destruct (PyStr.replace backup_file ".gz" "") as [|c d] eqn:Hrep; [done|].
    unfold ret at 1.
    destruct (restore_backup_fs E database (String c d) w1) as (ok & w2 & Hres & Hfs).
    unfold bind at 1. rewrite Hres. destruct ok; cbn [negb].
    2:{ unfold raise, bind, emit, ret. eexists _, _. split; [reflexivity|].
        cbn [w_fs]. rewrite Hfs. split; [done|]. split; done. }
    unfold bind at 1, os_path_exists at 1.
    destruct (String.eqb_spec (String c d) backup_file) as [Heq|_]; [done|].
    cbn [negb andb]. destruct (bool_decide _).
    + unfold bind at 1.
      destruct (os_remove_cases (String c d) w2) as [[e ->]| ->].
      * unfold bind, emit, ret. eexists _, _. split; [reflexivity|].
        cbn [w_fs]. rewrite Hfs. split; [done|]. split; done.
      * unfold bind, ret. eexists _, _. split; [reflexivity|]. cbn [w_fs].
        rewrite fs_lookup_remove, Hfs.
        destruct (String.eqb_spec backup_file (String c d)) as [Heq|_]; [|done].
        by symmetry in Heq.
    + unfold bind, ret. eexists _, _. split; [reflexivity|].
      rewrite Hfs. split; [done|]. split; done.
  - unfold ret at 1. unfold bind at 1.
    destruct (restore_backup_fs E database backup_file w) as (ok & w2 & Hres & Hfs).
    unfold bind at 1. rewrite Hres. destruct ok; cbn [negb].
    + rewrite String.eqb_refl. cbn [negb andb].
      unfold bind, os_path_exists, ret. eexists _, _. split; [reflexivity|].
      rewrite Hfs, Hf. split; [done|]. split; done.
    + unfold raise, bind, emit, ret. eexists _, _. split; [reflexivity|].
      cbn [w_fs]. rewrite Hfs, Hf. split; [done|]. split; done.
Qed.

Section Dump.
Import DatabaseConnector.

Lemma create_backup_outcome (E : env) (database output_file : string) (w : world) :
  output_file ≠ "" →
  let w1 := World (fs_write output_file (File (datetime_now E w) 0 NotGzip false)
                     (w_fs w))
                  (w_trace w ++ [Mysqldump database output_file]) in
  ∃ ok w',
    create_backup E database output_file w = (Ret ok, w') ∧
    (ok = true ↔ ∃ n err, mysqldump E w1 database output_file = Some (0%Z, n, err)) ∧
    (∀ q, q ≠ output_file → fs_lookup q (w_fs w') = fs_lookup q (w_fs w)) ∧
    (∃ evs, w_trace w' = w_trace w ++ Mysqldump database output_file :: evs) ∧
    ∃ g, fs_lookup output_file (w_fs w') = Some g ∧
         f_size g = match mysqldump E w1 database output_file with
                    | Some (_, n, _) => n
                    | None => 0%Z
                    end.
Proof.
  intros Hne w1. unfold create_backup, try_except.
  unfold bind at 1, write_file at 1.
  destruct (String.eqb_spec output_file "") as [|_]; [done|].
  unfold bind at 1, emit at 1. unfold bind at 1, oracle at 1.
  cbn [w_fs w_trace]. fold w1.
  destruct (mysqldump E w1 database output_file) as [[[rc n] err]|] eqn:Hdump.
  - unfold bind at 1, write_file at 1.
    destruct (String.eqb_spec output_file "") as [|_]; [done|].
    destruct (Z.eqb_spec rc 0) as [->|Hrc].
    + unfold bind, os_stat, ret. cbn [w_fs w_trace].
      rewrite fs_lookup_write_same. eexists true, _. split; [reflexivity|].
      cbn [w_fs w_trace]. split; [split; [eauto|done]|]. split.
      { intros q Hq. subst w1. cbn [w_fs]. by rewrite !fs_lookup_write_other. }
      split; [exists []; by subst w1|].
      eexists. split; [apply fs_lookup_write_same|done].
    + unfold bind, emit, ret. cbn [w_fs w_trace].
      eexists false, _. split; [reflexivity|]. cbn [w_fs w_trace]. split.
      { split; [done|]. intros (n' & err' & [= ? _ _]). done. }
      split.
      { intros q Hq. subst w1. cbn [w_fs]. by rewrite !fs_lookup_write_other. }
      split; [eexists [_]; subst w1; cbn [w_trace]; by rewrite <- app_assoc|].
      eexists. split; [apply fs_lookup_write_same|done].
  - unfold raise, bind, emit, ret. cbn [w_fs w_trace].
    eexists false, _. split; [reflexivity|]. cbn [w_fs w_trace]. split.
    { split; [done|]. by intros (n' & err' & ?). }
    split.
    { intros q Hq. subst w1. cbn [w_fs]. by rewrite fs_lookup_write_other. }
    split; [eexists [_]; subst w1; cbn [w_trace]; by rewrite <- app_assoc|].
    eexists. split; [subst w1; apply fs_lookup_write_same|done].
Qed.

(** When the output file cannot be opened. *)
Lemma create_backup_not_opened (E : env) (database : string) (w : world) :
  create_backup E database "" w =
  (Ret false,
   World (w_fs w)
         (w_trace w ++
          [Log ERROR "mysqldump not found. Please install MySQL client tools."])).
Proof. reflexivity. Qed.

End Dump.

(** X12. [create_backup] never raises and touches no file but its output.
    When the output file cannot be opened, [mysqldump] is not started: the
    answer is [False] after one error line and no file changes. When
    [mysqldump] is started, the answer is [True] exactly when it could be
    run and exited with code 0, and the output file is on disk afterwards
    with what [mysqldump] wrote (nothing when it could not be run): a
    failed dump leaves its file behind. *)
Theorem create_backup_leaves_output_file (E : env) (database output_file : string)
    (w : world) :
  let w1 := World (fs_write output_file (File (datetime_now E w) 0 NotGzip false)
                     (w_fs w))
                  (w_trace w ++ [Mysqldump database output_file]) in
  ∃ ok w' evs,
    DatabaseConnector.create_backup E database output_file w = (Ret ok, w') ∧
    w_trace w' = w_trace w ++ evs ∧
    (∀ q, q ≠ output_file → fs_lookup q (w_fs w') = fs_lookup q (w_fs w)) ∧
    (Mysqldump database output_file ∉ evs →
     ok = false ∧ w_fs w' = w_fs w ∧ ∃ msg, evs = [Log ERROR msg]) ∧
    (Mysqldump database output_file ∈ evs →
     (ok = true ↔
        ∃ n err, mysqldump E w1 database output_file = Some (0%Z, n, err)) ∧
     ∃ g, fs_lookup output_file (w_fs w') = Some g ∧
          f_size g = match mysqldump E w1 database output_file with
                     | Some (_, n, _) => n
                     | None => 0%Z
                     end).
Proof.
  intros w1. destruct (decide (output_file = "")) as [->|Hne].
  - eexists false, _, [_]. split; [apply create_backup_not_opened|].
    cbn [w_fs w_trace]. split; [done|]. split; [done|]. split; [eauto|].
    intros [[=]|[]%elem_of_nil]%elem_of_cons.
  - destruct (create_backup_outcome E database output_file w Hne)
      as (ok & w' & Hc & Hok & Hframe & [evs Hevs] & Hg).
    exists ok, w', (Mysqldump database output_file :: evs).
    split; [done|]. split; [done|]. split; [done|]. split.
    + intros Hnot. exfalso. apply Hnot. left.
    + intros _. split; [exact Hok|exact Hg].
Qed.

(** A dump that fails leaves its file; an output that cannot be opened
    leaves nothing. *)
Example create_backup_failed_dump :
  ∃ w',
    DatabaseConnector.create_backup Demo.env_dump_fails "db1"
      "./backups/db1_full_20240410_020000.sql" (World [] []) = (Ret false, w') ∧
    is_Some (fs_lookup "./backups/db1_full_20240410_020000.sql" (w_fs w')).
Proof. eexists. split; [vm_compute; reflexivity|]. vm_compute. eauto. Qed.

(** ** A failed dump and the listing *)

Section FailedDump.
Import BackupManager Retention.

Lemma sort_desc_elem (b : backup_info) (l : list backup_info) :
  b ∈ sort_desc l ↔ b ∈ l.
Proof. by rewrite sort_desc_Permutation. Qed.

(** A file of the backup directory whose name passes the filter is listed. *)
Lemma listing_has (cfg : config) (database : option string) fs (n : string) (f : file) :
  n ≠ "" → PyStr.contains_char "/" n = false →
  is_backup_of database n = true →
  fs_lookup (OsPath.join (local_path cfg) n) fs = Some f →
  ∃ b, b ∈ listing cfg database fs ∧
       path b = OsPath.join (local_path cfg) n ∧ filename b = n ∧
       size b = f_size f ∧ created b = f_ctime f.
Proof.
  intros Hne Hslash Hok Hf.
  pose proof (entry_name_join (local_path cfg) n Hne Hslash) as Hentry.
  exists (Info n (OsPath.join (local_path cfg) n) (f_size f) (f_ctime f)).
  split; [|done]. unfold listing. apply sort_desc_elem, list_elem_of_omap.
  exists n. split.
  - unfold os_listdir. apply list_elem_of_omap.
    exists (OsPath.join (local_path cfg) n, f). split; [|done].
    by apply fs_lookup_elem.
  - rewrite Hok. unfold info_of. rewrite Hf. cbn [fmap option_fmap option_map].
    by rewrite (basename_entry _ _ _ Hentry).
Qed.

Lemma endswith_absent (s suf : string) :
  occurs suf s = false → PyStr.endswith s suf = false.
Proof.
  intros H. destruct (PyStr.endswith s suf) eqn:He; [|done].
  apply endswith_occurs in He. congruence.
Qed.

(** The path the dump is written to, whether or not compression is on. *)
Lemma temp_sql_file_path (d name : string) (compression : bool) :
  PyStr.contains_char "/" name = false →
  occurs ".gz" (OsPath.join d name) = false →
  let backup_path :=
    OsPath.join d (if compression then name +:+ ".gz" else name) in
  (if PyStr.endswith backup_path ".gz"
   then PyStr.replace backup_path ".gz" "" else backup_path) = OsPath.join d name.
Proof.
  intros Hslash Hocc. destruct compression; cbn zeta.
  - assert (Hj : OsPath.join d (name +:+ ".gz") = OsPath.join d name +:+ ".gz").
    { rewrite !join_plain, ?str_app_assoc; [done|done|].
      by rewrite contains_char_app, Hslash. }
    rewrite Hj, endswith_app. by apply replace_gz_app.
  - by rewrite endswith_absent.
Qed.

End FailedDump.

(** X13. A failed dump stays in the backup directory and is listed as a
    backup. When the connection test passes and [create_backup] answers
    [False], the run answers [False] and removes nothing: the file the dump
    was written to is still there, and, its name beginning with the
    database name and ending in [.sql], [list_backups] for that database
    returns it among the artifacts. *)
Theorem failed_dump_stays_in_listing (E : env) (cfg : BackupOrchestrator.config)
    (database : string) (w w1 w2 : world) :
  let name :=
    database +:+ "_" +:+ "full" +:+ "_" +:+ strftime_now E w1 +:+ ".sql" in
  let temp_sql_file :=
    OsPath.join (BackupManager.local_path (BackupOrchestrator.backup cfg)) name in
  PyStr.contains_char "/" name = false →
  occurs ".gz" temp_sql_file = false →
  DatabaseConnector.test_connection E w = (Ret true, w1) →
  DatabaseConnector.create_backup E database temp_sql_file w1 = (Ret false, w2) →
  ∃ w' bs b,
    BackupOrchestrator._backup_single_database E cfg database w = (Ret false, w') ∧
    w_fs w' = w_fs w2 ∧
    BackupManager.list_backups (BackupOrchestrator.backup cfg) (Some database) w'
      = (Ret bs, w') ∧
    b ∈ bs ∧
    BackupManager.path b = temp_sql_file ∧ BackupManager.filename b = name.
Proof.
  intros name temp_sql_file Hslash Hocc Htest Hcreate.
  assert (Hname : name ≠ "").
  { unfold name. destruct database; done. }
  assert (Htemp : temp_sql_file ≠ "").
  { unfold temp_sql_file. rewrite join_plain by done. intros Heq.
    apply (f_equal String.length) in Heq. rewrite str_app_length in Heq.
    destruct name; [done|]. cbn [String.length] in Heq. lia. }
  assert (Hdcv : BackupOrchestrator.dump_compress_verify E cfg database w =
                 (Raise (Exn "Exception" "Failed to create database dump"), w2)).
  { unfold BackupOrchestrator.dump_compress_verify. unfold bind at 1.
    rewrite Htest. cbn [negb]. unfold bind at 1.
    unfold BackupManager.generate_backup_filename, bind at 1, oracle at 1, ret at 1.
    fold name.
    rewrite (temp_sql_file_path _ name _ Hslash Hocc). fold temp_sql_file.
    unfold bind at 1. by rewrite Hcreate. }
  assert (Hst : BackupOrchestrator.backup_stages E cfg database (time_time E w) w =
                (Raise (Exn "Exception" "Failed to create database dump"), w2)).
  { unfold BackupOrchestrator.backup_stages, bind. by rewrite Hdcv. }
  pose proof (single_run_failure _ _ _ _ _ _ Hst) as Hrun.
  destruct (create_backup_outcome E database temp_sql_file w1 Htemp)
    as (ok & w2' & Hc & _ & _ & _ & g & Hg & _).
  rewrite Hcreate in Hc. injection Hc as <- <-.
  destruct (listing_has (BackupOrchestrator.backup cfg) (Some database) (w_fs w2)
              name g Hname Hslash) as (b & Hb & Hpath & Hfile & _).
  { unfold BackupManager.is_backup_of, PyStr.startswith.
    assert (Hsql : PyStr.endswith name ".sql" = true).
    { unfold name. rewrite <- !str_app_assoc. apply endswith_app. }
    rewrite Hsql. cbn [orb andb]. destruct database; [done|]. apply prefix_app. }
  { exact Hg. }
  eexists _, _, b. split; [exact Hrun|]. split; [done|].
  split; [apply list_backups_listing|]. done.
Qed.

Lemma failed_dump_stays_in_listing_witness :
  ∃ w' bs b,
    BackupOrchestrator._backup_single_database Demo.env_dump_fails
      Demo.orchestrator_cfg "db1" (World [] []) = (Ret false, w') ∧
    BackupManager.list_backups Demo.backup_cfg (Some "db1") w' = (Ret bs, w') ∧
    b ∈ bs ∧
    BackupManager.path b = "./backups/db1_full_20240410_020000.sql".
Proof.
  destruct (failed_dump_stays_in_listing Demo.env_dump_fails Demo.orchestrator_cfg
              "db1" (World [] []) (World [] [MysqlConnect])
              (World [ ("./backups/db1_full_20240410_020000.sql",
                        File (100 * BackupManager.day) 0 NotGzip false) ]
                     [MysqlConnect;
                      Mysqldump "db1" "./backups/db1_full_20240410_020000.sql";
                      Log ERROR
                        "mysqldump error: mysqldump: Got error: 1049: Unknown database"]))
    as (w' & bs & b & Hrun & _ & Hls & Hb & Hpath & _).
  - reflexivity.
  - reflexivity.
  - reflexivity.
  - vm_compute. reflexivity.
  - exists w', bs, b. split; [exact Hrun|]. split; [exact Hls|].
    split; [exact Hb|exact Hpath].
Defined.

(** ** Starting the scheduler *)

Section SchedulerStart.
Import BackupScheduler.

(** X14. With a recognized cadence the [schedule] library takes (for
    [daily] and [weekly] a time of day it accepts, for [<N>hours] a number
    it registers a job for), [start] on an enabled scheduler that is not
    running registers exactly one job, the one the cadence names, logs
    nothing and marks the scheduler as running. *)
Theorem start_registers_one_job (E : env) (s : scheduler) :
  running s = false →
  enabled s = true →
  recognized E (interval s) = true →
  (interval s = "daily" ∨ interval s = "weekly" →
   schedule_at_ok E (backup_time s) = true) →
  (∀ hours,
     PyStr.endswith (interval s) "hours" = true →
     python_int E (PyStr.replace (interval s) "hours" "") = Some hours →
     schedule_every_hours E hours = Registers) →
  ∃ j,
    start E s = (Ret tt, set_running true (set_jobs [j] s)) ∧
    match j with
    | EveryDayAt t => interval s = "daily" ∧ t = backup_time s
    | EveryHour => interval s = "hourly"
    | EveryHours h =>
        PyStr.endswith (interval s) "hours" = true ∧
        python_int E (PyStr.replace (interval s) "hours" "") = Some h
    | EverySundayAt t => interval s = "weekly" ∧ t = backup_time s
    end.
Proof.
  intros Hrun Hen Hrec Hat Hreg. unfold start, schedule_backups, every_at.
  rewrite Hrun. cbn [set_jobs enabled interval backup_time jobs]. rewrite Hen.
  cbn [negb app].
  destruct (String.eqb_spec (interval s) "daily") as [Hd|Hd].
  { rewrite Hat by auto. by exists (EveryDayAt (backup_time s)). }
  destruct (String.eqb_spec (interval s) "hourly") as [Hh|Hh].
  { by exists EveryHour. }
  destruct (PyStr.endswith (interval s) "hours") eqn:Hends.
  { unfold recognized in Hrec. rewrite Hends in Hrec.
    destruct (String.eqb_spec (interval s) "daily"); [done|].
    destruct (String.eqb_spec (interval s) "hourly"); [done|].
    cbn [orb andb] in Hrec.
    destruct (python_int E (PyStr.replace (interval s) "hours" ""))
      as [h|] eqn:Hint.
    - rewrite (Hreg h eq_refl eq_refl). by exists (EveryHours h).
    - rewrite (bool_decide_eq_false_2 (is_Some None)) in Hrec by (by intros [? ?]).
      cbn [orb] in Hrec. apply String.eqb_eq in Hrec.
      rewrite Hrec in Hends. done. }
  destruct (String.eqb_spec (interval s) "weekly") as [Hw|Hw].
  { rewrite Hat by auto. by exists (EverySundayAt (backup_time s)). }
  unfold recognized in Hrec. rewrite Hends in Hrec.
  destruct (String.eqb_spec (interval s) "daily"); [done|].
  destruct (String.eqb_spec (interval s) "hourly"); [done|].
  destruct (String.eqb_spec (interval s) "weekly"); done.
Qed.

Lemma start_registers_one_job_witness :
  ∃ j,
    start Demo.env0 (init true "02:00" "12hours") =
      (Ret tt, set_running true (set_jobs [j] (init true "02:00" "12hours"))) ∧
    match j with
    | EveryHours h => h = 12%Z
    | _ => False
    end.
Proof.
  destruct (start_registers_one_job Demo.env0 (init true "02:00" "12hours"))
    as (j & Hstart & Hj).
  - reflexivity.
  - reflexivity.
  - vm_compute. reflexivity.
  - intros _. reflexivity.
  - intros hours _ Hint. vm_compute in Hint. injection Hint as <-. reflexivity.
  - exists j. split; [exact Hstart|].
    destruct j as [t| |h|t].
    + destruct Hj as [Hj _]. discriminate Hj.
    + discriminate Hj.
    + destruct Hj as [_ Hj]. vm_compute in Hj. injection Hj as <-. reflexivity.
    + destruct Hj as [Hj _]. discriminate Hj.
Defined.

(** A number of hours the library raises on: the cadence is in the
    grammar, and [start] raises. *)
Example start_raises_on_negative_hours :
  recognized Demo.env0 "-3hours" = true ∧
  start Demo.env0 (init true "02:00" "-3hours") =
  (Raise (Exn "OverflowError" "date value out of range"),
   init true "02:00" "-3hours").
Proof. vm_compute. split; reflexivity. Qed.

(** X15. A time of day the [schedule] library refuses is not logged and
    passed over like a bad cadence: with the cadence [daily] or [weekly],
    [start] on an enabled scheduler raises, and leaves the scheduler not
    running, with the job list cleared. *)
Theorem start_raises_on_rejected_time (E : env) (s : scheduler) :
  running s = false →
  enabled s = true →
  interval s = "daily" ∨ interval s = "weekly" →
  schedule_at_ok E (backup_time s) = false →
  ∃ e,
    start E s = (Raise e, set_jobs [] s) ∧
    running (snd (start E s)) = false ∧ jobs (snd (start E s)) = [].
Proof.
  intros Hrun Hen Hint Hat. unfold start, schedule_backups, every_at.
  rewrite Hrun. cbn [set_jobs enabled interval backup_time jobs]. rewrite Hen, Hat.
  cbn [negb]. destruct Hint as [-> | ->]; cbn; eauto.
Qed.

Lemma start_raises_on_rejected_time_witness :
  ∃ e,
    start Demo.env_strict_clock (init true "25:61" "daily") =
      (Raise e, init true "25:61" "daily").
Proof.
  destruct (start_raises_on_rejected_time Demo.env_strict_clock
              (init true "25:61" "daily")) as (e & Hstart & _).
  - reflexivity.
  - reflexivity.
  - left. reflexivity.
  - reflexivity.
  - exists e. exact Hstart.
Defined.

End SchedulerStart.

(** ** The storage fan-out on its own *)

(** X16. For a file that exists, [upload_backup] never raises, changes no
    file, and returns a mapping with exactly one entry for each enabled
    target and no ['error'] entry: the local entry is always [True], and the
    entry of a remote target says whether its transfer went through. *)
Theorem upload_backup_one_entry_per_target (E : env) (cfg : StorageHandler.config)
    (local_file : string) (w : world) :
  is_Some (fs_lookup local_file (w_fs w)) →
  ∃ results w',
    StorageHandler.upload_backup E cfg local_file w = (Ret results, w') ∧
    w_fs w' = w_fs w ∧
    results !! "error" = None ∧
    (is_Some (results !! "local") ↔ StorageHandler.local_enabled cfg = true) ∧
    (is_Some (results !! "ftp") ↔ StorageHandler.ftp_enabled cfg = true) ∧
    (is_Some (results !! "sftp") ↔ StorageHandler.sftp_enabled cfg = true) ∧
    (∀ t, is_Some (results !! t) → t = "local" ∨ t = "ftp" ∨ t = "sftp") ∧
    (StorageHandler.local_enabled cfg = true → results !! "local" = Some true) ∧
    (StorageHandler.ftp_enabled cfg = true →
     ∃ w0, results !! "ftp" = Some (recorded (ftp_transfer E w0 local_file))) ∧
    (StorageHandler.sftp_enabled cfg = true →
     ∃ w0, results !! "sftp" = Some (recorded (sftp_transfer E w0 local_file))).
Proof.
  intros Hp.
  destruct (upload_backup_outcome E cfg local_file w Hp)
    as (st & w' & evs & Hup & Hfs & _ & Hdom & _ & _ & _ & Hl & Hf & Hs & _).
  exists st, w'. split; [done|]. split; [done|].
  assert (Hin : ∀ t, is_Some (st !! t) ↔
            (t = "local" ∧ StorageHandler.local_enabled cfg = true) ∨
            (t = "ftp" ∧ StorageHandler.ftp_enabled cfg = true) ∨
            (t = "sftp" ∧ StorageHandler.sftp_enabled cfg = true)).
  { intros t. rewrite <- elem_of_dom, Hdom, !elem_of_union.
    destruct (StorageHandler.local_enabled cfg), (StorageHandler.ftp_enabled cfg),
      (StorageHandler.sftp_enabled cfg);
      rewrite ?elem_of_singleton, ?elem_of_empty; intuition congruence. }
  split.
  { apply eq_None_not_Some. rewrite Hin. intros [[? _]|[[? _]|[? _]]]; done. }
  split; [rewrite Hin; intuition congruence|].
  split; [rewrite Hin; intuition congruence|].
  split; [rewrite Hin; intuition congruence|].
  split; [intros t; rewrite Hin; tauto|]. done.
Qed.

Lemma upload_backup_one_entry_per_target_witness :
  ∃ results w',
    StorageHandler.upload_backup Demo.env_ftp_down (StorageHandler.Config true true false)
      "./backups/db1_full_20240409_020000.sql.gz" Demo.one_artifact
      = (Ret results, w') ∧
    results !! "error" = None ∧
    results !! "local" = Some true.
Proof.
  destruct (upload_backup_one_entry_per_target Demo.env_ftp_down
              (StorageHandler.Config true true false)
              "./backups/db1_full_20240409_020000.sql.gz" Demo.one_artifact)
    as (results & w' & Hup & _ & Herr & _ & _ & _ & _ & Hl & _).
  - vm_compute. eexists. reflexivity.
  - exists results, w'. split; [exact Hup|]. split; [exact Herr|].
    apply Hl. reflexivity.
Defined.

(** ** The remote folder *)

Section RemoteCleanup.
Import GoogleDriveFolder.

Lemma delete_requests_app (l k : list call) :
  delete_requests (l ++ k) = delete_requests l ++ delete_requests k.
Proof. apply omap_app. Qed.

Lemma to_backups_ids (E : env) (fs : list remote_file) (bs : list backup) :
  to_backups E fs = Ret bs → b_id <$> bs = id <$> fs.
Proof.
  revert bs. induction fs as [|f fs IH]; intros bs; cbn [to_backups].
  - by intros [= <-].
  - destruct (size_of E f) as [n|e]; [|done].
    destruct (to_backups E fs) as [bs'|e]; [|done].
    intros [= <-]. rewrite !fmap_cons. cbn [b_id]. f_equal. by apply IH.
Qed.

Lemma filter_filter_id (i : string) (deleted : list string) (fs : list remote_file) :
  List.filter (fun f => negb (bool_decide (id f ∈ deleted)))
    (List.filter (fun f => negb (String.eqb (id f) i)) fs) =
  List.filter (fun f => negb (bool_decide (id f ∈ i :: deleted))) fs.
Proof.
  induction fs as [|f fs IH]; [done|]. cbn [List.filter].
  destruct (String.eqb_spec (id f) i) as [Heq|Hne]; cbn [negb].
  - rewrite (bool_decide_eq_true_2 (id f ∈ i :: deleted)) by (rewrite Heq; left).
    exact IH.
  - cbn [List.filter]. rewrite IH.
    replace (bool_decide (id f ∈ i :: deleted)) with (bool_decide (id f ∈ deleted)).
    + done.
    + apply bool_decide_ext. rewrite elem_of_cons. split; [by right|].
      by intros [?|?].
Qed.

(** The loop calls [delete] for every backup it is given, in order,
    whatever the earlier calls gave. *)
Lemma delete_each_spec (S : service) (bs : list backup) (n : Z) (d : drive) :
  ∃ deleted,
    let r := delete_each S true bs n d in
    delete_requests (calls r.2) = delete_requests (calls d) ++ (b_id <$> bs) ∧
    deleted `sublist_of` (b_id <$> bs) ∧
    files r.2 =
      List.filter (fun f => negb (bool_decide (id f ∈ deleted))) (files d) ∧
    r.1 = (n + Z.of_nat (length deleted))%Z.
Proof.
  revert n d. induction bs as [|b bs IH]; intros n d.
  - exists []. cbn. rewrite app_nil_r. split; [done|]. split; [done|].
    split; [|lia]. symmetry. apply List.forallb_filter_id.
    apply List.forallb_forall. intros f _.
    rewrite bool_decide_eq_false_2; [done|]. apply not_elem_of_nil.
  - cbn [delete_each]. unfold delete_backup. cbn [negb].
    destruct (delete_error S (record (FilesDelete (b_id b)) d) (b_id b)) as [e|].
    + destruct (IH n (record (Logged ERROR
                   ("Error deleting from Google Drive: " +:+ exn_msg e))
                   (record (FilesDelete (b_id b)) d)))
        as (deleted & Hc & Hsub & Hf & Hn).
      exists deleted. cbn zeta in *. split.
      { rewrite Hc. cbn [record calls]. rewrite !delete_requests_app.
        cbn. by rewrite app_nil_r, <- app_assoc. }
      split; [rewrite fmap_cons; by apply sublist_cons|]. split; [exact Hf|exact Hn].
    + destruct (IH (n + 1)%Z
                  (Drive (List.filter (fun f => negb (String.eqb (id f) (b_id b)))
                            (files (record (FilesDelete (b_id b)) d)))
                         (calls (record (FilesDelete (b_id b)) d))))
        as (deleted & Hc & Hsub & Hf & Hn).
      exists (b_id b :: deleted). cbn zeta in *. split.
      { rewrite Hc. cbn [record calls]. rewrite !delete_requests_app.
        cbn. by rewrite <- app_assoc. }
      split; [rewrite fmap_cons; by apply sublist_skip|]. split.
      { rewrite Hf. cbn [files record]. apply filter_filter_id. }
      rewrite Hn. cbn [length]. lia.
Qed.

Lemma filter_not_deleted_id (deleted : list string) (fs : list remote_file) :
  (∀ f, f ∈ fs → id f ∉ deleted) →
  List.filter (fun f => negb (bool_decide (id f ∈ deleted))) fs = fs.
Proof.
  intros H. apply List.forallb_filter_id, List.forallb_forall.
  intros f Hf%list_elem_of_In. by rewrite bool_decide_eq_false_2 by auto.
Qed.

Lemma filter_deleted_length (deleted : list string) (fs : list remote_file) :
  NoDup (id <$> fs) → deleted `sublist_of` (id <$> fs) →
  length (List.filter (fun f => negb (bool_decide (id f ∈ deleted))) fs)
    + length deleted = length fs.
Proof.
  revert deleted. induction fs as [|f fs IH]; intros deleted Hnd Hsub.
  - apply sublist_nil_r in Hsub as ->. done.
  - rewrite fmap_cons in Hnd, Hsub. apply NoDup_cons in Hnd as [Hf Hnd].
    apply sublist_cons_r in Hsub as [Hsub|(del' & -> & Hsub)].
    + cbn [List.filter].
      rewrite bool_decide_eq_false_2.
      * cbn [negb length]. rewrite <- (IH deleted Hnd Hsub). lia.
      * intros Hin. apply Hf. by eapply elem_of_sublist.
    + cbn [List.filter].
      rewrite (bool_decide_eq_true_2 (id f ∈ id f :: del')) by left.
      cbn [negb length]. rewrite <- (IH del' Hnd Hsub).
      assert (Hsame :
        List.filter (fun g => negb (bool_decide (id g ∈ id f :: del'))) fs =
        List.filter (fun g => negb (bool_decide (id g ∈ del'))) fs).
      { apply filter_ext_elem. intros g Hg. f_equal. apply bool_decide_ext.
        rewrite elem_of_cons. split; [|by right]. intros [Heq|?]; [|done].
        exfalso. apply Hf. rewrite <- Heq. by apply list_elem_of_fmap_2. }
      rewrite Hsame. lia.
Qed.

End RemoteCleanup.

(** X17. The cleanup of the Drive folder goes on after a deletion that
    fails. With the handler enabled, a listing that goes through, file ids
    that are distinct and [keep_count >= 0], [cleanup_old_backups] calls
    [delete] once for every file after the first [keep_count] of the
    listing, in order, whatever the earlier calls gave; the first
    [keep_count] files are untouched, of the others exactly those whose
    deletion went through are gone, and their number is the number
    returned. *)
Theorem gdrive_cleanup_attempts_every_excess_file (E : env)
    (S : GoogleDriveFolder.service) (keep_count : Z) (d : GoogleDriveFolder.drive)
    (backups : list GoogleDriveFolder.backup) :
  (0 <= keep_count)%Z →
  NoDup (GoogleDriveFolder.id <$> GoogleDriveFolder.files d) →
  GoogleDriveFolder.list_error S
    (GoogleDriveFolder.record GoogleDriveFolder.FilesList d) = None →
  GoogleDriveFolder.to_backups E (GoogleDriveFolder.files d) = Ret backups →
  let k := Z.to_nat keep_count in
  ∃ n d' deleted,
    GoogleDriveFolder.cleanup_old_backups E S true keep_count d = (n, d') ∧
    delete_requests (GoogleDriveFolder.calls d') =
      delete_requests (GoogleDriveFolder.calls d) ++
      (GoogleDriveFolder.id <$> drop k (GoogleDriveFolder.files d)) ∧
    deleted `sublist_of` (GoogleDriveFolder.id <$> drop k (GoogleDriveFolder.files d)) ∧
    GoogleDriveFolder.files d' =
      take k (GoogleDriveFolder.files d) ++
      List.filter (fun f => negb (bool_decide (GoogleDriveFolder.id f ∈ deleted)))
                  (drop k (GoogleDriveFolder.files d)) ∧
    n = Z.of_nat (length deleted) ∧
    length (GoogleDriveFolder.files d') + length deleted
      = length (GoogleDriveFolder.files d).
Proof.
  intros Hk Hnd Hlist Hbs k.
  pose proof (to_backups_ids _ _ _ Hbs) as Hids.
  assert (Hlen : length backups = length (GoogleDriveFolder.files d)).
  { by rewrite <- (length_fmap GoogleDriveFolder.b_id), Hids, length_fmap. }
  assert (Hsplit : ∀ deleted,
            deleted `sublist_of`
              (GoogleDriveFolder.id <$> drop k (GoogleDriveFolder.files d)) →
            List.filter
              (fun f => negb (bool_decide (GoogleDriveFolder.id f ∈ deleted)))
              (GoogleDriveFolder.files d) =
            take k (GoogleDriveFolder.files d) ++
            List.filter
              (fun f => negb (bool_decide (GoogleDriveFolder.id f ∈ deleted)))
              (drop k (GoogleDriveFolder.files d))).
  { intros deleted Hsub.
    rewrite <- (take_drop k (GoogleDriveFolder.files d)) at 1.
    rewrite List.filter_app. f_equal. apply filter_not_deleted_id.
    intros f Hf Hin. rewrite <- (take_drop k (GoogleDriveFolder.files d)) in Hnd.
    rewrite fmap_app in Hnd. apply NoDup_app in Hnd as (_ & Hdisj & _).
    apply (Hdisj (GoogleDriveFolder.id f)); [by apply list_elem_of_fmap_2|].
    by eapply elem_of_sublist. }
  unfold GoogleDriveFolder.cleanup_old_backups, GoogleDriveFolder.list_backups.
  cbn [negb]. rewrite Hlist. unfold GoogleDriveFolder.record.
  cbn [GoogleDriveFolder.files GoogleDriveFolder.calls]. rewrite Hbs, Hlen.
  destruct (Z.leb_spec (Z.of_nat (length (GoogleDriveFolder.files d))) keep_count)
    as [Hle|Hgt].
  - assert (Hdrop : drop k (GoogleDriveFolder.files d) = []).
    { apply drop_ge. lia. }
    eexists 0%Z, _, []. split; [reflexivity|]. cbn [GoogleDriveFolder.calls
      GoogleDriveFolder.files]. rewrite Hdrop. cbn [fmap list_fmap List.filter].
    rewrite delete_requests_app, !app_nil_r. split; [done|]. split; [done|].
    split; [by rewrite take_ge by lia|]. split; [done|]. cbn [length]. lia.
  - unfold BackupManager.slice_from. destruct (Z.leb_spec 0 keep_count); [|lia].
    fold k. set (d1 := GoogleDriveFolder.Drive _ _).
    destruct (delete_each_spec S (skipn k backups) 0 d1)
      as (deleted & Hc & Hsub & Hf & Hn).
    cbn zeta in *.
    assert (Hdropids : GoogleDriveFolder.b_id <$> skipn k backups =
                       GoogleDriveFolder.id <$> drop k (GoogleDriveFolder.files d)).
    { by rewrite !fmap_drop, Hids. }
    rewrite Hdropids in Hc, Hsub.
    destruct (GoogleDriveFolder.delete_each S true (skipn k backups) 0 d1)
      as [n d'] eqn:Hrun. cbn [fst snd] in *.
    exists n, d', deleted. split; [done|]. split.
    { rewrite Hc. subst d1. cbn [GoogleDriveFolder.calls].
      rewrite delete_requests_app. cbn. by rewrite app_nil_r. }
    split; [done|]. split.
    { rewrite Hf. subst d1. cbn [GoogleDriveFolder.files]. by apply Hsplit. }
    split; [lia|]. rewrite Hf. subst d1. cbn [GoogleDriveFolder.files].
    apply filter_deleted_length; [done|].
    etrans; [exact Hsub|]. apply fmap_sublist, sublist_drop.
Qed.

(** ** Telegram *)

Section Telegram.
Import NotificationService.

Lemma posted_to_cons_post (url c text : string) (acts : list action) :
  posted_to (Post url c text :: acts) = c :: posted_to acts.
Proof. reflexivity. Qed.

Lemma posted_to_cons_logged (lv : level) (msg : string) (acts : list action) :
  posted_to (Logged lv msg :: acts) = posted_to acts.
Proof. reflexivity. Qed.

Lemma posted_to_app (l k : list action) :
  posted_to (l ++ k) = posted_to l ++ posted_to k.
Proof. apply omap_app. Qed.

(** When no request raises, the loop posts to every chat, and counts the
    answers with status 200. *)
Lemma post_each_returns (post : poster) (url message : string)
    (ids : list string) (i : nat) (n0 : Z) :
  (∀ j c, ids !! j = Some c → ∃ r, post (i + j) c = Ret r) →
  ∃ n acts,
    post_each post url message ids i n0 = (Ret n, acts) ∧
    posted_to acts = ids ∧
    (n0 <= n)%Z ∧
    ((n0 < n)%Z ↔
     ∃ j c body, ids !! j = Some c ∧ post (i + j) c = Ret (200%Z, body)).
Proof.
  revert i n0. induction ids as [|c ids IH]; intros i n0 Hok.
  - exists n0, []. split; [done|]. split; [done|]. split; [lia|].
    split; [lia|]. by intros (j & c & body & ? & _).
  - cbn [post_each]. destruct (Hok 0 c eq_refl) as [[status text] Hc].
    rewrite Nat.add_0_r in Hc. rewrite Hc.
    assert (Hrest : ∀ n1, ∃ n acts,
              post_each post url message ids (S i) n1 = (Ret n, acts) ∧
              posted_to acts = ids ∧ (n1 <= n)%Z ∧
              ((n1 < n)%Z ↔
               ∃ j c' body, ids !! j = Some c' ∧
                            post (i + S j) c' = Ret (200%Z, body))).
    { intros n1. destruct (IH (S i) n1) as (n & acts & Hrun & Hp & Hle & Hiff).
      - intros j c' Hj. specialize (Hok (S j) c' Hj).
        by rewrite Nat.add_succ_r in Hok.
      - exists n, acts. split; [done|]. split; [done|]. split; [done|].
        rewrite Hiff. by setoid_rewrite Nat.add_succ_r. }
    destruct (Z.eqb_spec status 200) as [->|Hne].
    + destruct (Hrest (n0 + 1)%Z) as (n & acts & Hrun & Hp & Hle & Hiff).
      rewrite Hrun. eexists n, _. split; [reflexivity|].
      split; [by rewrite posted_to_cons_post, Hp|]. split; [lia|].
      split; [|lia]. intros _. exists 0, c, text. by rewrite Nat.add_0_r.
    + destruct (Hrest n0) as (n & acts & Hrun & Hp & Hle & Hiff).
      rewrite Hrun. eexists n, _. split; [reflexivity|].
      split; [by rewrite posted_to_cons_post, posted_to_cons_logged, Hp|].
      split; [lia|]. rewrite Hiff. split.
      * intros (j & c' & body & Hj & Hpost). by exists (S j), c', body.
      * intros ([|j] & c' & body & Hj & Hpost).
        -- injection Hj as <-. rewrite Nat.add_0_r in Hpost. congruence.
        -- by exists j, c', body.
Qed.

(** The first request that raises ends the loop. *)
Lemma post_each_raises (post : poster) (url message : string)
    (before after : list string) (c : string) (e : exn) (i : nat) (n0 : Z) :
  (∀ j c', before !! j = Some c' → ∃ r, post (i + j) c' = Ret r) →
  post (i + length before) c = Raise e →
  ∃ acts,
    post_each post url message (before ++ c :: after) i n0 = (Raise e, acts) ∧
    posted_to acts = before ++ [c].
Proof.
  revert i n0. induction before as [|b before IH]; intros i n0 Hok Hraise.
  - cbn [app post_each length] in *. rewrite Nat.add_0_r in Hraise.
    rewrite Hraise. eexists. split; [reflexivity|done].
  - cbn [app post_each]. destruct (Hok 0 b eq_refl) as [[status text] Hb].
    rewrite Nat.add_0_r in Hb. rewrite Hb.
    assert (Hrest : ∀ n1, ∃ acts,
              post_each post url message (before ++ c :: after) (S i) n1
                = (Raise e, acts) ∧
              posted_to acts = before ++ [c]).
    { intros n1. apply IH.
      - intros j c' Hj. specialize (Hok (S j) c' Hj).
        by rewrite Nat.add_succ_r in Hok.
      - cbn [length] in Hraise. by rewrite Nat.add_succ_r in Hraise. }
    destruct (status =? 200)%Z.
    + destruct (Hrest (n0 + 1)%Z) as (acts & Hrun & Hp). rewrite Hrun.
      eexists. split; [reflexivity|]. by rewrite posted_to_cons_post, Hp.
    + destruct (Hrest n0) as (acts & Hrun & Hp). rewrite Hrun.
      eexists. split; [reflexivity|].
      by rewrite posted_to_cons_post, posted_to_cons_logged, Hp.
Qed.

(** X18. With a bot token and at least one chat configured, and no request
    raising, [send_telegram] posts the message to every chat of
    [chat_ids], once each and in order, also after an answer that is not
    200; it answers [True] exactly when at least one answer had status
    200. *)
Theorem send_telegram_posts_to_every_chat (post : poster) (cfg : telegram_config)
    (token message : string) :
  bot_token cfg = Some token → token ≠ "" → chat_ids cfg ≠ [] →
  (∀ i c, chat_ids cfg !! i = Some c → ∃ r, post i c = Ret r) →
  posted_to (send_telegram post cfg message).2 = chat_ids cfg ∧
  ((send_telegram post cfg message).1 = true ↔
   ∃ i c body, chat_ids cfg !! i = Some c ∧ post i c = Ret (200%Z, body)).
Proof.
  intros Htok Hne Hids Hok. unfold send_telegram. rewrite Htok.
  destruct token as [|t token]; [done|].
  destruct (chat_ids cfg) as [|c0 ids] eqn:Hc; [done|].
  destruct (post_each_returns post
              ("https://api.telegram.org/bot" +:+ String t token +:+ "/sendMessage")
              message (c0 :: ids) 0 0 Hok)
    as (n & acts & Hrun & Hp & _ & Hiff).
  rewrite Hrun. cbn [fst snd]. split; [done|].
  rewrite <- Hiff. apply Z.ltb_lt.
Qed.

(** X19. A request that raises ends [send_telegram]: the chats after it
    are not posted to, and the answer is [False] whatever the earlier
    requests gave, with the exception logged. *)
Theorem send_telegram_exception_aborts (post : poster) (cfg : telegram_config)
    (token message : string) (before after : list string) (c : string) (e : exn) :
  bot_token cfg = Some token → token ≠ "" →
  chat_ids cfg = before ++ c :: after →
  (∀ j c', before !! j = Some c' → ∃ r, post j c' = Ret r) →
  post (length before) c = Raise e →
  ∃ acts,
    send_telegram post cfg message =
      (false,
       acts ++ [Logged ERROR ("Error sending Telegram message: " +:+ exn_msg e)]) ∧
    posted_to acts = before ++ [c].
Proof.
  intros Htok Hne Hids Hok Hraise. unfold send_telegram. rewrite Htok.
  destruct token as [|t token]; [done|]. rewrite Hids.
  destruct (post_each_raises post
              ("https://api.telegram.org/bot" +:+ String t token +:+ "/sendMessage")
              message before after c e 0 0 Hok Hraise)
    as (acts & Hrun & Hp).
  rewrite Hrun. destruct (before ++ c :: after) eqn:Hl.
  - by destruct before.
  - by exists acts.
Qed.

End Telegram.

(** ** Reconfiguring the scheduler *)

Section Control.
Import BackupScheduler SchedulerControl.

(** X20. [configure_scheduler] starts the new scheduler only when the
    update itself carries [enabled: true]. With an update that has no
    [enabled] key the scheduler is left stopped, also when it was running
    before and the merged settings say enabled: the answer is [True] when
    the configuration could be saved, the merged settings are in memory,
    and, if the old scheduler was running, no job is registered any more. *)
Theorem configure_without_enabled_leaves_scheduler_stopped (E : env)
    (save_error : option exn) (config section : settings) (o : orchestrator) :
  scheduler_section o = Some section →
  s_enabled config = None →
  ∃ o',
    configure_scheduler E save_error config o
      = (bool_decide (save_error = None), o') ∧
    running (scheduler o') = false ∧
    enabled (scheduler o') = default true (s_enabled section) ∧
    interval (scheduler o')
      = default "daily" (s_backup_interval (update section config)) ∧
    backup_time (scheduler o')
      = default "02:00" (s_backup_time (update section config)) ∧
    scheduler_section o' = Some (update section config) ∧
    (running (scheduler o) = true → jobs (scheduler o') = []).
Proof.
  intros Hsec Hen. unfold configure_scheduler. rewrite Hsec, Hen. cbn [default].
  assert (Hmerged : s_enabled (update section config) = s_enabled section).
  { unfold update. cbn [s_enabled]. by rewrite Hen. }
  destruct save_error as [e|]; unfold failed; cbn [scheduler scheduler_section];
    eexists; (split; [reflexivity|]); cbn [scheduler scheduler_section];
    unfold new_scheduler, init; cbn [set_jobs running enabled interval backup_time jobs];
    rewrite Hmerged; repeat (split; [done|]);
    intros ->; reflexivity.
Qed.

Lemma configure_without_enabled_leaves_scheduler_stopped_witness :
  ∃ o',
    configure_scheduler Demo.env0 None (Settings None None (Some "hourly"))
      Demo.running_orchestrator = (true, o') ∧
    running (scheduler Demo.running_orchestrator) = true ∧
    running (scheduler o') = false ∧
    enabled (scheduler o') = true ∧
    jobs (scheduler o') = [].
Proof.
  destruct (configure_without_enabled_leaves_scheduler_stopped Demo.env0 None
              (Settings None None (Some "hourly"))
              (Settings (Some true) (Some "02:00") (Some "daily"))
              Demo.running_orchestrator eq_refl eq_refl)
    as (o' & Hrun & Hstopped & Hen & _ & _ & _ & Hjobs).
  exists o'. split; [exact Hrun|]. split; [reflexivity|]. split; [exact Hstopped|].
  split; [exact Hen|]. apply Hjobs. reflexivity.
Defined.

(** X21. A reconfiguration that asks for a start with a time of day the
    [schedule] library refuses answers [False] and leaves no scheduler
    running: the old one has been stopped, the new one has not started and
    no job is registered; the merged settings stay in memory, the saved
    configuration is as before, and one error line is logged. *)
Theorem configure_with_rejected_time_stops_scheduler (E : env)
    (save_error : option exn) (config section : settings) (o : orchestrator) :
  scheduler_section o = Some section →
  s_enabled config = Some true →
  (let i := default "daily" (s_backup_interval (update section config)) in
   i = "daily" ∨ i = "weekly") →
  schedule_at_ok E (default "02:00" (s_backup_time (update section config)))
    = false →
  ∃ o' msg,
    configure_scheduler E save_error config o = (false, o') ∧
    running (scheduler o') = false ∧
    jobs (scheduler o') = [] ∧
    scheduler_section o' = Some (update section config) ∧
    saved_section o' = saved_section o ∧
    errors o' = errors o ++ [msg].
Proof.
  intros Hsec Hen Hint Hat. unfold configure_scheduler. rewrite Hsec, Hen.
  cbn [default] in *.
  set (old := if running (scheduler o) then stop (scheduler o) else scheduler o).
  set (fresh := new_scheduler (update section config) (jobs old)).
  assert (Hstart : ∃ e, start E fresh = (Raise e, set_jobs [] fresh)).
  { unfold start, schedule_backups, every_at, fresh, new_scheduler, init.
    cbn [set_jobs running enabled interval backup_time jobs negb].
    assert (Hen' : s_enabled (update section config) = Some true).
    { unfold update. cbn [s_enabled]. by rewrite Hen. }
    rewrite Hen'. cbn [default negb]. rewrite Hat.
    destruct Hint as [-> | ->]; cbn; eauto. }
  destruct Hstart as [e ->]. unfold failed.
  cbn [scheduler scheduler_section saved_section errors].
  eexists _, _. split; [reflexivity|].
  cbn [scheduler scheduler_section saved_section errors].
  unfold fresh, new_scheduler, init. cbn [set_jobs running jobs]. done.
Qed.

Lemma configure_with_rejected_time_stops_scheduler_witness :
  ∃ o' msg,
    configure_scheduler Demo.env_strict_clock None
      (Settings (Some true) (Some "2 am") None) Demo.running_orchestrator
      = (false, o') ∧
    running (scheduler o') = false ∧
    jobs (scheduler o') = [] ∧
    errors o' = errors Demo.running_orchestrator ++ [msg].
Proof.
  destruct (configure_with_rejected_time_stops_scheduler Demo.env_strict_clock None
              (Settings (Some true) (Some "2 am") None)
              (Settings (Some true) (Some "02:00") (Some "daily"))
              Demo.running_orchestrator eq_refl eq_refl)
    as (o' & msg & Hrun & Hstopped & Hjobs & _ & _ & Herr).
  - left. reflexivity.
  - reflexivity.
  - exists o', msg. split; [exact Hrun|]. split; [exact Hstopped|].
    split; [exact Hjobs|exact Herr].
Defined.

End Control.

(** ** The command line *)

(** X22. The [--backup] command always exits with code 0 once the
    orchestrator exists, and prints [SUCCESS] for every database, whatever
    the runs answered: it tests the truth of each result dictionary, which
    is never empty, not its [success] entry. *)
Theorem backup_command_exit_code_zero (E : env) (cfg : BackupOrchestrator.config)
    (databases : option (list string)) (w : world) :
  ∃ printed w',
    Main.backup_command E cfg databases w = (Ret (printed, 0%Z), w') ∧
    w' = snd (BackupOrchestrator.run_backup E cfg databases w) ∧
    dom printed = list_to_set (default (BackupOrchestrator.databases cfg) databases) ∧
    ∀ db status, printed !! db = Some status → status = "SUCCESS".
Proof.
  assert (Hall : ∀ results : gmap string BackupOrchestrator.result,
            forallb Main.truth (snd <$> map_to_list results) = true).
  { intros results. apply List.forallb_forall. by intros r _. }
  assert (Hprinted : ∀ (results : gmap string BackupOrchestrator.result) db status,
            ((fun success => if Main.truth success then "SUCCESS" else "FAILED")
               <$> results) !! db = Some status → status = "SUCCESS").
  { intros results db status. rewrite lookup_fmap.
    destruct (results !! db); [|done]. by intros [= <-]. }
  unfold Main.backup_command, try_except, bind.
  unfold BackupOrchestrator.run_backup.
  replace (match databases with
           | Some l => l
           | None => BackupOrchestrator.databases cfg
           end) with (default (BackupOrchestrator.databases cfg) databases)
    by (by destruct databases).
  destruct (default (BackupOrchestrator.databases cfg) databases) as [|db dbs] eqn:Hdbs.
  - unfold bind, emit, ret. cbn [snd]. eexists _, _. split; [reflexivity|].
    split; [done|]. split; [by rewrite fmap_empty, dom_empty_L|].
    intros db status. by rewrite fmap_empty, lookup_empty.
  - destruct (backup_each_runs E cfg (db :: dbs) ∅ w)
      as (results & w' & evs & Heach & _ & _ & Hdom & _).
    rewrite Heach. unfold ret. rewrite Hall. cbn [snd].
    eexists _, _. split; [reflexivity|]. split; [done|]. split.
    + by rewrite dom_fmap_L, Hdom, dom_empty_L, (left_id_L ∅ (∪)).
    + apply Hprinted.
Qed.

(** With the database server down every run fails, the mapping says so,
    and the command still prints [SUCCESS] and exits with 0. *)
Example backup_command_hides_failures :
  let w := World [] [] in
  (match fst (BackupOrchestrator.run_backup Demo.env_db_down Demo.orchestrator_cfg
                None w) with
   | Ret results =>
       results !! "db1" = Some (BackupOrchestrator.Result "error" false "db1")
   | Raise _ => False
   end) ∧
  match fst (Main.backup_command Demo.env_db_down Demo.orchestrator_cfg None w) with
  | Ret (printed, code) => printed !! "db1" = Some "SUCCESS" ∧ code = 0%Z
  | Raise _ => False
  end.
Proof. vm_compute. repeat split; reflexivity. Qed.

(** ** The remote cleanup and Telegram on concrete data *)

Lemma gdrive_cleanup_attempts_every_excess_file_witness :
  ∃ n d' (deleted : list string),
    GoogleDriveFolder.cleanup_old_backups Demo.env0 Demo.drive_service true 1 Demo.folder
      = (n, d') ∧
    delete_requests (GoogleDriveFolder.calls d') = ["id2"; "id1"] ∧
    n = Z.of_nat (length deleted) ∧
    length (GoogleDriveFolder.files d') + length deleted = 3.
Proof.
  destruct (gdrive_cleanup_attempts_every_excess_file Demo.env0 Demo.drive_service 1
              Demo.folder
              [ GoogleDriveFolder.Backup "id3" "db1_full_20240410_020000.sql.gz" 512
                  (Some "2024-04-10T02:00:05Z") (Some "2024-04-10T02:00:05Z");
                GoogleDriveFolder.Backup "id2" "db1_full_20240409_020000.sql.gz" 510
                  (Some "2024-04-09T02:00:05Z") (Some "2024-04-09T02:00:05Z");
                GoogleDriveFolder.Backup "id1" "db1_full_20240408_020000.sql.gz" 508
                  (Some "2024-04-08T02:00:05Z") (Some "2024-04-08T02:00:05Z") ])
    as (n & d' & deleted & Hrun & Hcalls & _ & _ & Hn & Hlen).
  - lia.
  - apply (bool_decide_eq_true_1 (NoDup _)). vm_compute. reflexivity.
  - reflexivity.
  - vm_compute. reflexivity.
  - exists n, d', deleted. split; [exact Hrun|]. split; [exact Hcalls|].
    split; [exact Hn|exact Hlen].
Defined.

(** The folder after that cleanup: the newest file is kept, the second is
    still there because its deletion was refused, the third is gone. *)
Example gdrive_cleanup_scenario :
  let r := GoogleDriveFolder.cleanup_old_backups Demo.env0 Demo.drive_service true 1 Demo.folder in
  fst r = 1%Z ∧
  GoogleDriveFolder.id <$> GoogleDriveFolder.files (snd r) = ["id3"; "id2"].
Proof. vm_compute. split; reflexivity. Qed.

Lemma send_telegram_posts_to_every_chat_witness :
  posted_to (NotificationService.send_telegram Demo.poster_second_blocked
               Demo.telegram "Backup Completed Successfully").2
    = ["1001"; "1002"; "1003"] ∧
  (NotificationService.send_telegram Demo.poster_second_blocked
     Demo.telegram "Backup Completed Successfully").1 = true.
Proof.
  destruct (send_telegram_posts_to_every_chat Demo.poster_second_blocked Demo.telegram
              "123456:token" "Backup Completed Successfully") as [Hposted Hok].
  - reflexivity.
  - discriminate.
  - discriminate.
  - intros i c _. unfold Demo.poster_second_blocked.
    destruct (String.eqb c "1002"); eexists; reflexivity.
  - split; [exact Hposted|]. apply Hok. exists 0, "1001", "ok". split; reflexivity.
Defined.

Lemma send_telegram_exception_aborts_witness :
  ∃ acts,
    NotificationService.send_telegram Demo.poster_network_down Demo.telegram
      "Backup Completed Successfully" =
      (false,
       acts ++ [NotificationService.Logged ERROR
                  "Error sending Telegram message: Max retries exceeded"]) ∧
    posted_to acts = ["1001"; "1002"].
Proof.
  apply (send_telegram_exception_aborts Demo.poster_network_down Demo.telegram
           "123456:token" "Backup Completed Successfully" ["1001"] ["1003"] "1002"
           (Exn "ConnectionError" "Max retries exceeded")).
  - reflexivity.
  - discriminate.
  - reflexivity.
  - intros [|j] c' Hj; [|destruct j; discriminate Hj]. eexists. reflexivity.
  - reflexivity.
Defined.

(** ** Dotted configuration keys *)

Section Config.
Import ConfigManager.

Lemma split_dot_nonempty (s : string) : split_dot s ≠ [].
Proof.
  induction s as [|c s IH]; [done|]. cbn [split_dot].
  destruct (Ascii.eqb c "."); [done|]. by destruct (split_dot s).
Qed.

Lemma dict_get_set (k : string) (v : json) (d : list (string * json)) :
  dict_get k (dict_set k v d) = Some v.
Proof.
  induction d as [|[k' v'] d IH]; cbn [dict_set dict_get].
  - by rewrite String.eqb_refl.
  - destruct (String.eqb_spec k' k) as [->|Hne]; cbn [dict_get].
    + by rewrite String.eqb_refl.
    + by destruct (String.eqb_spec k' k).
Qed.

Lemma dict_get_set_ne (k q : string) (v : json) (d : list (string * json)) :
  q ≠ k → dict_get q (dict_set k v d) = dict_get q d.
Proof.
  intros Hne. induction d as [|[k' v'] d IH]; cbn [dict_set dict_get].
  - by destruct (String.eqb_spec k q); [congruence|].
  - destruct (String.eqb_spec k' k) as [->|Hk]; cbn [dict_get].
    + by destruct (String.eqb_spec k q); [congruence|].
    + by rewrite IH.
Qed.

Lemma walk_update_at (keys : list string) (value config config' : json) :
  update_at keys value config = Some config' → walk keys config' = Some value.
Proof.
  revert config config'. induction keys as [|k keys IH]; intros config config'.
  - by destruct config.
  - destruct config as [| | | | |d]; try done. cbn [update_at].
    destruct keys as [|k2 keys].
    + intros [= <-]. cbn [walk subscript]. by rewrite dict_get_set.
    + destruct (update_at (k2 :: keys) value _) as [child'|] eqn:Hchild; [|done].
      intros [= <-]. cbn [walk subscript]. rewrite dict_get_set.
      by eapply IH.
Qed.

(** X23. A value written with [update] is read back by [get] under the
    same dotted key, whatever the default: when [update] does not raise,
    [get] on the updated configuration answers the value. *)
Theorem get_after_update (config config' : json) (key : string)
    (value default : json) :
  update config key value = Some config' →
  get config' key default = value.
Proof.
  unfold update, get. intros H. by rewrite (walk_update_at _ _ _ _ H).
Qed.

Lemma get_after_update_witness :
  ∃ config',
    update (JDict [("backup", JDict [("retention_days", JNum 30)])])
           "backup.retention_days" (JNum 7) = Some config' ∧
    get config' "backup.retention_days" JNull = JNum 7.
Proof.
  eexists. split; [reflexivity|].
  apply (get_after_update
           (JDict [("backup", JDict [("retention_days", JNum 30)])]) _
           "backup.retention_days" (JNum 7) JNull).
  reflexivity.
Defined.

Lemma walk_app (pre rest : list string) (value : json) :
  walk (pre ++ rest) value =
  match walk pre value with
  | Some v => walk rest v
  | None => None
  end.
Proof.
  revert value. induction pre as [|k pre IH]; intros value; [done|].
  cbn [app walk]. by destruct (subscript value k).
Qed.

Lemma update_at_raises (keys : list string) (value config : json) :
  keys ≠ [] →
  (update_at keys value config = None ↔
   ∃ pre rest v,
     keys = pre ++ rest ∧ rest ≠ [] ∧
     walk pre config = Some v ∧ is_dict v = false).
Proof.
  revert config. induction keys as [|k keys IH]; intros config Hne; [done|].
  destruct config as [| | | | |d];
    try (split; [intros _; exists [], (k :: keys); eexists; by repeat split|done]).
  cbn [update_at]. destruct keys as [|k2 keys].
  - split; [done|]. intros (pre & rest & v & Hk & Hrest & Hw & Hv).
    destruct pre as [|p pre].
    + cbn in Hw. by injection Hw as <-.
    + destruct pre; [|done]. by destruct rest.
  - set (child := match dict_get k d with Some v => v | None => JDict [] end).
    specialize (IH child ltac:(done)).
    destruct (update_at (k2 :: keys) value child) as [child'|] eqn:Hchild.
    + split; [done|]. intros (pre & rest & v & Hk & Hrest & Hw & Hv).
      destruct pre as [|p pre].
      { cbn in Hw. by injection Hw as <-. }
      cbn [app] in Hk. injection Hk as <- Hk. cbn [walk subscript] in Hw.
      destruct (dict_get k d) as [c|] eqn:Hc; [|done].
      destruct IH as [_ IH]. discriminate IH. exists pre, rest, v.
      subst child. done.
    + split; [|done]. intros _. destruct IH as [IH _].
      destruct (IH eq_refl) as (pre & rest & v & Hk & Hrest & Hw & Hv).
      destruct (dict_get k d) as [c|] eqn:Hc.
      * exists (k :: pre), rest, v. rewrite Hk. split; [done|]. split; [done|].
        cbn [walk subscript]. rewrite Hc. done.
      * subst child. destruct pre as [|p pre].
        { cbn in Hw. by injection Hw as <-. }
        by cbn in Hw.
Qed.

(** X24. [update] raises (a [TypeError]) exactly when a value that exists
    on the way to the key, the configuration itself included, is not a
    dictionary; missing dictionaries are created. Nothing has been changed
    when it raises. *)
Theorem update_raises_iff_non_dict_on_path (config : json) (key : string)
    (value : json) :
  update config key value = None ↔
  ∃ pre rest v,
    split_dot key = pre ++ rest ∧ rest ≠ [] ∧
    walk pre config = Some v ∧ is_dict v = false.
Proof. apply update_at_raises, split_dot_nonempty. Qed.

(** X25. [update] leaves the other sections alone: a dotted key whose
    first component differs from that of the updated key is read by [get]
    as before. *)
Theorem get_other_section_after_update (config config' : json)
    (key key' : string) (value default : json) :
  update config key value = Some config' →
  head (split_dot key') ≠ head (split_dot key) →
  get config' key' default = get config key' default.
Proof.
  unfold update, get. intros Hup Hne.
  destruct (split_dot key) as [|k keys] eqn:Hk; [by destruct config|].
  destruct (split_dot key') as [|k' keys'] eqn:Hk'.
  { by apply split_dot_nonempty in Hk'. }
  assert (Hkk : k' ≠ k) by (intros ->; by apply Hne).
  destruct config as [| | | | |d]; try done. cbn [update_at] in Hup.
  assert (Hshape : ∃ v, config' = JDict (dict_set k v d)).
  { destruct keys as [|k2 keys]; [injection Hup as <-; eauto|].
    destruct (update_at (k2 :: keys) value _) as [child'|]; [|done].
    injection Hup as <-. eauto. }
  destruct Hshape as [v ->]. cbn [walk subscript].
  by rewrite dict_get_set_ne.
Qed.

Lemma get_other_section_after_update_witness :
  ∃ config',
    update (JDict [("backup", JDict [("retention_days", JNum 30)]);
                   ("scheduler", JDict [("enabled", JBool true)])])
           "backup.max_backups" (JNum 5) = Some config' ∧
    get config' "scheduler.enabled" JNull = JBool true.
Proof.
  eexists. split; [reflexivity|].
  apply (get_other_section_after_update
           (JDict [("backup", JDict [("retention_days", JNum 30)]);
                   ("scheduler", JDict [("enabled", JBool true)])]) _
           "backup.max_backups" "scheduler.enabled" (JNum 5) JNull).
  - reflexivity.
  - vm_compute. discriminate.
Defined.

End Config.
